(** * nvml-gpu-ha: identity derivation, discovery publication and the
      sampling scheduler

    A shallow embedding of the telemetry pipeline of nvml-gpu-ha:
    - package [nvidia] (Linux build): [GetShortPCIBusID], [GetDeviceID],
      [GetDeviceDisplayName], [getGPUMetricsInternal], [GetGPUMetrics];
    - package [homeassistant]: [RegisterGPUSensors], [registerSensor];
    - package [main]: [monitorGPUs], [publishMetrics].

    Go strings are byte strings and are modelled by [string] (one [ascii]
    per byte).  Go's [float64] is Rocq's primitive binary64 [float]. *)

From Stdlib Require Import ZArith NArith List String Ascii Bool Lia.
From Stdlib Require Import Permutation.
From Stdlib Require Import PrimFloat FloatOps SpecFloat DecimalString.
Import ListNotations.

Set Warnings "-register-all".
Open Scope string_scope.

(* ===================================================================== *)
(** ** Go's packages [strings], [fmt] and [strconv], as far as the
       program calls them *)
(* ===================================================================== *)

Module strings.

(** The Unicode case tables of Go's standard library are not part of the
    program.  [strings.ToLower] and [strings.ToUpper] consult them only
    for a string holding a byte >= 0x80; that path is kept abstract. *)
Class Unicode := {
  mapToLower : string -> string;   (* strings.Map(unicode.ToLower, s) *)
  mapToUpper : string -> string    (* strings.Map(unicode.ToUpper, s) *)
}.

Fixpoint allBytes (p : ascii -> bool) (s : string) : bool :=
  match s with
  | EmptyString => true
  | String c r => p c && allBytes p r
  end.

Fixpoint mapBytes (f : ascii -> ascii) (s : string) : string :=
  match s with
  | EmptyString => EmptyString
  | String c r => String (f c) (mapBytes f r)
  end.

(** [c < utf8.RuneSelf] *)
Definition isASCIIByte (c : ascii) : bool := (N_of_ascii c <? 128)%N.

Definition isUpperByte (c : ascii) : bool :=
  ((65 <=? N_of_ascii c) && (N_of_ascii c <=? 90))%N.

Definition isLowerByte (c : ascii) : bool :=
  ((97 <=? N_of_ascii c) && (N_of_ascii c <=? 122))%N.

(** [c += 'a' - 'A'] on an upper-case byte *)
Definition lowerByte (c : ascii) : ascii :=
  if isUpperByte c then ascii_of_N (N_of_ascii c + 32) else c.

(** [c -= 'a' - 'A'] on a lower-case byte *)
Definition upperByte (c : ascii) : ascii :=
  if isLowerByte c then ascii_of_N (N_of_ascii c - 32) else c.

Definition isASCII (s : string) : bool := allBytes isASCIIByte s.

(** [strings.ToLower]: byte-wise on an ASCII-only string, through the
    Unicode tables otherwise. *)
Definition ToLower `{Unicode} (s : string) : string :=
  if isASCII s then mapBytes lowerByte s else mapToLower s.

(** [strings.ToUpper] *)
Definition ToUpper `{Unicode} (s : string) : string :=
  if isASCII s then mapBytes upperByte s else mapToUpper s.

(** [strings.Split(s, sep)] for a one-byte separator: the segments of
    [s] between the occurrences of [sep]; never empty. *)
Fixpoint Split (s : string) (sep : ascii) : list string :=
  match s with
  | EmptyString => [EmptyString]
  | String c r =>
      if Ascii.eqb c sep then EmptyString :: Split r sep
      else match Split r sep with
           | [] => [String c EmptyString]
           | p :: ps => String c p :: ps
           end
  end.

(** [strings.Replace(s, old, new, -1)] for a one-byte [old]. *)
Fixpoint Replace (s : string) (old : ascii) (new : string) : string :=
  match s with
  | EmptyString => EmptyString
  | String c r =>
      if Ascii.eqb c old then new ++ Replace r old new
      else String c (Replace r old new)
  end.

(** [strings.HasPrefix(s, prefix)] *)
Definition HasPrefix (s pre : string) : bool := String.prefix pre s.

(** [strings.TrimPrefix(s, prefix)] *)
Definition TrimPrefix (s pre : string) : string :=
  if HasPrefix s pre
  then substring (String.length pre) (String.length s - String.length pre) s
  else s.

(** [strings.Contains(s, substr)] for a one-byte [substr]. *)
Fixpoint ContainsByte (s : string) (c : ascii) : bool :=
  match s with
  | EmptyString => false
  | String x r => Ascii.eqb x c || ContainsByte r c
  end.

End strings.

Module fmt.

(** The verb [%d] on an integer. *)
Definition d (z : Z) : string := NilZero.string_of_int (Z.to_int z).

(** Nearest integer to [m / 2^k], halves to the even neighbour. *)
Definition roundHalfEven (m : Z) (k : Z) : Z :=
  let q := Z.shiftr m k in
  let r := (m - Z.shiftl q k)%Z in
  match (2 * r ?= Z.shiftl 1 k)%Z with
  | Lt => q
  | Gt => (q + 1)%Z
  | Eq => if Z.even q then q else (q + 1)%Z
  end.

(** The verb [%.0f] on a float64: the decimal digits of the value rounded
    to an integer, halves to even, as [strconv.FormatFloat(f, 'f', 0, 64)]
    prints it. *)
Definition f0 (f : float) : string :=
  match Prim2SF f with
  | S754_zero s => if s then "-0" else "0"
  | S754_infinity s => if s then "-Inf" else "+Inf"
  | S754_nan => "NaN"
  | S754_finite s m e =>
      let n := if (0 <=? e)%Z then Z.shiftl (Zpos m) e
               else roundHalfEven (Zpos m) (- e) in
      (if s then "-" else "") ++ d n
  end.

End fmt.

(** Go's conversion [float64(n)] of an unsigned integer: the binary64
    value nearest to [n], ties to even. *)
Definition float64 (n : Z) : float :=
  SF2Prim (binary_normalize 53 1024 n 0 false).

(* ===================================================================== *)
(** ** The hardware library (go-nvml), as an opaque capability *)
(* ===================================================================== *)

Module nvml.

(** [nvml.Return]: the program only tells [SUCCESS], [ERROR_NOT_SUPPORTED]
    and every other code apart. *)
Inductive Return :=
| SUCCESS
| ERROR_NOT_SUPPORTED
| ERROR_OTHER (code : Z).

Definition isSUCCESS (r : Return) : bool :=
  match r with SUCCESS => true | _ => false end.

Definition isNOT_SUPPORTED (r : Return) : bool :=
  match r with ERROR_NOT_SUPPORTED => true | _ => false end.

Record Memory := { Total : Z; Free : Z; Used : Z }.

Record Utilization := { Gpu : Z; Mem : Z }.

(** [nvml.Device]: what each query of the handle answers when a sample is
    taken (value and return code). *)
Record Device := {
  GetPowerUsage : Z * Return;              (* milliwatts, uint32 *)
  GetPerformanceState : Z * Return;        (* nvml.Pstates *)
  GetMemoryInfo : Memory * Return;
  GetUtilizationRates : Utilization * Return;
  GetTemperature : Z * Return              (* TEMPERATURE_GPU, uint32 *)
}.

End nvml.

(* ===================================================================== *)
(** ** Package [nvidia] (Linux build) *)
(* ===================================================================== *)

Module nvidia.
Import strings.

Record GPUDevice := {
  Index : Z;
  Handle : nvml.Device;
  Name : string;
  PCIBusID : string;
  Memory : Z;          (* total memory in bytes, uint64 *)
  UUID : string
}.

Record GPUMetrics := {
  PowerDraw : float;          (* Watts *)
  PerformanceLevel : string;  (* P0, P8, etc. *)
  MemoryUsage : float;        (* Percentage *)
  GPUUtilization : Z;         (* Percentage *)
  MemoryUtilization : Z;      (* Percentage *)
  Temperature : Z             (* Celsius *)
}.

(** [GPUMetrics{}] *)
Definition zeroMetrics : GPUMetrics :=
  {| PowerDraw := 0; PerformanceLevel := ""; MemoryUsage := 0;
     GPUUtilization := 0; MemoryUtilization := 0; Temperature := 0 |}.

(** The errors built with [fmt.Errorf]; the text [nvml.ErrorString]
    gives for a code is kept as the code. *)
Inductive error :=
| ErrPowerUsage (ret : nvml.Return)
| ErrPerformanceState (ret : nvml.Return)
| ErrMemoryInfo (ret : nvml.Return)
| ErrUtilizationRates (ret : nvml.Return)
| ErrTemperature (ret : nvml.Return)
| ErrTimeout (name : string).

(** Assignments to one field of [metrics]. *)
Definition setPowerDraw (v : float) (m : GPUMetrics) : GPUMetrics :=
  {| PowerDraw := v; PerformanceLevel := PerformanceLevel m;
     MemoryUsage := MemoryUsage m; GPUUtilization := GPUUtilization m;
     MemoryUtilization := MemoryUtilization m;
     Temperature := Temperature m |}.

Definition setPerformanceLevel (v : string) (m : GPUMetrics) : GPUMetrics :=
  {| PowerDraw := PowerDraw m; PerformanceLevel := v;
     MemoryUsage := MemoryUsage m; GPUUtilization := GPUUtilization m;
     MemoryUtilization := MemoryUtilization m;
     Temperature := Temperature m |}.

Definition setMemoryUsage (v : float) (m : GPUMetrics) : GPUMetrics :=
  {| PowerDraw := PowerDraw m; PerformanceLevel := PerformanceLevel m;
     MemoryUsage := v; GPUUtilization := GPUUtilization m;
     MemoryUtilization := MemoryUtilization m;
     Temperature := Temperature m |}.

Definition setUtilization (gpu mem : Z) (m : GPUMetrics) : GPUMetrics :=
  {| PowerDraw := PowerDraw m; PerformanceLevel := PerformanceLevel m;
     MemoryUsage := MemoryUsage m; GPUUtilization := gpu;
     MemoryUtilization := mem; Temperature := Temperature m |}.

Definition setTemperature (v : Z) (m : GPUMetrics) : GPUMetrics :=
  {| PowerDraw := PowerDraw m; PerformanceLevel := PerformanceLevel m;
     MemoryUsage := MemoryUsage m; GPUUtilization := GPUUtilization m;
     MemoryUtilization := MemoryUtilization m; Temperature := v |}.

(** One query of [getGPUMetricsInternal] either goes on with the metrics
    ([inl]) or returns them at once with an error ([inr]). *)
Notation "'go' m <- c ;; k" :=
  (match c with
   | inl m => k
   | inr (m', e) => (m', Some e)
   end)
  (at level 10, m name, c at level 100, k at level 200, only parsing).

(** [getGPUMetricsInternal]: the five queries in order; an unsupported
    query leaves its field at the zero value, any other failure returns
    the metrics gathered so far together with an error. *)
Definition getGPUMetricsInternal (device : GPUDevice)
  : GPUMetrics * option error :=
  let h := Handle device in
  let metrics := zeroMetrics in
  (* Get power draw *)
  let '(power, ret) := nvml.GetPowerUsage h in
  go metrics <-
    (if nvml.isSUCCESS ret
     then inl (setPowerDraw (float64 power / 1000) metrics)
     else if negb (nvml.isNOT_SUPPORTED ret)
     then inr (metrics, ErrPowerUsage ret)
     else inl metrics) ;;
  (* Get performance state *)
  let '(perfState, ret) := nvml.GetPerformanceState h in
  go metrics <-
    (if nvml.isSUCCESS ret
     then inl (setPerformanceLevel ("P" ++ fmt.d perfState) metrics)
     else if negb (nvml.isNOT_SUPPORTED ret)
     then inr (metrics, ErrPerformanceState ret)
     else inl metrics) ;;
  (* Get memory usage *)
  let '(memInfo, ret) := nvml.GetMemoryInfo h in
  go metrics <-
    (if nvml.isSUCCESS ret
     then inl (setMemoryUsage
                 (float64 (nvml.Used memInfo)
                    / float64 (nvml.Total memInfo) * 100) metrics)
     else inr (metrics, ErrMemoryInfo ret)) ;;
  (* Get utilization rates *)
  let '(utilization, ret) := nvml.GetUtilizationRates h in
  go metrics <-
    (if nvml.isSUCCESS ret
     then inl (setUtilization (nvml.Gpu utilization) (nvml.Mem utilization)
                 metrics)
     else if negb (nvml.isNOT_SUPPORTED ret)
     then inr (metrics, ErrUtilizationRates ret)
     else inl metrics) ;;
  (* Get temperature *)
  let '(temperature, ret) := nvml.GetTemperature h in
  go metrics <-
    (if nvml.isSUCCESS ret
     then inl (setTemperature temperature metrics)
     else if negb (nvml.isNOT_SUPPORTED ret)
     then inr (metrics, ErrTemperature ret)
     else inl metrics) ;;
  (metrics, None).

(** [GetGPUMetrics]: the internal query raced against a 10 second timer.
    [inTime] tells whether the query's answer arrives before the timer
    fires; when it does not, the answer is dropped. *)
Definition GetGPUMetrics (inTime : bool) (device : GPUDevice)
  : GPUMetrics * option error :=
  if inTime then getGPUMetricsInternal device
  else (zeroMetrics, Some (ErrTimeout (Name device))).

(** [GetShortPCIBusID] formats PCI Bus ID from 00000000:04:00.0 to
    00:04:00.0 *)
Definition GetShortPCIBusID (pciBusID : string) : string :=
  let parts := Split pciBusID ":" in
  if (3 <=? List.length parts)%nat then
    let domain := nth 0 parts "" in
    let domain :=
      if (2 <? String.length domain)%nat
      then substring (String.length domain - 2) 2 domain
      else domain in
    domain ++ ":" ++ nth 1 parts "" ++ ":" ++ nth 2 parts ""
  else pciBusID.

(** [GetDeviceID] generates a unique device identifier for MQTT topics *)
Definition GetDeviceID `{Unicode} (device : GPUDevice) : string :=
  let shortPCIBusID := GetShortPCIBusID (PCIBusID device) in
  let deviceID := Replace shortPCIBusID ":" "_" in
  let deviceID := Replace deviceID "." "_" in
  let uuidSuffix := Replace (UUID device) "-" "" in
  let uuidSuffix :=
    if (8 <? String.length uuidSuffix)%nat
    then substring 0 8 uuidSuffix
    else uuidSuffix in
  ToLower (deviceID ++ "_" ++ uuidSuffix).

(** [GetDeviceDisplayName]: {HOSTNAME} {PCI ID} - NVIDIA {MODEL} {VRAM} *)
Definition GetDeviceDisplayName `{Unicode}
  (device : GPUDevice) (hostname : string) : string :=
  let vramGB := (float64 (Memory device) / 1073741824)%float in
  let modelName := Name device in
  let modelName :=
    if HasPrefix (ToUpper modelName) "NVIDIA "
    then TrimPrefix modelName "NVIDIA "
    else modelName in
  let shortPCIBusID := GetShortPCIBusID (PCIBusID device) in
  hostname ++ " " ++ shortPCIBusID ++ " - NVIDIA " ++ modelName
    ++ " " ++ fmt.f0 vramGB ++ "GB".

End nvidia.

(* ===================================================================== *)
(** ** [encoding/json] documents and the MQTT client *)
(* ===================================================================== *)

Module json.

(** A JSON document, as a tree.  [Marshal] results are kept at this level;
    the bytes of the encoding are not modelled. *)
Inductive value :=
| Null
| Bool (b : bool)
| Float (f : float)
| Int (n : Z)
| Str (s : string)
| Array (items : list value)
| Object (fields : list (string * value)).

(** The field [name] of an object. *)
Fixpoint lookup (name : string) (fields : list (string * value))
  : option value :=
  match fields with
  | [] => None
  | (k, v) :: rest => if String.eqb k name then Some v else lookup name rest
  end.

Definition field (name : string) (doc : value) : option value :=
  match doc with
  | Object fields => lookup name fields
  | _ => None
  end.

(** A struct field tagged [omitempty]: left out when it is the empty
    string. *)
Definition omitempty (name : string) (s : string) : list (string * value) :=
  if String.eqb s "" then [] else [(name, Str s)].

(** The dynamic values [publishMetrics] stores in its
    [map[string]interface{}]. *)
Inductive interface :=
| Float64 (f : float)
| GoString (s : string)
| GoInt (n : Z).

(** [json.Marshal] on such a value: a float64 that is NaN or infinite
    is refused with an error. *)
Definition Marshal (v : interface) : option value :=
  match v with
  | Float64 f =>
      if (is_nan f || is_infinity f)%bool then None else Some (Float f)
  | GoString s => Some (Str s)
  | GoInt n => Some (Int n)
  end.

End json.

Module mqtt.

(** One call of [client.Publish(topic, qos, retained, payload)]. *)
Record Message := {
  topic : string;
  qos : Z;
  retained : bool;
  payload : json.value
}.

(** The bus client: [sent] is the record of the [Publish] calls made so
    far, oldest first; [acks] tells, from that record and the message,
    whether the token of a publish completes within its wait and without
    error. *)
Record Client := {
  acks : list Message -> Message -> bool;
  sent : list Message
}.

(** [token := client.Publish(...)] followed by
    [token.WaitTimeout(...) && token.Error() == nil]. *)
Definition Publish (c : Client) (m : Message) : Client * bool :=
  ({| acks := acks c; sent := sent c ++ [m] |}, acks c (sent c) m).

End mqtt.

(* ===================================================================== *)
(** ** Package [config] *)
(* ===================================================================== *)

Module config.

Record Config := {
  Hostname : string;
  MQTTHost : string;
  MQTTPort : Z;
  MQTTUsername : string;
  MQTTPassword : string;
  MQTTLWTEnable : bool;
  MQTTRetain : bool;
  PollingPeriod : Z     (* seconds, int *)
}.

Definition DefaultConfig : Config :=
  {| Hostname := ""; MQTTHost := "localhost"; MQTTPort := 1883;
     MQTTUsername := ""; MQTTPassword := "";
     MQTTLWTEnable := true; MQTTRetain := true; PollingPeriod := 30 |}.

End config.

(* ===================================================================== *)
(** ** Package [homeassistant]: MQTT discovery *)
(* ===================================================================== *)

Module homeassistant.
Import strings.

Record Manager := {
  client : mqtt.Client;
  config : config.Config
}.

Record DeviceInfo := {
  Identifiers : list string;
  DeviceName : string;        (* json:"name" *)
  Model : string;
  Manufacturer : string;
  SwVersion : string
}.

Record SensorConfig := {
  Name : string;
  StateTopic : string;
  UniqueID : string;
  DeviceClass : string;
  UnitOfMeasurement : string;
  Icon : string;
  Device : DeviceInfo;
  AvailabilityTopic : string;
  PayloadAvailable : string;
  PayloadNotAvailable : string;
  ValueTemplate : string;
  StateClass : string;
  ForceUpdate : bool
}.

(** [json.Marshal] of a [*DeviceInfo], following the struct tags. *)
Definition MarshalDeviceInfo (d : DeviceInfo) : json.value :=
  json.Object
    ([("identifiers", json.Array (map json.Str (Identifiers d)));
      ("name", json.Str (DeviceName d));
      ("model", json.Str (Model d));
      ("manufacturer", json.Str (Manufacturer d))]
     ++ json.omitempty "sw_version" (SwVersion d)).

(** [json.Marshal] of a [SensorConfig], following the struct tags. *)
Definition MarshalSensorConfig (c : SensorConfig) : json.value :=
  json.Object
    ([("name", json.Str (Name c));
      ("state_topic", json.Str (StateTopic c));
      ("unique_id", json.Str (UniqueID c))]
     ++ json.omitempty "device_class" (DeviceClass c)
     ++ json.omitempty "unit_of_measurement" (UnitOfMeasurement c)
     ++ json.omitempty "icon" (Icon c)
     ++ [("device", MarshalDeviceInfo (Device c))]
     ++ json.omitempty "availability_topic" (AvailabilityTopic c)
     ++ json.omitempty "payload_available" (PayloadAvailable c)
     ++ json.omitempty "payload_not_available" (PayloadNotAvailable c)
     ++ json.omitempty "value_template" (ValueTemplate c)
     ++ json.omitempty "state_class" (StateClass c)
     ++ (if ForceUpdate c then [("force_update", json.Bool true)] else [])).

(** The anonymous struct of the sensor table. *)
Record sensorDef := {
  key : string;
  name : string;
  deviceClass : string;
  unit : string;
  icon : string;
  stateClass : string;
  template : string
}.

(** The literal [sensors] of [RegisterGPUSensors]. *)
Definition sensors : list sensorDef :=
  [ {| key := "power_draw"; name := "Power Draw"; deviceClass := "power";
       unit := "W"; icon := "mdi:lightning-bolt";
       stateClass := "measurement"; template := "" |};
    {| key := "performance_level"; name := "Performance Level";
       deviceClass := ""; unit := ""; icon := "mdi:speedometer";
       stateClass := ""; template := "" |};
    {| key := "memory_usage"; name := "VRAM Usage"; deviceClass := "";
       unit := "%"; icon := "mdi:memory"; stateClass := "measurement";
       template := "{{ value | round(1) }}" |};
    {| key := "gpu_utilization"; name := "GPU Utilization";
       deviceClass := ""; unit := "%"; icon := "mdi:chip";
       stateClass := "measurement"; template := "" |};
    {| key := "temperature"; name := "GPU Temperature";
       deviceClass := "temperature";
       unit := String (ascii_of_nat 194) (String (ascii_of_nat 176) "C");
       icon := "mdi:thermometer"; stateClass := "measurement";
       template := "" |} ].

Inductive error :=
| ErrPublishConfig                       (* failed to publish sensor config *)
| ErrRegisterSensor (key : string) (cause : error).

(** [registerSensor] registers a single sensor with Home Assistant. *)
Definition registerSensor (m : Manager)
  (deviceID deviceName sensorKey sensorName deviceClass unit icon
     stateClass template : string) (deviceInfo : DeviceInfo)
  : Manager * option error :=
  let uniqueID := "nvml_gpu_" ++ deviceID ++ "_" ++ sensorKey in
  let stateTopic :=
    "homeassistant/sensor/nvml-gpu/" ++ deviceID ++ "_" ++ sensorKey
      ++ "/state" in
  let configTopic :=
    "homeassistant/sensor/nvml-gpu/" ++ deviceID ++ "_" ++ sensorKey
      ++ "/config" in
  let fullSensorName := sensorName in
  let lwt := config.MQTTLWTEnable (config m) in
  let sensorConfig :=
    {| Name := fullSensorName;
       StateTopic := stateTopic;
       UniqueID := uniqueID;
       DeviceClass := deviceClass;
       UnitOfMeasurement := unit;
       Icon := icon;
       Device := deviceInfo;
       AvailabilityTopic :=
         if lwt then "homeassistant/sensor/nvml-gpu-ha/availability" else "";
       PayloadAvailable := if lwt then "online" else "";
       PayloadNotAvailable := if lwt then "offline" else "";
       ValueTemplate := if String.eqb template "" then "" else template;
       StateClass := stateClass;
       ForceUpdate := true |} in
  let configJSON := MarshalSensorConfig sensorConfig in
  let '(c, ok) :=
    mqtt.Publish (client m)
      {| mqtt.topic := configTopic; mqtt.qos := 1;
         mqtt.retained := config.MQTTRetain (config m);
         mqtt.payload := configJSON |} in
  let m' := {| client := c; config := config m |} in
  if ok then (m', None) else (m', Some ErrPublishConfig).

(** The [for _, sensor := range sensors] loop of [RegisterGPUSensors]. *)
Fixpoint registerEach (m : Manager) (deviceID deviceName : string)
  (deviceInfo : DeviceInfo) (l : list sensorDef)
  : Manager * option error :=
  match l with
  | [] => (m, None)
  | sensor :: rest =>
      match registerSensor m deviceID deviceName (key sensor) (name sensor)
              (deviceClass sensor) (unit sensor) (icon sensor)
              (stateClass sensor) (template sensor) deviceInfo with
      | (m', Some err) => (m', Some (ErrRegisterSensor (key sensor) err))
      | (m', None) => registerEach m' deviceID deviceName deviceInfo rest
      end
  end.

(** [RegisterGPUSensors] registers all sensors for a GPU device. *)
Definition RegisterGPUSensors `{Unicode} (m : Manager)
  (device : nvidia.GPUDevice) (hostname : string)
  : Manager * option error :=
  let deviceID := nvidia.GetDeviceID device in
  let deviceName := nvidia.GetDeviceDisplayName device hostname in
  let deviceInfo :=
    {| Identifiers := [deviceID; nvidia.UUID device];
       DeviceName := deviceName;
       Model := nvidia.Name device;
       Manufacturer := "NVIDIA";
       SwVersion := "NVML" |} in
  registerEach m deviceID deviceName deviceInfo sensors.

End homeassistant.

(* ===================================================================== *)
(** ** Package [main]: the sampling scheduler and the metric publisher *)
(* ===================================================================== *)

Module main.
Import strings.

(** *** Package [time] *)

(** A [time.Time] is an instant in nanoseconds since the zero [Time]; a
    [time.Duration] is an int64 count of nanoseconds. *)
Definition Time := Z.
Definition Duration := Z.

Definition Second : Duration := 1000000000%Z.
Definition minDuration : Duration := (- 2 ^ 63)%Z.
Definition maxDuration : Duration := (2 ^ 63 - 1)%Z.

(** int64 arithmetic wraps around. *)
Definition wrap64 (z : Z) : Z := ((z + 2 ^ 63) mod 2 ^ 64 - 2 ^ 63)%Z.

(** [t.Sub(u)]: the difference, saturated to the int64 range. *)
Definition Sub (t u : Time) : Duration :=
  Z.max minDuration (Z.min maxDuration (t - u)%Z).

(** [time.Since(t)] when the clock reads [now]. *)
Definition Since (now t : Time) : Duration := Sub now t.

(** *** The scheduler state: the package variables [isMonitoring] and
    [lastMonitorTime], both guarded by [monitoringMutex] *)

Record Monitor := {
  isMonitoring : bool;
  lastMonitorTime : Time
}.

(** The state at program start: the zero values. *)
Definition initial : Monitor :=
  {| isMonitoring := false; lastMonitorTime := 0%Z |}.

(** [time.Duration(cfg.PollingPeriod/2) * time.Second]: the period is an
    [int] of seconds, halved by integer division. *)
Definition minInterval (cfg : config.Config) : Duration :=
  wrap64 (Z.quot (config.PollingPeriod cfg) 2 * Second)%Z.

Inductive entry :=
| SkipInProgress   (* Previous monitoring request still in progress *)
| SkipTooSoon      (* Too soon since last monitoring *)
| Start.           (* Starting GPU monitoring cycle... *)

(** The guards at the head of [monitorGPUs], evaluated when the clock
    reads [now]. *)
Definition enter (cfg : config.Config) (st : Monitor) (now : Time)
  : Monitor * entry :=
  if isMonitoring st then (st, SkipInProgress)
  else if (Since now (lastMonitorTime st) <? minInterval cfg)%Z
  then (st, SkipTooSoon)
  else ({| isMonitoring := true; lastMonitorTime := lastMonitorTime st |},
        Start).

(** The deferred function of [monitorGPUs], run when the cycle returns
    and the clock reads [now]. *)
Definition leave (st : Monitor) (now : Time) : Monitor :=
  {| isMonitoring := false; lastMonitorTime := now |}.

(** *** The metric publisher *)

(** What the Go runtime decides during a cycle: whether a device's query
    answers before the 10 second timer (the queries of a cycle wait for
    one another on [requestMutex], so the answer for one device may be
    late because of another), the order in which [range] visits the
    entries of a map, and which of the goroutines that publish runs next:
    [schedule] names it by its position among them, step after step, and
    once the list is used up the goroutines left run in the order of
    their devices. *)
Record Runtime := {
  inTime : nvidia.GPUDevice -> bool;
  rangeOrder :
    list (string * json.interface) -> list (string * json.interface);
  schedule : list nat
}.

(** The map literal [sensors] of [publishMetrics], in source order. *)
Definition sensors (metrics : nvidia.GPUMetrics)
  : list (string * json.interface) :=
  [ ("power_draw", json.Float64 (nvidia.PowerDraw metrics));
    ("performance_level", json.GoString (nvidia.PerformanceLevel metrics));
    ("memory_usage", json.Float64 (nvidia.MemoryUsage metrics));
    ("gpu_utilization", json.GoInt (nvidia.GPUUtilization metrics));
    ("temperature", json.GoInt (nvidia.Temperature metrics)) ].

(** The body of the loop [for sensor, value := range sensors]. *)
Definition publishSensor (cfg : config.Config) (deviceID : string)
  (client : mqtt.Client) (entry : string * json.interface) : mqtt.Client :=
  let '(sensor, value) := entry in
  let topic :=
    "homeassistant/sensor/nvml-gpu/" ++ deviceID ++ "_" ++ sensor
      ++ "/state" in
  match json.Marshal value with
  | None => client                                   (* continue *)
  | Some payload =>
      fst (mqtt.Publish client
             {| mqtt.topic := topic; mqtt.qos := 1;
                mqtt.retained := config.MQTTRetain cfg;
                mqtt.payload := payload |})
  end.

(** [publishMetrics] *)
Definition publishMetrics `{Unicode} (rt : Runtime) (cfg : config.Config)
  (client : mqtt.Client) (gpu : nvidia.GPUDevice)
  (metrics : nvidia.GPUMetrics) : mqtt.Client :=
  let deviceID := nvidia.GetDeviceID gpu in
  fold_left (publishSensor cfg deviceID)
    (rangeOrder rt (sensors metrics)) client.

(** The goroutine [monitorGPUs] starts for one device, when no other
    goroutine publishes in between. *)
Definition monitorGPU `{Unicode} (rt : Runtime) (cfg : config.Config)
  (client : mqtt.Client) (gpu : nvidia.GPUDevice) : mqtt.Client :=
  match nvidia.GetGPUMetrics (inTime rt gpu) gpu with
  | (_, Some _) => client            (* Failed to get metrics: return *)
  | (metrics, None) => publishMetrics rt cfg client gpu metrics
  end.

(** *** The goroutines of a cycle

    [monitorGPUs] starts one goroutine per device and waits for all of
    them.  The goroutines share the client.  One whose sample fails
    returns without a publish; the others run the loop of
    [publishMetrics], each at its own pace: their publishes interleave
    as the scheduler decides. *)

(** A goroutine inside the loop of [publishMetrics]: the short-id of its
    device and the entries of its map still to visit. *)
Record goroutine := {
  deviceID : string;
  pending : list (string * json.interface)
}.

(** The goroutine of a device, from the call of [publishMetrics] on; none
    when the sample fails. *)
Definition spawn `{Unicode} (rt : Runtime) (gpu : nvidia.GPUDevice)
  : list goroutine :=
  match nvidia.GetGPUMetrics (inTime rt gpu) gpu with
  | (_, Some _) => []
  | (metrics, None) =>
      [{| deviceID := nvidia.GetDeviceID gpu;
          pending := rangeOrder rt (sensors metrics) |}]
  end.

(** The goroutine at position [i] runs the body of its loop once, on the
    shared client; nothing happens when there is no such goroutine or it
    has left its loop. *)
Fixpoint turn (cfg : config.Config) (i : nat) (gs : list goroutine)
  (client : mqtt.Client) {struct gs} : list goroutine * mqtt.Client :=
  match gs with
  | [] => ([], client)
  | g :: rest =>
      match i with
      | O =>
          match pending g with
          | [] => (gs, client)
          | e :: es =>
              ({| deviceID := deviceID g; pending := es |} :: rest,
               publishSensor cfg (deviceID g) client e)
          end
      | S j =>
          let '(rest', client') := turn cfg j rest client in
          (g :: rest', client')
      end
  end.

(** The goroutines run to their ends one after the other. *)
Definition finish (cfg : config.Config) (gs : list goroutine)
  (client : mqtt.Client) : mqtt.Client :=
  fold_left
    (fun c g => fold_left (publishSensor cfg (deviceID g)) (pending g) c)
    gs client.

(** The goroutines run as the schedule says, up to [wg.Wait()], which
    returns when all of them have ended. *)
Fixpoint interleave (cfg : config.Config) (steps : list nat)
  (gs : list goroutine) (client : mqtt.Client) : mqtt.Client :=
  match steps with
  | [] => finish cfg gs client
  | i :: later =>
      let '(gs', client') := turn cfg i gs client in
      interleave cfg later gs' client'
  end.

(** [monitorGPUs], called when the clock reads [now] and, if a cycle
    runs, returning when it reads [done]. *)
Definition monitorGPUs `{Unicode} (rt : Runtime) (cfg : config.Config)
  (st : Monitor) (client : mqtt.Client) (gpus : list nvidia.GPUDevice)
  (now done : Time) : Monitor * mqtt.Client :=
  match enter cfg st now with
  | (st', Start) =>
      (leave st' done,
       interleave cfg (schedule rt) (flat_map (spawn rt) gpus) client)
  | (st', _) => (st', client)
  end.

(** *** The main loop and its ticker as a transition system

    The channel [ticker.C] has room for one tick: the timer sends without
    blocking, and a tick that fires while one waits is dropped.  The loop
    of [run] receives from the channel only at its [select], which it
    reaches when the call of [monitorGPUs] it made for the tick before
    has returned: [monitoringMutex] is held by that call from its guards
    to its deferred function.  [running] counts the cycles started and
    not yet ended. *)

Inductive event :=
| Fire                  (* the timer fires: a send on ticker.C *)
| Take (now : Time)     (* case <-ticker.C: monitorGPUs is called *)
| Return (now : Time).  (* the cycle ends: the deferred function runs *)

Record Sched := {
  monitor : Monitor;
  waiting : bool;       (* ticker.C holds a tick *)
  running : nat
}.

Definition start : Sched :=
  {| monitor := initial; waiting := false; running := 0 |}.

(** One event; [None] when the program cannot do it in that state. *)
Definition step (cfg : config.Config) (s : Sched) (e : event)
  : option Sched :=
  match e with
  | Fire =>
      Some {| monitor := monitor s; waiting := true; running := running s |}
  | Take now =>
      match waiting s, running s with
      | true, O =>
          match enter cfg (monitor s) now with
          | (st', Start) =>
              Some {| monitor := st'; waiting := false;
                      running := S (running s) |}
          | (st', _) =>
              Some {| monitor := st'; waiting := false;
                      running := running s |}
          end
      | _, _ => None     (* no tick waits, or the loop is inside a cycle *)
      end
  | Return now =>
      match running s with
      | O => None                       (* no cycle to end *)
      | S n =>
          Some {| monitor := leave (monitor s) now; waiting := waiting s;
                  running := n |}
      end
  end.

(** The loop of [run] from program start, under a sequence of events;
    [None] when the program cannot do them in that order. *)
Definition run (cfg : config.Config) (events : list event) : option Sched :=
  fold_left
    (fun (s : option Sched) (e : event) =>
       match s with
       | Some s => step cfg s e
       | None => None
       end)
    events (Some start).

End main.

(* ===================================================================== *)
(** ** Package [nvidia], continued: device enumeration *)
(* ===================================================================== *)

Module enumeration.

(** An [int8] read as a [byte], bit for bit. *)
Definition byteOfInt8 (c : Z) : ascii := ascii_of_N (Z.to_N (c mod 256)).

(** The count [n] of [convertCString]: the elements before the first 0. *)
Fixpoint lenToNUL (cstr : list Z) : nat :=
  match cstr with
  | [] => 0
  | c :: rest => if (c =? 0)%Z then 0 else S (lenToNUL rest)
  end.

(** [convertCString] converts a C-style char array (a [[32]int8]) to a Go
    string. *)
Definition convertCString (cstr : list Z) : string :=
  string_of_list_ascii (map byteOfInt8 (firstn (lenToNUL cstr) cstr)).

(** [nvml.PciInfo], of which only [BusId], a [[32]int8], is read. *)
Record PciInfo := { BusId : list Z }.

(** What a device handle answers to the static queries of
    [GetGPUDevices]; [device] is the handle the metric queries use. *)
Record Handle := {
  device : nvml.Device;
  GetName : string * nvml.Return;
  GetPciInfo : PciInfo * nvml.Return;
  GetUUID : string * nvml.Return
}.

(** The library calls of the enumeration.  The count is the unsigned
    count NVML reports, hence a [nat]. *)
Record Library := {
  DeviceGetCount : nat * nvml.Return;
  DeviceGetHandleByIndex : nat -> Handle * nvml.Return
}.

Inductive error :=
| ErrDeviceCount (ret : nvml.Return)
| ErrDeviceHandle (index : nat) (ret : nvml.Return)
| ErrDeviceName (ret : nvml.Return)
| ErrPciInfo (ret : nvml.Return)
| ErrMemoryInfo (ret : nvml.Return)
| ErrDeviceUUID (ret : nvml.Return).

(** The body of the loop of [GetGPUDevices] after the handle is
    obtained: four queries, then the [GPUDevice] literal. *)
Definition describe (i : nat) (h : Handle) : nvidia.GPUDevice + error :=
  let '(name, ret) := GetName h in
  if negb (nvml.isSUCCESS ret) then inr (ErrDeviceName ret) else
  let '(pciInfo, ret) := GetPciInfo h in
  if negb (nvml.isSUCCESS ret) then inr (ErrPciInfo ret) else
  let '(memInfo, ret) := nvml.GetMemoryInfo (device h) in
  if negb (nvml.isSUCCESS ret) then inr (ErrMemoryInfo ret) else
  let '(uuid, ret) := GetUUID h in
  if negb (nvml.isSUCCESS ret) then inr (ErrDeviceUUID ret) else
  inl {| nvidia.Index := Z.of_nat i;
         nvidia.Handle := device h;
         nvidia.Name := name;
         nvidia.PCIBusID := convertCString (BusId pciInfo);
         nvidia.Memory := nvml.Total memInfo;
         nvidia.UUID := uuid |}.

(** The loop [for i := 0; i < count; i++], from index [i] with [n]
    devices left. *)
Fixpoint enumerate (lib : Library) (i n : nat)
  : list nvidia.GPUDevice + error :=
  match n with
  | O => inl []
  | S n' =>
      let '(h, ret) := DeviceGetHandleByIndex lib i in
      if negb (nvml.isSUCCESS ret) then inr (ErrDeviceHandle i ret) else
      match describe i h with
      | inr e => inr e
      | inl d =>
          match enumerate lib (S i) n' with
          | inr e => inr e
          | inl ds => inl (d :: ds)
          end
      end
  end.

(** [GetGPUDevices] returns all available GPU devices, or [nil] and an
    error. *)
Definition GetGPUDevices (lib : Library)
  : list nvidia.GPUDevice * option error :=
  let '(count, ret) := DeviceGetCount lib in
  if negb (nvml.isSUCCESS ret) then ([], Some (ErrDeviceCount ret)) else
  match enumerate lib 0 count with
  | inl devices => (devices, None)
  | inr e => ([], Some e)
  end.

End enumeration.

(* ===================================================================== *)
(** ** Publishes whose payload is a Go string: sensor removal,
       availability and the last will *)
(* ===================================================================== *)

Module text.

(** One call of [client.Publish] (or one [SetWill]) with a string
    payload. *)
Record Message := {
  topic : string;
  qos : Z;
  retained : bool;
  payload : string
}.

End text.

Module availability.
Import strings.

(** The literal [sensors] of [RemoveGPUSensors]. *)
Definition sensors : list string :=
  ["power_draw"; "performance_level"; "memory_usage"; "gpu_utilization";
   "temperature"].

(** The loop of [RemoveGPUSensors]: every sensor is published to; a
    publish that is not acknowledged ([acks]) is logged, nothing more.
    The result is the publishes made and the sensors logged as failed. *)
Fixpoint removeEach (cfg : config.Config) (acks : text.Message -> bool)
  (deviceID : string) (l : list string) : list text.Message * list string :=
  match l with
  | [] => ([], [])
  | sensor :: rest =>
      let configTopic :=
        "homeassistant/sensor/nvml-gpu/" ++ deviceID ++ "_" ++ sensor
          ++ "/config" in
      (* Send empty payload to remove the sensor *)
      let msg :=
        {| text.topic := configTopic; text.qos := 1;
           text.retained := config.MQTTRetain cfg; text.payload := "" |} in
      let '(published, logged) := removeEach cfg acks deviceID rest in
      (msg :: published, if acks msg then logged else sensor :: logged)
  end.

(** [RemoveGPUSensors] removes all sensors for a GPU device; the error it
    returns is always [nil]. *)
Definition RemoveGPUSensors `{Unicode} (cfg : config.Config)
  (acks : text.Message -> bool) (device : nvidia.GPUDevice)
  : list text.Message * list string * option homeassistant.error :=
  let deviceID := nvidia.GetDeviceID device in
  (removeEach cfg acks deviceID sensors, None).

Inductive error :=
| ErrPublishAvailability.     (* failed to publish availability *)

(** [PublishAvailability] publishes availability status. *)
Definition PublishAvailability (cfg : config.Config)
  (acks : text.Message -> bool) (status : string)
  : list text.Message * option error :=
  if negb (config.MQTTLWTEnable cfg) then ([], None)
  else
    let topic := "homeassistant/sensor/nvml-gpu-ha/availability" in
    let msg :=
      {| text.topic := topic; text.qos := 1;
         text.retained := config.MQTTRetain cfg; text.payload := status |} in
    if acks msg then ([msg], None) else ([msg], Some ErrPublishAvailability).

(** The [mqtt.ClientOptions] that [setupMQTTClient] builds.  [OnConnect]
    is what the connect handler publishes each time the client connects. *)
Record ClientOptions := {
  Broker : string;
  ClientID : string;
  Username : string;
  Password : string;
  AutoReconnect : bool;
  ConnectRetry : bool;
  ConnectRetryInterval : Z;          (* nanoseconds *)
  Will : option text.Message;
  OnConnect : list text.Message
}.

(** The options of [setupMQTTClient].  [random] is the hex encoding of
    the three bytes of [rand.Read] when it succeeds; [unix] is
    [time.Now().Unix()]. *)
Definition clientOptions (cfg : config.Config) (random : option string)
  (unix : Z) : ClientOptions :=
  {| Broker :=
       "tcp://" ++ config.MQTTHost cfg ++ ":" ++ fmt.d (config.MQTTPort cfg);
     ClientID :=
       match random with
       | Some hex => "nvml-gpu-ha-" ++ hex
       | None => "nvml-gpu-ha-" ++ fmt.d unix
       end;
     Username := config.MQTTUsername cfg;
     Password := config.MQTTPassword cfg;
     AutoReconnect := true;
     ConnectRetry := true;
     ConnectRetryInterval := 10 * 1000000000;
     Will :=
       if config.MQTTLWTEnable cfg
       then Some {| text.topic :=
                      "homeassistant/sensor/nvml-gpu-ha/availability";
                    text.qos := 1;
                    text.retained := config.MQTTRetain cfg;
                    text.payload := "offline" |}
       else None;
     OnConnect :=
       if config.MQTTLWTEnable cfg
       then [{| text.topic :=
                  "homeassistant/sensor/nvml-gpu-ha/availability";
                text.qos := 1;
                text.retained := config.MQTTRetain cfg;
                text.payload := "online" |}]
       else [] |}.

End availability.

(* ===================================================================== *)
(** ** Package [main], continued: [run] *)
(* ===================================================================== *)

Module startup.
Import strings.

(** Why [run] ends in [log.Fatal] before it monitors anything. *)
Inductive fatal :=
| FatalDevices (e : enumeration.error)   (* Failed to get GPU devices *)
| FatalNoGPUs.                           (* No NVIDIA GPUs found *)

(** [nvidia.GetGPUDevices()] and the two checks that follow it. *)
Definition devices (lib : enumeration.Library)
  : list nvidia.GPUDevice + fatal :=
  match enumeration.GetGPUDevices lib with
  | (_, Some err) => inr (FatalDevices err)
  | (gpus, None) =>
      if (List.length gpus =? 0)%nat then inr FatalNoGPUs else inl gpus
  end.

(** The loop "Register all GPU sensors with Home Assistant": a device
    whose registration fails is logged and the loop goes on. *)
Definition registerAll `{Unicode} (m : homeassistant.Manager)
  (gpus : list nvidia.GPUDevice) (hostname : string)
  : homeassistant.Manager :=
  fold_left
    (fun m gpu => fst (homeassistant.RegisterGPUSensors m gpu hostname))
    gpus m.

(** One turn of the main loop that takes [<-ticker.C]: the clock when
    [monitorGPUs] is called and when it returns, and, for the cycle it may
    run, the devices with what their handles answer and the choices of
    the runtime. *)
Record tick := {
  now : main.Time;
  done : main.Time;
  rt : main.Runtime;
  gpus : list nvidia.GPUDevice
}.

(** The main monitoring loop, until the context is cancelled: one call of
    [monitorGPUs] per tick, each returning before the next. *)
Definition loop `{Unicode} (cfg : config.Config) (ticks : list tick)
  (st : main.Monitor) (client : mqtt.Client) : main.Monitor * mqtt.Client :=
  fold_left
    (fun (s : main.Monitor * mqtt.Client) (t : tick) =>
       main.monitorGPUs (rt t) cfg (fst s) (snd s) (gpus t) (now t) (done t))
    ticks (st, client).

End startup.

(* ===================================================================== *)
(** ** Command [ha-gpu-ccd]: the temperature bridge *)
(* ===================================================================== *)

Module ccd.
Import strings.

(** [strings.Contains(s, substr)] *)
Definition Contains (s substr : string) : bool :=
  match index 0 substr s with
  | Some _ => true
  | None => false
  end.

(** [strings.HasSuffix(s, suffix)] *)
Definition HasSuffix (s suffix : string) : bool :=
  (String.length suffix <=? String.length s)%nat
  && String.eqb
       (substring (String.length s - String.length suffix)
          (String.length suffix) s)
       suffix.

(** [strings.TrimSuffix(s, suffix)] *)
Definition TrimSuffix (s suffix : string) : string :=
  if HasSuffix s suffix
  then substring 0 (String.length s - String.length suffix) s
  else s.

(** [json.Unmarshal(payload, &temperature)] into a [float64] that holds
    0: a JSON number is parsed to the nearest float64, and refused when it
    is out of range; [null] is accepted and leaves the 0; anything else is
    an error.  [None] as payload stands for bytes that are no JSON
    document. *)
Definition Unmarshal (payload : option json.value) : option float :=
  match payload with
  | Some (json.Float f) => Some f
  | Some (json.Int n) =>
      let f := float64 n in
      if is_infinity f then None else Some f
  | Some json.Null => Some 0%float
  | _ => None
  end.

(** The conversion [int(f)] of a float64: the fractional part is dropped;
    a value outside int64 gives the smallest int64, as on amd64. *)
Definition int (f : float) : Z :=
  match Prim2SF f with
  | S754_zero _ => 0%Z
  | S754_finite s m e =>
      let a := if (0 <=? e)%Z then Z.shiftl (Zpos m) e
               else Z.shiftr (Zpos m) (- e) in
      let v := if s then (- a)%Z else a in
      if ((- 2 ^ 63 <=? v) && (v <? 2 ^ 63))%Z then v else (- 2 ^ 63)%Z
  | _ => (- 2 ^ 63)%Z
  end.

(** What [onTemperatureMessage] hands to [writeTemperatureFile]: the file
    [temp_<device>] of the directory [tempDir] and its new content. *)
Record write := {
  dir : string;
  base : string;
  content : string
}.

(** [onTemperatureMessage]: the file to write for a message, or [None]
    when the message is ignored or refused. *)
Definition onTemperatureMessage (tempDir : string) (topic : string)
  (payload : option json.value) : option write :=
  (* Filter for temperature topics only *)
  if negb (Contains topic "_temperature/state") then None else
  let parts := Split topic "/" in
  if (List.length parts <? 4)%nat then None else
  let deviceSensor := nth 3 parts "" in
  if negb (HasSuffix deviceSensor "_temperature") then None else
  let deviceID := TrimSuffix deviceSensor "_temperature" in
  match Unmarshal payload with
  | None => None
  | Some temperature =>
      let tempMillidegrees := int (temperature * 1000)%float in
      Some {| dir := tempDir;
              base := "temp_" ++ deviceID;
              content := fmt.d tempMillidegrees |}
  end.

(** The topic filter of [subscribeToTemperatureTopics]. *)
Definition subscription (deviceID : string) : string :=
  if negb (String.eqb deviceID "")
  then "homeassistant/sensor/nvml-gpu/" ++ deviceID ++ "_temperature/state"
  else "homeassistant/sensor/nvml-gpu/#".

End ccd.

(* ===================================================================== *)
(** ** Package [config], continued: loading *)
(* ===================================================================== *)

Module loading.

(** The keys a TOML file sets; a key the file does not hold is [None]. *)
Record File := {
  hostname : option string;
  mqtt_host : option string;
  mqtt_port : option Z;
  mqtt_username : option string;
  mqtt_password : option string;
  mqtt_lwt_enable : option bool;
  mqtt_retain : option bool;
  polling_period : option Z
}.

(** What is found at a path. *)
Inductive found :=
| Missing                 (* os.IsNotExist *)
| Unparsable              (* toml.DecodeFile fails *)
| Decoded (f : File).

(** The command line: a flag that was set ([Changed]) is [Some]. *)
Record Flags := {
  flag_config : option string;
  flag_hostname : option string;
  flag_mqtt_host : option string;
  flag_mqtt_port : option Z;
  flag_mqtt_username : option string;
  flag_mqtt_password : option string;
  flag_mqtt_lwt_enable : option bool;
  flag_mqtt_retain : option bool;
  flag_polling_period : option Z
}.

Definition orElse {A : Type} (o : option A) (d : A) : A :=
  match o with
  | Some v => v
  | None => d
  end.

(** [toml.DecodeFile(filename, config)] on a config that holds the
    defaults: the keys of the file replace them. *)
Definition decodeOnto (f : File) (c : config.Config) : config.Config :=
  {| config.Hostname := orElse (hostname f) (config.Hostname c);
     config.MQTTHost := orElse (mqtt_host f) (config.MQTTHost c);
     config.MQTTPort := orElse (mqtt_port f) (config.MQTTPort c);
     config.MQTTUsername := orElse (mqtt_username f) (config.MQTTUsername c);
     config.MQTTPassword := orElse (mqtt_password f) (config.MQTTPassword c);
     config.MQTTLWTEnable :=
       orElse (mqtt_lwt_enable f) (config.MQTTLWTEnable c);
     config.MQTTRetain := orElse (mqtt_retain f) (config.MQTTRetain c);
     config.PollingPeriod :=
       orElse (polling_period f) (config.PollingPeriod c) |}.

(** [LoadConfigFromFile]; [None] is the error. *)
Definition LoadConfigFromFile (fs : string -> found) (filename : string)
  : option config.Config :=
  let config := config.DefaultConfig in
  match fs filename with
  | Missing => Some config
  | Unparsable => None
  | Decoded f => Some (decodeOnto f config)
  end.

(** [LoadConfig] loads configuration from file first, then overrides with
    command line flags. *)
Definition LoadConfig (fs : string -> found) (flags : Flags)
  : option config.Config :=
  let configFile := orElse (flag_config flags) "/etc/nvml-gpu-ha.conf" in
  match LoadConfigFromFile fs configFile with
  | None => None
  | Some c =>
      Some
        {| config.Hostname := orElse (flag_hostname flags) (config.Hostname c);
           config.MQTTHost := orElse (flag_mqtt_host flags) (config.MQTTHost c);
           config.MQTTPort := orElse (flag_mqtt_port flags) (config.MQTTPort c);
           config.MQTTUsername :=
             orElse (flag_mqtt_username flags) (config.MQTTUsername c);
           config.MQTTPassword :=
             orElse (flag_mqtt_password flags) (config.MQTTPassword c);
           config.MQTTLWTEnable :=
             orElse (flag_mqtt_lwt_enable flags) (config.MQTTLWTEnable c);
           config.MQTTRetain :=
             orElse (flag_mqtt_retain flags) (config.MQTTRetain c);
           config.PollingPeriod :=
             orElse (flag_polling_period flags) (config.PollingPeriod c) |}
  end.

End loading.

(* ===================================================================== *)
(** ** Notions used to state the properties *)
(* ===================================================================== *)

(** The two halves [GetDeviceID] joins with an underscore before it
    lower-cases the whole: its local variables [deviceID] and
    [uuidSuffix]. *)
Definition busPart (device : nvidia.GPUDevice) : string :=
  strings.Replace
    (strings.Replace (nvidia.GetShortPCIBusID (nvidia.PCIBusID device))
       ":" "_")
    "." "_".

Definition uuidSuffix (device : nvidia.GPUDevice) : string :=
  let s := strings.Replace (nvidia.UUID device) "-" "" in
  if (8 <? String.length s)%nat then substring 0 8 s else s.

(** A device whose bus location and hardware identifier are ASCII strings,
    as NVML reports them. *)
Definition asciiDevice (device : nvidia.GPUDevice) : Prop :=
  strings.isASCII (nvidia.PCIBusID device) = true /\
  strings.isASCII (nvidia.UUID device) = true.

(** Case tables that leave every string alone; they serve the closed
    examples, whose strings are ASCII and never reach the tables. *)
Definition noTables : strings.Unicode :=
  {| strings.mapToLower := fun s => s; strings.mapToUpper := fun s => s |}.

(** A device answering every query. *)
Definition sampleHandle : nvml.Device :=
  {| nvml.GetPowerUsage := (150000%Z, nvml.SUCCESS);
     nvml.GetPerformanceState := (8%Z, nvml.SUCCESS);
     nvml.GetMemoryInfo :=
       ({| nvml.Total := 10737418240; nvml.Free := 8589934592;
           nvml.Used := 2147483648 |}, nvml.SUCCESS);
     nvml.GetUtilizationRates :=
       ({| nvml.Gpu := 37; nvml.Mem := 12 |}, nvml.SUCCESS);
     nvml.GetTemperature := (55%Z, nvml.SUCCESS) |}.

Definition sampleDevice : nvidia.GPUDevice :=
  {| nvidia.Index := 0;
     nvidia.Handle := sampleHandle;
     nvidia.Name := "NVIDIA GeForce RTX 3080";
     nvidia.PCIBusID := "00000000:04:00.0";
     nvidia.Memory := 10737418240;
     nvidia.UUID := "GPU-1a2b3c4d-5e6f-7a8b-9c0d-1e2f3a4b5c6d" |}.

(** A second card at the same bus location of another host. *)
Definition sampleDevice' : nvidia.GPUDevice :=
  {| nvidia.Index := 1;
     nvidia.Handle := sampleHandle;
     nvidia.Name := "NVIDIA GeForce RTX 3080";
     nvidia.PCIBusID := "00000000:04:00.0";
     nvidia.Memory := 10737418240;
     nvidia.UUID := "GPU-9f8e7d6c-5e6f-7a8b-9c0d-1e2f3a4b5c6d" |}.

(** A card that does not support the power query. *)
Definition noPowerDevice : nvidia.GPUDevice :=
  {| nvidia.Index := 0;
     nvidia.Handle :=
       {| nvml.GetPowerUsage := (0%Z, nvml.ERROR_NOT_SUPPORTED);
          nvml.GetPerformanceState := (8%Z, nvml.SUCCESS);
          nvml.GetMemoryInfo :=
            ({| nvml.Total := 10737418240; nvml.Free := 8589934592;
                nvml.Used := 2147483648 |}, nvml.SUCCESS);
          nvml.GetUtilizationRates :=
            ({| nvml.Gpu := 37; nvml.Mem := 12 |}, nvml.SUCCESS);
          nvml.GetTemperature := (55%Z, nvml.SUCCESS) |};
     nvidia.Name := "NVIDIA GeForce RTX 3080";
     nvidia.PCIBusID := "00000000:04:00.0";
     nvidia.Memory := 10737418240;
     nvidia.UUID := "GPU-1a2b3c4d-5e6f-7a8b-9c0d-1e2f3a4b5c6d" |}.

(** A card whose memory-info query fails; every other query answers. *)
Definition noMemoryDevice : nvidia.GPUDevice :=
  {| nvidia.Index := 0;
     nvidia.Handle :=
       {| nvml.GetPowerUsage := (150000%Z, nvml.SUCCESS);
          nvml.GetPerformanceState := (8%Z, nvml.SUCCESS);
          nvml.GetMemoryInfo :=
            ({| nvml.Total := 0; nvml.Free := 0; nvml.Used := 0 |},
             nvml.ERROR_OTHER 999);
          nvml.GetUtilizationRates :=
            ({| nvml.Gpu := 37; nvml.Mem := 12 |}, nvml.SUCCESS);
          nvml.GetTemperature := (55%Z, nvml.SUCCESS) |};
     nvidia.Name := "NVIDIA GeForce RTX 3080";
     nvidia.PCIBusID := "00000000:04:00.0";
     nvidia.Memory := 10737418240;
     nvidia.UUID := "GPU-1a2b3c4d-5e6f-7a8b-9c0d-1e2f3a4b5c6d" |}.

(** A runtime in which every query answers in time, [range] visits a
    map in the order of its literal and the goroutines of a cycle run one
    after the other. *)
Definition promptRuntime : main.Runtime :=
  {| main.inTime := fun _ => true; main.rangeOrder := fun l => l;
     main.schedule := [] |}.

(** A client that has published nothing yet, on a bus that acknowledges
    every publish. *)
Definition freshClient : mqtt.Client :=
  {| mqtt.acks := fun _ _ => true; mqtt.sent := [] |}.

(** A client that has published nothing yet, on a bus that fails the
    publishes to one topic. *)
Definition clientFailingOn (t : string) : mqtt.Client :=
  {| mqtt.acks := fun _ msg => negb (String.eqb (mqtt.topic msg) t);
     mqtt.sent := [] |}.

(** A manager on a fresh bus that refuses the discovery record of the
    performance level of the sample device. *)
Definition refusingManager : homeassistant.Manager :=
  {| homeassistant.client :=
       clientFailingOn
         ("homeassistant/sensor/nvml-gpu/00_04_00_0_gpu1a2b3"
            ++ "_performance_level/config");
     homeassistant.config := config.DefaultConfig |}.

(** The scheduler invariant: the count of cycles in progress and the flag
    [isMonitoring] agree. *)
Definition consistent (s : main.Sched) : Prop :=
  main.running s
  = if main.isMonitoring (main.monitor s) then 1%nat else 0%nat.

(** [news] is an interleaving of the lists [ls]: each list is read from
    its head, one element at a time, the lists taking turns in any
    order. *)
Inductive Interleaving {A : Type} : list (list A) -> list A -> Prop :=
| Interleaving_done (ls : list (list A)) :
    List.concat ls = [] -> Interleaving ls []
| Interleaving_next (before : list (list A)) (x : A) (l : list A)
    (after : list (list A)) (news : list A) :
    Interleaving (before ++ l :: after)%list news ->
    Interleaving (before ++ (x :: l) :: after)%list (x :: news).

(** The entries of the map of [publishMetrics] that [json.Marshal]
    accepts. *)
Definition marshals (e : string * json.interface) : bool :=
  match json.Marshal (snd e) with
  | Some _ => true
  | None => false
  end.

(** The state message of one entry of the map of [publishMetrics], if
    its value can be marshalled, and the messages a goroutine has still
    to publish. *)
Definition stateMessages (cfg : config.Config) (id : string)
  (e : string * json.interface) : list mqtt.Message :=
  match json.Marshal (snd e) with
  | None => []
  | Some payload =>
      [{| mqtt.topic :=
            "homeassistant/sensor/nvml-gpu/" ++ id ++ "_" ++ fst e
              ++ "/state";
          mqtt.qos := 1;
          mqtt.retained := config.MQTTRetain cfg;
          mqtt.payload := payload |}]
  end.

Definition messagesOf (cfg : config.Config) (g : main.goroutine)
  : list mqtt.Message :=
  flat_map (stateMessages cfg (main.deviceID g)) (main.pending g).

(** [strings.Join(parts, sep)], to check [Split] against. *)
Fixpoint Join (parts : list string) (sep : string) : string :=
  match parts with
  | [] => ""
  | [x] => x
  | x :: rest => x ++ sep ++ Join rest sep
  end.

(** [strings.Count(s, sep)] for a one-byte separator. *)
Fixpoint Count (s : string) (sep : ascii) : nat :=
  match s with
  | EmptyString => 0
  | String c r => (if Ascii.eqb c sep then 1 else 0) + Count r sep
  end.

(** A [byte] read as an [int8], bit for bit. *)
Definition int8OfByte (b : ascii) : Z :=
  let n := Z.of_N (N_of_ascii b) in
  if (n <? 128)%Z then n else (n - 256)%Z.

(** A string stored as a C string in a [[32]int8]: its bytes, then 0 up
    to 32 elements. *)
Definition cString (s : string) : list Z :=
  (map int8OfByte (list_ascii_of_string s)
     ++ repeat 0%Z (32 - String.length s))%list.

(** A library with one card, the sample device. *)
Definition oneCardLibrary : enumeration.Library :=
  {| enumeration.DeviceGetCount := (1%nat, nvml.SUCCESS);
     enumeration.DeviceGetHandleByIndex := fun _ =>
       ({| enumeration.device := sampleHandle;
           enumeration.GetName := ("NVIDIA GeForce RTX 3080", nvml.SUCCESS);
           enumeration.GetPciInfo :=
             ({| enumeration.BusId := cString "00000000:04:00.0" |},
              nvml.SUCCESS);
           enumeration.GetUUID :=
             ("GPU-1a2b3c4d-5e6f-7a8b-9c0d-1e2f3a4b5c6d", nvml.SUCCESS) |},
        nvml.SUCCESS) |}.

(** A library that counts two cards and cannot name the second. *)
Definition brokenLibrary : enumeration.Library :=
  {| enumeration.DeviceGetCount := (2%nat, nvml.SUCCESS);
     enumeration.DeviceGetHandleByIndex := fun i =>
       ({| enumeration.device := sampleHandle;
           enumeration.GetName :=
             ("NVIDIA GeForce RTX 3080",
              if (i =? 1)%nat then nvml.ERROR_OTHER 999 else nvml.SUCCESS);
           enumeration.GetPciInfo :=
             ({| enumeration.BusId := cString "00000000:04:00.0" |},
              nvml.SUCCESS);
           enumeration.GetUUID :=
             ("GPU-1a2b3c4d-5e6f-7a8b-9c0d-1e2f3a4b5c6d", nvml.SUCCESS) |},
        nvml.SUCCESS) |}.

(** A card that reports no memory at all; every query answers. *)
Definition noMemoryCard : nvidia.GPUDevice :=
  {| nvidia.Index := 0;
     nvidia.Handle :=
       {| nvml.GetPowerUsage := (150000%Z, nvml.SUCCESS);
          nvml.GetPerformanceState := (8%Z, nvml.SUCCESS);
          nvml.GetMemoryInfo :=
            ({| nvml.Total := 0; nvml.Free := 0; nvml.Used := 0 |},
             nvml.SUCCESS);
          nvml.GetUtilizationRates :=
            ({| nvml.Gpu := 37; nvml.Mem := 12 |}, nvml.SUCCESS);
          nvml.GetTemperature := (55%Z, nvml.SUCCESS) |};
     nvidia.Name := "NVIDIA GeForce RTX 3080";
     nvidia.PCIBusID := "00000000:04:00.0";
     nvidia.Memory := 0;
     nvidia.UUID := "GPU-1a2b3c4d-5e6f-7a8b-9c0d-1e2f3a4b5c6d" |}.

(** A command line that sets the polling period and nothing else. *)
Definition periodFlag (seconds : Z) : loading.Flags :=
  {| loading.flag_config := None; loading.flag_hostname := None;
     loading.flag_mqtt_host := None; loading.flag_mqtt_port := None;
     loading.flag_mqtt_username := None; loading.flag_mqtt_password := None;
     loading.flag_mqtt_lwt_enable := None; loading.flag_mqtt_retain := None;
     loading.flag_polling_period := Some seconds |}.

(** A file system whose only file, at the default path, sets the host of
    the broker and a polling period of 60 seconds. *)
Definition oneFile (path : string) : loading.found :=
  if String.eqb path "/etc/nvml-gpu-ha.conf"
  then loading.Decoded
         {| loading.hostname := None;
            loading.mqtt_host := Some "broker.lan";
            loading.mqtt_port := None; loading.mqtt_username := None;
            loading.mqtt_password := None; loading.mqtt_lwt_enable := None;
            loading.mqtt_retain := None;
            loading.polling_period := Some 60%Z |}
  else loading.Missing.

(* ===================================================================== *)
(** * Properties *)
(* ===================================================================== *)

Import strings.

(** ** Byte strings *)

Section ByteStrings.

Variable p : ascii -> bool.

Lemma allBytes_app (a b : string) :
  allBytes p (a ++ b) = allBytes p a && allBytes p b.
Proof.
  induction a as [|c a IH]; simpl; [reflexivity|].
  now rewrite IH, andb_assoc.
Qed.

Lemma allBytes_substring (s : string) :
  allBytes p s = true -> forall n m, allBytes p (substring n m s) = true.
Proof.
  induction s as [|c s IH]; intros Hs n m.
  - destruct n, m; reflexivity.
  - simpl in Hs. apply andb_true_iff in Hs as [Hc Hs].
    destruct n as [|n]; simpl.
    + destruct m as [|m]; simpl; [reflexivity|].
      now rewrite Hc, (IH Hs 0 m).
    + now apply IH.
Qed.

Lemma allBytes_Replace (s new : string) (old : ascii) :
  allBytes p s = true -> allBytes p new = true ->
  allBytes p (Replace s old new) = true.
Proof.
  intros Hs Hnew. induction s as [|c s IH]; simpl; [reflexivity|].
  simpl in Hs. apply andb_true_iff in Hs as [Hc Hs].
  destruct (Ascii.eqb c old).
  - rewrite allBytes_app, Hnew. now apply IH.
  - simpl. rewrite Hc. now apply IH.
Qed.

Lemma allBytes_Split (s : string) (sep : ascii) :
  allBytes p s = true ->
  Forall (fun x => allBytes p x = true) (Split s sep).
Proof.
  induction s as [|c s IH]; simpl; intros Hs.
  - now repeat constructor.
  - apply andb_true_iff in Hs as [Hc Hs]. specialize (IH Hs).
    destruct (Ascii.eqb c sep); [now constructor|].
    destruct (Split s sep) as [|x xs].
    + repeat constructor. simpl. now rewrite Hc.
    + inversion IH; subst. constructor; [|assumption].
      simpl. now rewrite Hc.
Qed.

Lemma allBytes_nth (l : list string) (i : nat) :
  Forall (fun x => allBytes p x = true) l ->
  allBytes p (nth i l "") = true.
Proof.
  intros H. revert i. induction H as [|x l Hx _ IH]; intros [|i]; simpl;
    auto.
Qed.

Lemma allBytes_GetShortPCIBusID (s : string) :
  p ":"%char = true -> allBytes p s = true ->
  allBytes p (nvidia.GetShortPCIBusID s) = true.
Proof.
  intros Hcolon Hs. unfold nvidia.GetShortPCIBusID.
  destruct (3 <=? _)%nat; [|assumption].
  pose proof (allBytes_Split s ":" Hs) as Hall.
  rewrite !allBytes_app. simpl. rewrite Hcolon. simpl.
  rewrite !(allBytes_nth _ _ Hall), !andb_true_r.
  destruct (2 <? _)%nat.
  - apply allBytes_substring. now apply allBytes_nth.
  - now apply allBytes_nth.
Qed.

Lemma allBytes_mapBytes (f : ascii -> ascii) (s : string) :
  allBytes p (mapBytes f s) = allBytes (fun c => p (f c)) s.
Proof. induction s as [|c s IH]; simpl; [reflexivity|]. now rewrite IH. Qed.

End ByteStrings.

Lemma allBytes_true (p : ascii -> bool) (s : string) :
  (forall c, p c = true) -> allBytes p s = true.
Proof.
  intros E. induction s as [|c s IH]; simpl; [reflexivity|].
  now rewrite E, IH.
Qed.

Lemma mapBytes_app (f : ascii -> ascii) (a b : string) :
  mapBytes f (a ++ b) = mapBytes f a ++ mapBytes f b.
Proof. induction a as [|c a IH]; simpl; [reflexivity|]. now rewrite IH. Qed.

Lemma append_inv_head (a x y : string) : a ++ x = a ++ y -> x = y.
Proof.
  induction a as [|c a IH]; simpl; intros H; [assumption|].
  injection H as H. now apply IH.
Qed.

Lemma ContainsByte_allBytes (s : string) (c : ascii) :
  ContainsByte s c = negb (allBytes (fun x => negb (Ascii.eqb x c)) s).
Proof.
  induction s as [|x s IH]; simpl; [reflexivity|].
  rewrite IH. now destruct (Ascii.eqb x c).
Qed.

Lemma ContainsByte_app (a b : string) (c : ascii) :
  ContainsByte (a ++ b) c = ContainsByte a c || ContainsByte b c.
Proof.
  induction a as [|x a IH]; simpl; [reflexivity|].
  now rewrite IH, orb_assoc.
Qed.

(** After [Replace s old new] no [old] is left, unless [new] brings one. *)
Lemma Replace_removes (s new : string) (old : ascii) :
  ContainsByte new old = false -> ContainsByte (Replace s old new) old = false.
Proof.
  intros Hnew. induction s as [|x s IH]; simpl; [reflexivity|].
  destruct (Ascii.eqb x old) eqn:E.
  - now rewrite ContainsByte_app, Hnew, IH.
  - simpl. now rewrite E, IH.
Qed.

(** [Replace] brings in no byte that neither [s] nor [new] holds. *)
Lemma Replace_keeps_absent (s new : string) (old c : ascii) :
  ContainsByte s c = false -> ContainsByte new c = false ->
  ContainsByte (Replace s old new) c = false.
Proof.
  rewrite !ContainsByte_allBytes, !negb_false_iff.
  apply allBytes_Replace.
Qed.

Lemma lowerByte_not_upper (c : ascii) : isUpperByte (lowerByte c) = false.
Proof. destruct c as [[] [] [] [] [] [] [] []]; reflexivity. Qed.

Lemma lowerByte_colon (c : ascii) :
  Ascii.eqb (lowerByte c) ":" = Ascii.eqb c ":".
Proof. destruct c as [[] [] [] [] [] [] [] []]; reflexivity. Qed.

Lemma lowerByte_dot (c : ascii) :
  Ascii.eqb (lowerByte c) "." = Ascii.eqb c ".".
Proof. destruct c as [[] [] [] [] [] [] [] []]; reflexivity. Qed.

Lemma ContainsByte_lower_colon (s : string) :
  ContainsByte (mapBytes lowerByte s) ":" = ContainsByte s ":".
Proof.
  induction s as [|x s IH]; simpl; [reflexivity|].
  now rewrite lowerByte_colon, IH.
Qed.

Lemma ContainsByte_lower_dot (s : string) :
  ContainsByte (mapBytes lowerByte s) "." = ContainsByte s ".".
Proof.
  induction s as [|x s IH]; simpl; [reflexivity|].
  now rewrite lowerByte_dot, IH.
Qed.

Lemma substring_all (s : string) : substring 0 (String.length s) s = s.
Proof. induction s as [|c s IH]; simpl; [reflexivity|]. now rewrite IH. Qed.

(** [strings.TrimPrefix] returns its argument or takes [pre] off its head. *)
Lemma prefix_split (pre s : string) :
  String.prefix pre s = true ->
  s = pre ++ substring (String.length pre)
               (String.length s - String.length pre) s.
Proof.
  revert s. induction pre as [|c pre IH]; intros s H; simpl.
  - rewrite Nat.sub_0_r. clear H. induction s as [|x s IHs]; simpl;
      [reflexivity|]. f_equal.
    destruct s as [|y s]; [reflexivity|]. simpl in IHs |- *. exact IHs.
  - destruct s as [|x s]; simpl in H; [discriminate|].
    destruct (ascii_dec c x) as [->|]; [|discriminate].
    simpl. f_equal. now apply IH.
Qed.

Lemma TrimPrefix_spec (s pre : string) :
  TrimPrefix s pre = s \/ s = pre ++ TrimPrefix s pre.
Proof.
  unfold TrimPrefix, HasPrefix.
  destruct (String.prefix pre s) eqn:E; [right|left; reflexivity].
  now apply prefix_split.
Qed.

(** [Split] cuts at every separator and nowhere else: there is one
    segment more than there are separators, and joining the segments with
    the separator gives the string back. *)
Lemma Split_length (s : string) (sep : ascii) :
  List.length (Split s sep) = S (Count s sep).
Proof.
  induction s as [|c s IH]; simpl; [reflexivity|].
  destruct (Ascii.eqb c sep); simpl; [now rewrite IH|].
  destruct (Split s sep); simpl in *; congruence.
Qed.

Lemma Join_Split (s : string) (sep : ascii) :
  Join (Split s sep) (String sep "") = s.
Proof.
  induction s as [|c s IH]; simpl; [reflexivity|].
  pose proof (Split_length s sep) as Hlen.
  destruct (Ascii.eqb_spec c sep) as [->|_].
  - destruct (Split s sep) as [|x xs]; [discriminate Hlen|].
    simpl in *. now rewrite IH.
  - destruct (Split s sep) as [|x xs]; [discriminate Hlen|].
    destruct xs as [|y ys]; simpl in *; now rewrite <- IH.
Qed.

(** ** The Identity Deriver *)

Section Identity.

Context {U : Unicode}.

Lemma busPart_ascii (d : nvidia.GPUDevice) :
  isASCII (nvidia.PCIBusID d) = true -> isASCII (busPart d) = true.
Proof.
  intros H. unfold busPart, isASCII.
  repeat apply allBytes_Replace; try reflexivity.
  now apply allBytes_GetShortPCIBusID.
Qed.

Lemma uuidSuffix_ascii (d : nvidia.GPUDevice) :
  isASCII (nvidia.UUID d) = true -> isASCII (uuidSuffix d) = true.
Proof.
  intros H. unfold uuidSuffix, isASCII.
  assert (allBytes isASCIIByte (Replace (nvidia.UUID d) "-" "") = true)
    by (now apply allBytes_Replace).
  destruct (8 <? _)%nat; [now apply allBytes_substring|assumption].
Qed.

(** On an ASCII device the short-id is the two halves, each lower-cased
    byte by byte, around an underscore. *)
Lemma GetDeviceID_ascii (d : nvidia.GPUDevice) :
  asciiDevice d ->
  nvidia.GetDeviceID d
  = mapBytes lowerByte (busPart d) ++ "_"
      ++ mapBytes lowerByte (uuidSuffix d).
Proof.
  intros [Hbus Huuid].
  change (nvidia.GetDeviceID d)
    with (ToLower (busPart d ++ "_" ++ uuidSuffix d)).
  unfold ToLower.
  replace (isASCII (busPart d ++ "_" ++ uuidSuffix d)) with true.
  - now rewrite !mapBytes_app.
  - symmetry. unfold isASCII. rewrite !allBytes_app.
    fold (isASCII (busPart d)). fold (isASCII (uuidSuffix d)).
    now rewrite busPart_ascii, uuidSuffix_ascii.
Qed.

Lemma busPart_no_colon (d : nvidia.GPUDevice) :
  ContainsByte (busPart d) ":" = false.
Proof.
  unfold busPart. apply Replace_keeps_absent; [|reflexivity].
  now apply Replace_removes.
Qed.

Lemma busPart_no_dot (d : nvidia.GPUDevice) :
  ContainsByte (busPart d) "." = false.
Proof. unfold busPart. now apply Replace_removes. Qed.

End Identity.

Lemma GetShortPCIBusID_scenario :
  nvidia.GetShortPCIBusID "00000000:04:00.0" = "00:04:00.0".
Proof. reflexivity. Qed.

(** The model name in the display name: the device name without its
    leading "NVIDIA " when it has one in that spelling, the whole device
    name otherwise. *)
Lemma GetDeviceDisplayName_trimmed (U : Unicode) (d : nvidia.GPUDevice)
  (model hostname : string) :
  isASCII model = true ->
  nvidia.Name d = "NVIDIA " ++ model ->
  nvidia.GetDeviceDisplayName d hostname
  = hostname ++ " " ++ nvidia.GetShortPCIBusID (nvidia.PCIBusID d)
      ++ " - NVIDIA " ++ model ++ " "
      ++ fmt.f0 (float64 (nvidia.Memory d) / 1073741824) ++ "GB".
Proof.
  intros Hascii Hname. unfold nvidia.GetDeviceDisplayName. rewrite Hname.
  unfold ToUpper.
  replace (isASCII ("NVIDIA " ++ model)) with true
    by (symmetry; exact Hascii).
  replace (HasPrefix (mapBytes upperByte ("NVIDIA " ++ model)) "NVIDIA ")
    with true by (simpl; now destruct model).
  replace (TrimPrefix ("NVIDIA " ++ model) "NVIDIA ") with model;
    [reflexivity|].
  unfold TrimPrefix.
  replace (HasPrefix ("NVIDIA " ++ model) "NVIDIA ") with true
    by (simpl; now destruct model).
  simpl. now rewrite Nat.sub_0_r, substring_all.
Qed.





(** The display name of the sample device, a 10 GiB card. *)
Lemma sampleDevice_display_name (U : Unicode) :
  nvidia.GetDeviceDisplayName sampleDevice "SERVER1"
  = "SERVER1 00:04:00.0 - NVIDIA GeForce RTX 3080 10GB".
Proof. vm_compute. reflexivity. Qed.

(** C7 (as amended).  Two ASCII devices at the same bus location have
    different short-ids exactly when their hardware identifiers differ,
    letter case ignored, within the first eight characters that remain
    once the hyphens are removed. *)
Theorem same_bus_short_ids_differ (U : Unicode) (d1 d2 : nvidia.GPUDevice) :
  asciiDevice d1 -> asciiDevice d2 ->
  nvidia.PCIBusID d1 = nvidia.PCIBusID d2 ->
  (nvidia.GetDeviceID d1 <> nvidia.GetDeviceID d2 <->
   mapBytes lowerByte (uuidSuffix d1) <> mapBytes lowerByte (uuidSuffix d2)).
Proof.
  intros H1 H2 Hbus.
  rewrite (GetDeviceID_ascii d1 H1), (GetDeviceID_ascii d2 H2).
  unfold busPart. rewrite Hbus.
  split; intros Hne E; apply Hne.
  - now rewrite E.
  - apply append_inv_head in E. now apply (append_inv_head "_") in E.
Qed.

Lemma same_bus_short_ids_differ_witness :
  @nvidia.GetDeviceID noTables sampleDevice
  <> @nvidia.GetDeviceID noTables sampleDevice'.
Proof.
  apply (same_bus_short_ids_differ noTables sampleDevice sampleDevice').
  - split; reflexivity.
  - split; reflexivity.
  - reflexivity.
  - vm_compute. discriminate.
Defined.

(** C7, as stated, fails: two identifiers that differ only after their
    eighth kept character give the same short-id. *)
Lemma same_bus_short_ids_counterexample :
  let d1 := sampleDevice in
  let d2 := {| nvidia.Index := 1; nvidia.Handle := sampleHandle;
               nvidia.Name := "NVIDIA GeForce RTX 3080";
               nvidia.PCIBusID := "00000000:04:00.0";
               nvidia.Memory := 10737418240;
               nvidia.UUID := "GPU-1a2b3c4d-0000-1111-2222-333344445555" |} in
  nvidia.PCIBusID d1 = nvidia.PCIBusID d2 /\
  nvidia.UUID d1 <> nvidia.UUID d2 /\
  @nvidia.GetDeviceID noTables d1 = @nvidia.GetDeviceID noTables d2.
Proof.
  cbv zeta. split; [reflexivity|]. split; [|reflexivity].
  apply String.eqb_neq. reflexivity.
Qed.

(** C8 (as amended).  The short-id is a function of the device value.  On
    an ASCII device it holds no upper-case letter, and it holds a ':' or a
    '.' exactly when one occurs among the first eight characters of the
    hardware identifier that remain once the hyphens are removed: the bus
    location half never holds one. *)
Theorem GetDeviceID_shape (U : Unicode) :
  (forall d1 d2 : nvidia.GPUDevice,
     d1 = d2 -> nvidia.GetDeviceID d1 = nvidia.GetDeviceID d2) /\
  (forall d : nvidia.GPUDevice,
     asciiDevice d ->
     allBytes (fun c => negb (isUpperByte c)) (nvidia.GetDeviceID d) = true /\
     ContainsByte (nvidia.GetDeviceID d) ":"
       = ContainsByte (uuidSuffix d) ":" /\
     ContainsByte (nvidia.GetDeviceID d) "."
       = ContainsByte (uuidSuffix d) ".").
Proof.
  split; [intros d1 d2 ->; reflexivity|].
  intros d Hd. rewrite (GetDeviceID_ascii d Hd). repeat split.
  - rewrite !allBytes_app, !allBytes_mapBytes. simpl.
    rewrite !(allBytes_true (fun c => negb (isUpperByte (lowerByte c))));
      [reflexivity | |];
      intros c; now rewrite lowerByte_not_upper.
  - rewrite !ContainsByte_app, !ContainsByte_lower_colon, busPart_no_colon.
    reflexivity.
  - rewrite !ContainsByte_app, !ContainsByte_lower_dot, busPart_no_dot.
    reflexivity.
Qed.

Lemma GetDeviceID_shape_witness :
  @nvidia.GetDeviceID noTables sampleDevice
    = @nvidia.GetDeviceID noTables sampleDevice /\
  allBytes (fun c => negb (isUpperByte c))
    (@nvidia.GetDeviceID noTables sampleDevice) = true /\
  ContainsByte (@nvidia.GetDeviceID noTables sampleDevice) ":" = false /\
  ContainsByte (@nvidia.GetDeviceID noTables sampleDevice) "." = false.
Proof.
  destruct (GetDeviceID_shape noTables) as [Hdet Hshape].
  split; [apply Hdet; reflexivity|].
  destruct (Hshape sampleDevice) as (Hlow & Hcolon & Hdot);
    [split; reflexivity|].
  split; [exact Hlow|]. split; [rewrite Hcolon|rewrite Hdot]; reflexivity.
Defined.

(** C8, as stated, fails: a ':' and a '.' early in the hardware identifier
    reach the short-id. *)
Lemma GetDeviceID_shape_counterexample :
  let d := {| nvidia.Index := 0; nvidia.Handle := sampleHandle;
              nvidia.Name := "NVIDIA GeForce RTX 3080";
              nvidia.PCIBusID := "00000000:04:00.0";
              nvidia.Memory := 10737418240;
              nvidia.UUID := "GPU:0.1" |} in
  @nvidia.GetDeviceID noTables d = "00_04_00_0_gpu:0.1" /\
  ContainsByte (@nvidia.GetDeviceID noTables d) ":" = true /\
  ContainsByte (@nvidia.GetDeviceID noTables d) "." = true.
Proof. repeat split; reflexivity. Qed.

(** C9 (the code at the failing input).  A device named
    "nvidia GeForce RTX 3080" passes the upper-cased prefix test, but the
    prefix is then trimmed only in the exact spelling "NVIDIA ": the name
    is kept whole and the vendor appears twice. *)
Theorem vendor_prefix_lower_case_kept (U : Unicode) :
  let d := {| nvidia.Index := 0; nvidia.Handle := sampleHandle;
              nvidia.Name := "nvidia GeForce RTX 3080";
              nvidia.PCIBusID := "00000000:04:00.0";
              nvidia.Memory := 10737418240;
              nvidia.UUID := "GPU-1a2b3c4d-5e6f-7a8b-9c0d-1e2f3a4b5c6d" |} in
  HasPrefix (ToUpper (nvidia.Name d)) "NVIDIA " = true /\
  nvidia.GetDeviceDisplayName d "SERVER1"
  = "SERVER1 00:04:00.0 - NVIDIA nvidia GeForce RTX 3080 10GB".
Proof. split; vm_compute; reflexivity. Qed.

(** C10.  On a bus location with fewer than three colon-separated segments
    [GetShortPCIBusID] is the identity. *)
Theorem GetShortPCIBusID_malformed (pciBusID : string) :
  (List.length (Split pciBusID ":") < 3)%nat ->
  nvidia.GetShortPCIBusID pciBusID = pciBusID.
Proof.
  intros H. unfold nvidia.GetShortPCIBusID.
  destruct (3 <=? _)%nat eqn:E; [|reflexivity].
  apply Nat.leb_le in E. lia.
Qed.

Lemma GetShortPCIBusID_malformed_witness :
  (List.length (Split "04:00.0" ":") < 3)%nat /\
  nvidia.GetShortPCIBusID "04:00.0" = "04:00.0".
Proof.
  split; [simpl; lia|].
  apply (GetShortPCIBusID_malformed "04:00.0"). simpl. lia.
Defined.

(** ** The hardware query *)

Import nvml.

(** What a sample that succeeds as a whole says about the queries: memory
    info succeeded, and a field whose query is unsupported holds the zero
    value. *)
Lemma getGPUMetricsInternal_success (gpu : nvidia.GPUDevice)
  (metrics : nvidia.GPUMetrics) :
  nvidia.getGPUMetricsInternal gpu = (metrics, None) ->
  let h := nvidia.Handle gpu in
  snd (GetMemoryInfo h) = SUCCESS /\
  (snd (GetPowerUsage h) = ERROR_NOT_SUPPORTED ->
   nvidia.PowerDraw metrics = 0%float) /\
  (snd (GetPerformanceState h) = ERROR_NOT_SUPPORTED ->
   nvidia.PerformanceLevel metrics = "") /\
  (snd (GetUtilizationRates h) = ERROR_NOT_SUPPORTED ->
   nvidia.GPUUtilization metrics = 0%Z) /\
  (snd (GetTemperature h) = ERROR_NOT_SUPPORTED ->
   nvidia.Temperature metrics = 0%Z).
Proof.
  unfold nvidia.getGPUMetricsInternal.
  destruct (nvidia.Handle gpu) as [[p r1] [s r2] [mi r3] [u r4] [t r5]].
  cbn [GetPowerUsage GetPerformanceState GetMemoryInfo GetUtilizationRates
       GetTemperature snd].
  destruct r1, r2, r3, r4, r5; cbn; intros H;
    try discriminate H; injection H as <-;
    repeat split; intros E; try discriminate E; reflexivity.
Qed.

(** A failed memory-info query fails the sample, whatever the other
    queries answer. *)
Lemma getGPUMetricsInternal_memory_failure (gpu : nvidia.GPUDevice) :
  snd (GetMemoryInfo (nvidia.Handle gpu)) <> SUCCESS ->
  exists m e, nvidia.getGPUMetricsInternal gpu = (m, Some e).
Proof.
  intros Hmem.
  destruct (nvidia.getGPUMetricsInternal gpu) as [m [e|]] eqn:E;
    [now exists m, e|].
  now apply getGPUMetricsInternal_success in E as [E _].
Qed.

(** ** The metric publisher *)

Section Publisher.

Context {U : Unicode}.
Variable cfg : config.Config.

(** [publishSensor] adds one message to the record, or none when the
    value cannot be marshalled. *)
Lemma publishSensor_sent (id : string) (c : mqtt.Client)
  (e : string * json.interface) :
  mqtt.sent (main.publishSensor cfg id c e)
  = app (mqtt.sent c)
      match json.Marshal (snd e) with
         | None => []
         | Some payload =>
             [{| mqtt.topic :=
                   "homeassistant/sensor/nvml-gpu/" ++ id ++ "_" ++ fst e
                     ++ "/state";
                 mqtt.qos := 1;
                 mqtt.retained := config.MQTTRetain cfg;
                 mqtt.payload := payload |}]
         end.
Proof.
  destruct e as [k v]. unfold main.publishSensor. simpl.
  destruct (json.Marshal v); [reflexivity|]. now rewrite app_nil_r.
Qed.

Lemma publish_fold_sent (id : string) (es : list (string * json.interface))
  (c : mqtt.Client) :
  exists news,
    mqtt.sent (fold_left (main.publishSensor cfg id) es c)
    = (mqtt.sent c ++ news)%list /\
    forall e payload,
      In e es -> json.Marshal (snd e) = Some payload ->
      In {| mqtt.topic :=
              "homeassistant/sensor/nvml-gpu/" ++ id ++ "_" ++ fst e
                ++ "/state";
            mqtt.qos := 1;
            mqtt.retained := config.MQTTRetain cfg;
            mqtt.payload := payload |} news.
Proof.
  revert c. induction es as [|e es IH]; intros c.
  - exists []. split; [now rewrite app_nil_r|]. intros ? ? [].
  - simpl. destruct (IH (main.publishSensor cfg id c e)) as (news & E & Hin).
    rewrite publishSensor_sent in E. rewrite E, <- app_assoc.
    eexists. split; [reflexivity|].
    intros e' payload [<-|He'] HM.
    + rewrite HM. apply in_or_app. left. now left.
    + apply in_or_app. right. now apply Hin.
Qed.

(** The record after the loop of [publishMetrics]: one message per entry
    that can be marshalled, in the order of the visit. *)
Lemma publish_fold_exact (id : string)
  (es : list (string * json.interface)) (c : mqtt.Client) :
  mqtt.sent (fold_left (main.publishSensor cfg id) es c)
  = (mqtt.sent c
       ++ flat_map
            (fun e =>
               match json.Marshal (snd e) with
               | None => []
               | Some payload =>
                   [{| mqtt.topic :=
                         "homeassistant/sensor/nvml-gpu/" ++ id ++ "_"
                           ++ fst e ++ "/state";
                       mqtt.qos := 1;
                       mqtt.retained := config.MQTTRetain cfg;
                       mqtt.payload := payload |}]
               end) es)%list.
Proof.
  revert c. induction es as [|e es IH]; intros c; simpl.
  - now rewrite app_nil_r.
  - now rewrite IH, publishSensor_sent, <- app_assoc.
Qed.

(** The messages of the entries whose value can be marshalled, entry by
    entry. *)
Lemma stateMessages_visited (id : string)
  (es : list (string * json.interface)) :
  let states := flat_map (stateMessages cfg id) es in
  List.length states = List.length (filter marshals es) /\
  forall e state,
    In (e, state) (combine (filter marshals es) states) ->
    json.Marshal (snd e) = Some (mqtt.payload state) /\
    mqtt.topic state
    = "homeassistant/sensor/nvml-gpu/" ++ id ++ "_" ++ fst e ++ "/state".
Proof.
  induction es as [|x es [IHlen IH]]; [split; [reflexivity|intros ? ? []]|].
  cbn [flat_map filter].
  destruct (json.Marshal (snd x)) as [payload|] eqn:E.
  - replace (marshals x) with true by (unfold marshals; now rewrite E).
    replace (stateMessages cfg id x)
      with [{| mqtt.topic :=
                 "homeassistant/sensor/nvml-gpu/" ++ id ++ "_" ++ fst x
                   ++ "/state";
               mqtt.qos := 1;
               mqtt.retained := config.MQTTRetain cfg;
               mqtt.payload := payload |}]
      by (unfold stateMessages; now rewrite E).
    cbn [app List.length combine]. split; [now rewrite IHlen|].
    intros e state [H|H]; [|now apply IH].
    injection H as <- <-. now split.
  - replace (marshals x) with false by (unfold marshals; now rewrite E).
    replace (stateMessages cfg id x) with (@nil mqtt.Message)
      by (unfold stateMessages; now rewrite E).
    now split.
Qed.

(** A device whose sample fails leaves the record of the client as it
    was. *)
Lemma monitorGPU_failure (rt : main.Runtime) (c : mqtt.Client)
  (gpu : nvidia.GPUDevice) (m : nvidia.GPUMetrics) (e : nvidia.error) :
  nvidia.GetGPUMetrics (main.inTime rt gpu) gpu = (m, Some e) ->
  main.monitorGPU rt cfg c gpu = c.
Proof. intros E. unfold main.monitorGPU. now rewrite E. Qed.

End Publisher.

(** C3 (as amended).  When the sample of a device succeeds as a whole, a
    metric the device reported as unsupported is published all the same:
    its state topic receives the zero value of its type, 0 for power draw,
    GPU utilization and temperature, the empty string for the performance
    level. *)
Theorem unsupported_metric_published_as_zero (U : Unicode)
  (rt : main.Runtime) (cfg : config.Config) (client : mqtt.Client)
  (gpu : nvidia.GPUDevice) :
  snd (nvidia.GetGPUMetrics (main.inTime rt gpu) gpu) = None ->
  (forall l, Permutation (main.rangeOrder rt l) l) ->
  let h := nvidia.Handle gpu in
  let state key value :=
    {| mqtt.topic :=
         "homeassistant/sensor/nvml-gpu/" ++ nvidia.GetDeviceID gpu ++ "_"
           ++ key ++ "/state";
       mqtt.qos := 1;
       mqtt.retained := config.MQTTRetain cfg;
       mqtt.payload := value |} in
  exists news,
    mqtt.sent (main.monitorGPU rt cfg client gpu)
    = (mqtt.sent client ++ news)%list /\
    (snd (GetPowerUsage h) = ERROR_NOT_SUPPORTED ->
     In (state "power_draw" (json.Float 0)) news) /\
    (snd (GetPerformanceState h) = ERROR_NOT_SUPPORTED ->
     In (state "performance_level" (json.Str "")) news) /\
    (snd (GetUtilizationRates h) = ERROR_NOT_SUPPORTED ->
     In (state "gpu_utilization" (json.Int 0)) news) /\
    (snd (GetTemperature h) = ERROR_NOT_SUPPORTED ->
     In (state "temperature" (json.Int 0)) news).
Proof.
  intros Hok Hperm h state. unfold main.monitorGPU.
  destruct (nvidia.GetGPUMetrics (main.inTime rt gpu) gpu) as [m r] eqn:E.
  simpl in Hok. subst r.
  unfold nvidia.GetGPUMetrics in E.
  destruct (main.inTime rt gpu); [|discriminate E].
  apply getGPUMetricsInternal_success in E
    as (_ & Hpower & Hperf & Hutil & Htemp).
  unfold main.publishMetrics.
  destruct (publish_fold_sent cfg (nvidia.GetDeviceID gpu)
              (main.rangeOrder rt (main.sensors m)) client)
    as (news & Hsent & Hin).
  exists news. split; [exact Hsent|].
  assert (Hentry : forall e payload,
             In e (main.sensors m) -> json.Marshal (snd e) = Some payload ->
             In (state (fst e) payload) news).
  { intros e payload He HM. apply Hin; [|exact HM].
    apply (Permutation_in e (Permutation_sym (Hperm _)) He). }
  repeat split; intros Hu.
  - apply (Hentry ("power_draw", json.Float64 (nvidia.PowerDraw m)));
      [simpl; tauto|]. simpl. now rewrite (Hpower Hu).
  - apply (Hentry
             ("performance_level", json.GoString (nvidia.PerformanceLevel m)));
      [simpl; tauto|]. simpl. now rewrite (Hperf Hu).
  - apply (Hentry ("gpu_utilization", json.GoInt (nvidia.GPUUtilization m)));
      [simpl; tauto|]. simpl. now rewrite (Hutil Hu).
  - apply (Hentry ("temperature", json.GoInt (nvidia.Temperature m)));
      [simpl; tauto|]. simpl. now rewrite (Htemp Hu).
Qed.

Lemma unsupported_metric_published_as_zero_witness :
  exists news,
    mqtt.sent
      (@main.monitorGPU noTables promptRuntime config.DefaultConfig
         freshClient noPowerDevice)
    = (mqtt.sent freshClient ++ news)%list /\
    In {| mqtt.topic :=
            "homeassistant/sensor/nvml-gpu/"
              ++ @nvidia.GetDeviceID noTables noPowerDevice ++ "_"
              ++ "power_draw" ++ "/state";
          mqtt.qos := 1;
          mqtt.retained := config.MQTTRetain config.DefaultConfig;
          mqtt.payload := json.Float 0 |} news.
Proof.
  destruct (unsupported_metric_published_as_zero noTables promptRuntime
              config.DefaultConfig freshClient noPowerDevice)
    as (news & E & Hpower & _).
  - vm_compute. reflexivity.
  - intros l. apply Permutation_refl.
  - exists news. split; [exact E|]. apply Hpower. reflexivity.
Defined.

(** C3, as stated, fails: a card without the power query, sampled with
    success, gets the value 0 published to its power-draw state topic. *)
Lemma unsupported_metric_counterexample :
  snd (GetPowerUsage (nvidia.Handle noPowerDevice)) = ERROR_NOT_SUPPORTED /\
  snd (nvidia.GetGPUMetrics true noPowerDevice) = None /\
  In {| mqtt.topic :=
          "homeassistant/sensor/nvml-gpu/00_04_00_0_gpu1a2b3_power_draw/state";
        mqtt.qos := 1;
        mqtt.retained := true;
        mqtt.payload := json.Float 0 |}
     (mqtt.sent
        (@main.monitorGPU noTables promptRuntime config.DefaultConfig
           freshClient noPowerDevice)).
Proof.
  split; [reflexivity|]. split; [vm_compute; reflexivity|].
  vm_compute. left. reflexivity.
Qed.

(** C5.  When the memory-info query of a device fails, its sample fails,
    whether or not the other queries answer and whether or not the timer
    fires first; the task of that device publishes nothing, and the cycle
    publishes what it would publish without that device. *)
Theorem memory_info_failure_publishes_nothing (U : Unicode)
  (rt : main.Runtime) (cfg : config.Config) (gpu : nvidia.GPUDevice) :
  snd (GetMemoryInfo (nvidia.Handle gpu)) <> SUCCESS ->
  (exists m e, nvidia.GetGPUMetrics (main.inTime rt gpu) gpu = (m, Some e)) /\
  (forall client, main.monitorGPU rt cfg client gpu = client) /\
  (forall st client before after now done,
     main.monitorGPUs rt cfg st client (before ++ gpu :: after) now done
     = main.monitorGPUs rt cfg st client (before ++ after) now done).
Proof.
  intros Hmem.
  assert (Hfail : exists m e,
             nvidia.GetGPUMetrics (main.inTime rt gpu) gpu = (m, Some e)).
  { unfold nvidia.GetGPUMetrics. destruct (main.inTime rt gpu).
    - now apply getGPUMetricsInternal_memory_failure.
    - now eexists _, _. }
  assert (Hid : forall client, main.monitorGPU rt cfg client gpu = client).
  { intros client. destruct Hfail as (m & e & E).
    exact (monitorGPU_failure cfg rt client gpu m e E). }
  repeat split; [exact Hfail|exact Hid|].
  intros st client before after now done. unfold main.monitorGPUs.
  destruct (main.enter cfg st now) as [st' []]; try reflexivity.
  rewrite !flat_map_app. cbn [flat_map].
  replace (main.spawn rt gpu) with (@nil main.goroutine); [reflexivity|].
  destruct Hfail as (m & e & E). unfold main.spawn. now rewrite E.
Qed.

Lemma memory_info_failure_publishes_nothing_witness :
  @main.monitorGPU noTables promptRuntime config.DefaultConfig freshClient
    noMemoryDevice = freshClient /\
  mqtt.sent
    (snd (@main.monitorGPUs noTables promptRuntime config.DefaultConfig
            main.initial freshClient [noMemoryDevice] 1000%Z 2000%Z)) = [].
Proof.
  destruct (memory_info_failure_publishes_nothing noTables promptRuntime
              config.DefaultConfig noMemoryDevice) as (_ & Hid & Hcycle).
  - simpl. discriminate.
  - split; [apply Hid|].
    pose proof (Hcycle main.initial freshClient [] [] 1000%Z 2000%Z) as E.
    cbn [app] in E. rewrite E. reflexivity.
Defined.

(** ** The discovery publisher *)

Import homeassistant.

(** [registerSensor] publishes one message, to the config topic of the
    sensor, and fails exactly when that publish is not acknowledged. *)
Lemma registerSensor_spec (m : Manager)
  (id dn k n dc u i sc t : string) (info : DeviceInfo) :
  exists msg : mqtt.Message,
    mqtt.topic msg
    = "homeassistant/sensor/nvml-gpu/" ++ id ++ "_" ++ k ++ "/config" /\
    registerSensor m id dn k n dc u i sc t info
    = ({| client :=
            {| mqtt.acks := mqtt.acks (client m);
               mqtt.sent := (mqtt.sent (client m) ++ [msg])%list |};
          config := config m |},
       if mqtt.acks (client m) (mqtt.sent (client m)) msg
       then None else Some ErrPublishConfig).
Proof.
  unfold registerSensor, mqtt.Publish. cbv beta iota zeta.
  match goal with
  | |- context [mqtt.acks (client m) (mqtt.sent (client m)) ?x] => exists x
  end.
  split; [reflexivity|]. destruct (mqtt.acks _ _ _); reflexivity.
Qed.

(** The loop of [RegisterGPUSensors] over any table: the config topics of
    the first [n] sensors are published to, in order; every publish but
    the last one of a failed run is acknowledged; a run fails on its last
    publish and names that sensor. *)
Lemma registerEach_spec (id dn : string) (info : DeviceInfo)
  (l : list sensorDef) :
  forall m : Manager,
    let result := registerEach m id dn info l in
    let configTopic k :=
      "homeassistant/sensor/nvml-gpu/" ++ id ++ "_" ++ k ++ "/config" in
    exists (n : nat) (news : list mqtt.Message),
      mqtt.sent (client (fst result)) = (mqtt.sent (client m) ++ news)%list /\
      map mqtt.topic news = firstn n (map configTopic (map key l)) /\
      (forall j msg,
         nth_error news j = Some msg ->
         mqtt.acks (client m) (mqtt.sent (client m) ++ firstn j news)%list msg
         = match snd result with
           | None => true
           | Some _ => (S j <? n)%nat
           end) /\
      match snd result with
      | None => n = List.length l
      | Some e =>
          exists k, e = ErrRegisterSensor k ErrPublishConfig /\
                    nth_error (map key l) (n - 1) = Some k /\
                    (1 <= n <= List.length l)%nat
      end.
Proof.
  induction l as [|s rest IH]; intros m result configTopic.
  - exists 0%nat, []. subst result. simpl.
    repeat split; [now rewrite app_nil_r|]. intros [|j] msg H; discriminate H.
  - subst result. cbn [registerEach].
    destruct (registerSensor_spec m id dn (key s) (name s) (deviceClass s)
                (unit s) (icon s) (stateClass s) (template s) info)
      as (msg0 & Htopic & ->).
    destruct (mqtt.acks (client m) (mqtt.sent (client m)) msg0) eqn:Hack.
    + match goal with
      | |- context [registerEach ?m1 _ _ _ rest] =>
          destruct (IH m1) as (n & news & Hsent & Htopics & Hacks & Hres)
      end.
      cbn [client mqtt.sent mqtt.acks] in Hsent, Hacks.
      exists (S n), (msg0 :: news). split; [|split; [|split]].
      * rewrite Hsent, <- app_assoc. reflexivity.
      * cbn [map firstn]. now rewrite Htopics, Htopic.
      * intros [|j] msg Hj.
        -- cbn in Hj. injection Hj as <-. cbn [firstn].
           rewrite app_nil_r, Hack.
           destruct (snd _); [|reflexivity].
           destruct Hres as (k & _ & _ & Hn). symmetry.
           apply Nat.ltb_lt. lia.
        -- cbn in Hj. specialize (Hacks j msg Hj).
           cbn [firstn]. rewrite <- app_assoc in Hacks. cbn [app] in Hacks.
           rewrite Hacks. destruct (snd _); reflexivity.
      * destruct (snd _) as [e|].
        -- destruct Hres as (k & -> & Hk & Hn). exists k.
           split; [reflexivity|]. split; [|cbn [List.length]; lia].
           destruct n as [|n']; [lia|]. cbn [map].
           replace (S (S n') - 1)%nat with (S n') by lia.
           replace (S n' - 1)%nat with n' in Hk by lia. exact Hk.
        -- cbn [List.length]. now rewrite Hres.
    + exists 1%nat, [msg0]. cbn [fst snd client mqtt.sent].
      split; [reflexivity|]. split; [|split].
      * cbn. now rewrite Htopic.
      * intros [|[|j]] msg Hj; try discriminate Hj.
        cbn in Hj. injection Hj as <-. cbn [firstn].
        now rewrite app_nil_r, Hack.
      * exists (key s). repeat split; cbn [List.length]; lia.
Qed.

(** C2 (as amended).  [RegisterGPUSensors] registers the five sensors of a
    device in the order of its table and stops at the first one whose
    discovery publish fails: that sensor and the ones before it have been
    published to their config topics, the ones after it are not attempted,
    and the error names the sensor that failed.  All five are attempted
    exactly when the publishes of the first four are acknowledged, and
    the registration succeeds exactly when all five are. *)
Theorem registration_stops_at_first_failure (U : Unicode) (m : Manager)
  (device : nvidia.GPUDevice) (hostname : string) :
  let keys := ["power_draw"; "performance_level"; "memory_usage";
               "gpu_utilization"; "temperature"] in
  let configTopic k :=
    "homeassistant/sensor/nvml-gpu/" ++ nvidia.GetDeviceID device ++ "_" ++ k
      ++ "/config" in
  let result := RegisterGPUSensors m device hostname in
  exists (n : nat) (news : list mqtt.Message),
    mqtt.sent (client (fst result)) = (mqtt.sent (client m) ++ news)%list /\
    map mqtt.topic news = firstn n (map configTopic keys) /\
    (forall j msg,
       nth_error news j = Some msg ->
       mqtt.acks (client m) (mqtt.sent (client m) ++ firstn j news)%list msg
       = match snd result with
         | None => true
         | Some _ => (S j <? n)%nat
         end) /\
    match snd result with
    | None => n = 5%nat
    | Some e =>
        exists k, e = ErrRegisterSensor k ErrPublishConfig /\
                  nth_error keys (n - 1) = Some k /\
                  (1 <= n <= 5)%nat
    end /\
    (n = 5%nat <->
     forall j msg,
       (j < 4)%nat -> nth_error news j = Some msg ->
       mqtt.acks (client m) (mqtt.sent (client m) ++ firstn j news)%list msg
       = true) /\
    (snd result = None <->
     n = 5%nat /\
     forall j msg,
       nth_error news j = Some msg ->
       mqtt.acks (client m) (mqtt.sent (client m) ++ firstn j news)%list msg
       = true).
Proof.
  intros keys configTopic result. subst result.
  unfold RegisterGPUSensors.
  match goal with
  | |- context [registerEach m ?id ?dn ?info sensors] =>
      destruct (registerEach_spec id dn info sensors m)
        as (n & news & Hsent & Htopics & Hacks & Hres);
      set (result := registerEach m id dn info sensors) in *
  end.
  change (map key sensors) with keys in Htopics, Hres.
  change (List.length sensors) with 5%nat in Hres.
  exists n, news.
  split; [exact Hsent|]. split; [exact Htopics|]. split; [exact Hacks|].
  split; [exact Hres|].
  assert (Hn : (1 <= n <= 5)%nat).
  { destruct (snd result); [|lia]. now destruct Hres as (k & _ & _ & Hn). }
  assert (Hlen : List.length news = n).
  { rewrite <- (length_map mqtt.topic), Htopics, length_firstn, length_map.
    cbn [List.length keys]. lia. }
  assert (Hlast : exists msg, nth_error news (n - 1) = Some msg).
  { destruct (nth_error news (n - 1)) as [msg|] eqn:E; [now exists msg|].
    apply nth_error_None in E. lia. }
  destruct Hlast as (last & Hlast).
  assert (Hrefused :
            snd result <> None ->
            mqtt.acks (client m)
              (mqtt.sent (client m) ++ firstn (n - 1) news)%list last
            = false).
  { intros Herr. rewrite (Hacks _ _ Hlast).
    destruct (snd result); [|contradiction].
    apply Nat.ltb_ge. lia. }
  split; split.
  - intros -> j msg Hj Hmsg. rewrite (Hacks j msg Hmsg).
    destruct (snd result); [|reflexivity]. apply Nat.ltb_lt. lia.
  - intros Hfour. destruct (snd result) eqn:Hr; [|exact Hres].
    destruct (Nat.eq_dec n 5) as [E|E]; [exact E|].
    rewrite (Hfour (n - 1)%nat last) in Hrefused by (lia || assumption).
    discriminate Hrefused. discriminate.
  - intros Hr. rewrite Hr in Hres, Hacks. split; [exact Hres|exact Hacks].
  - intros [_ Hall]. destruct (snd result) eqn:Hr; [|reflexivity].
    rewrite (Hall _ _ Hlast) in Hrefused. discriminate Hrefused.
    discriminate.
Qed.

Lemma registration_stops_at_first_failure_witness :
  let result :=
    @RegisterGPUSensors noTables refusingManager sampleDevice "SERVER1" in
  exists (n : nat) (news : list mqtt.Message),
    mqtt.sent (client (fst result))
    = (mqtt.sent (client refusingManager) ++ news)%list /\
    n = 2%nat /\
    List.length news = 2%nat.
Proof.
  cbv zeta.
  destruct (registration_stops_at_first_failure noTables refusingManager
              sampleDevice "SERVER1")
    as (n & news & Hsent & Htopics & _ & Hres & _ & _).
  assert (E : snd (@RegisterGPUSensors noTables refusingManager sampleDevice
                     "SERVER1")
              = Some (ErrRegisterSensor "performance_level" ErrPublishConfig))
    by (vm_compute; reflexivity).
  rewrite E in Hres. destruct Hres as (k & Hk & Hnth & Hn).
  injection Hk as <-.
  assert (Hn2 : n = 2%nat).
  { destruct n as [|[|[|[|[|[|n]]]]]]; try lia; try reflexivity;
      simpl in Hnth; discriminate Hnth. }
  exists n, news. split; [exact Hsent|]. split; [exact Hn2|].
  rewrite <- (length_map mqtt.topic), Htopics, Hn2. reflexivity.
Defined.

(** C2, as stated, fails: when the publish for the performance level is
    refused, the three sensors after it are never attempted. *)
Lemma registration_counterexample :
  let result :=
    @RegisterGPUSensors noTables refusingManager sampleDevice "SERVER1" in
  snd result = Some (ErrRegisterSensor "performance_level" ErrPublishConfig) /\
  map mqtt.topic (mqtt.sent (client (fst result)))
  = ["homeassistant/sensor/nvml-gpu/00_04_00_0_gpu1a2b3_power_draw/config";
     "homeassistant/sensor/nvml-gpu/00_04_00_0_gpu1a2b3"
       ++ "_performance_level/config"] /\
  ~ In "homeassistant/sensor/nvml-gpu/00_04_00_0_gpu1a2b3_temperature/config"
      (map mqtt.topic (mqtt.sent (client (fst result)))).
Proof.
  cbv zeta.
  set (topics :=
         map mqtt.topic
           (mqtt.sent
              (client
                 (fst (@RegisterGPUSensors noTables refusingManager
                         sampleDevice "SERVER1"))))).
  assert (E : topics
              = ["homeassistant/sensor/nvml-gpu/00_04_00_0_gpu1a2b3"
                   ++ "_power_draw/config";
                 "homeassistant/sensor/nvml-gpu/00_04_00_0_gpu1a2b3"
                   ++ "_performance_level/config"])
    by (vm_compute; reflexivity).
  split; [vm_compute; reflexivity|]. split; [exact E|].
  rewrite E. intros [H|[H|[]]]; discriminate H.
Qed.

(** The document [registerSensor] publishes names its state topic and
    its sensor. *)
Lemma registerSensor_document (m : Manager)
  (id dn k n dc u i sc t : string) (info : DeviceInfo) :
  exists msg : mqtt.Message,
    registerSensor m id dn k n dc u i sc t info
    = ({| client :=
            {| mqtt.acks := mqtt.acks (client m);
               mqtt.sent := (mqtt.sent (client m) ++ [msg])%list |};
          config := config m |},
       if mqtt.acks (client m) (mqtt.sent (client m)) msg
       then None else Some ErrPublishConfig) /\
    json.field "state_topic" (mqtt.payload msg)
    = Some (json.Str ("homeassistant/sensor/nvml-gpu/" ++ id ++ "_" ++ k
                        ++ "/state")) /\
    json.field "unique_id" (mqtt.payload msg)
    = Some (json.Str ("nvml_gpu_" ++ id ++ "_" ++ k)).
Proof.
  unfold registerSensor, mqtt.Publish. cbv beta iota zeta.
  match goal with
  | |- context [mqtt.acks (client m) (mqtt.sent (client m)) ?x] => exists x
  end.
  split; [destruct (mqtt.acks _ _ _); reflexivity|]. split; reflexivity.
Qed.

(** The documents of a registration, sensor by sensor in the order of the
    table. *)
Lemma registerEach_documents (id dn : string) (info : DeviceInfo)
  (l : list sensorDef) :
  forall m : Manager,
    let result := registerEach m id dn info l in
    exists docs : list mqtt.Message,
      mqtt.sent (client (fst result)) = (mqtt.sent (client m) ++ docs)%list /\
      (List.length docs <= List.length l)%nat /\
      (snd result = None -> List.length docs = List.length l) /\
      forall sdef doc,
        In (sdef, doc) (combine l docs) ->
        json.field "state_topic" (mqtt.payload doc)
        = Some (json.Str ("homeassistant/sensor/nvml-gpu/" ++ id ++ "_"
                            ++ key sdef ++ "/state")) /\
        json.field "unique_id" (mqtt.payload doc)
        = Some (json.Str ("nvml_gpu_" ++ id ++ "_" ++ key sdef)).
Proof.
  induction l as [|s rest IH]; intros m result; subst result.
  - exists []. cbn [registerEach fst snd combine List.length].
    split; [now rewrite app_nil_r|]. split; [lia|].
    split; [reflexivity|]. intros ? ? [].
  - cbn [registerEach].
    destruct (registerSensor_document m id dn (key s) (name s)
                (deviceClass s) (unit s) (icon s) (stateClass s)
                (template s) info) as (msg & -> & Hst & Hid).
    destruct (mqtt.acks (client m) (mqtt.sent (client m)) msg).
    + match goal with
      | |- context [registerEach ?m1 _ _ _ rest] =>
          destruct (IH m1) as (docs & Hsent & Hle & Hall & Hdocs)
      end.
      cbn [client mqtt.sent] in Hsent.
      exists (msg :: docs). split; [now rewrite Hsent, <- app_assoc|].
      split; [cbn [List.length]; lia|].
      split; [intros H; cbn [List.length]; now rewrite Hall|].
      intros sdef doc [E|Hin]; [|now apply Hdocs].
      injection E as <- <-. now split.
    + exists [msg]. cbn [fst snd client mqtt.sent].
      split; [reflexivity|]. split; [cbn [List.length]; lia|].
      split; [discriminate|].
      intros sdef doc Hin. destruct rest; cbn [combine] in Hin;
        destruct Hin as [E|[]]; injection E as <- <-; now split.
Qed.

(** C6.  The discovery documents [RegisterGPUSensors] publishes for a
    device are those of the sensors of its table, in order, all five when
    it returns no error; the state messages [publishMetrics] publishes
    for the device are those of the entries of its map whose value can be
    marshalled, in the order of the visit; the map and the table hold the
    same five metric keys.  Whenever a document and a state message are
    for the same metric key, the field state_topic of the document is
    exactly the topic of the state message. *)
Theorem state_topic_round_trip (U : Unicode) (rt : main.Runtime)
  (m : Manager) (cfg : config.Config) (publisher : mqtt.Client)
  (device : nvidia.GPUDevice) (hostname : string)
  (metrics : nvidia.GPUMetrics) :
  (forall l, Permutation (main.rangeOrder rt l) l) ->
  let registered := RegisterGPUSensors m device hostname in
  let published := main.publishMetrics rt cfg publisher device metrics in
  let visited :=
    filter marshals (main.rangeOrder rt (main.sensors metrics)) in
  exists docs states : list mqtt.Message,
    mqtt.sent (client (fst registered))
    = (mqtt.sent (client m) ++ docs)%list /\
    mqtt.sent published = (mqtt.sent publisher ++ states)%list /\
    (List.length docs <= 5)%nat /\
    (snd registered = None -> List.length docs = 5%nat) /\
    List.length states = List.length visited /\
    Permutation (map fst (main.rangeOrder rt (main.sensors metrics)))
      (map key sensors) /\
    forall (sdef : sensorDef) (doc : mqtt.Message)
           (e : string * json.interface) (state : mqtt.Message),
      In (sdef, doc) (combine sensors docs) ->
      In (e, state) (combine visited states) ->
      json.field "unique_id" (mqtt.payload doc)
      = Some (json.Str ("nvml_gpu_" ++ nvidia.GetDeviceID device ++ "_"
                          ++ key sdef)) /\
      json.Marshal (snd e) = Some (mqtt.payload state) /\
      (key sdef = fst e ->
       json.field "state_topic" (mqtt.payload doc)
       = Some (json.Str (mqtt.topic state))).
Proof.
  intros Hperm registered published visited.
  subst registered published visited.
  unfold RegisterGPUSensors, main.publishMetrics.
  match goal with
  | |- context [registerEach m ?id ?dn ?info sensors] =>
      destruct (registerEach_documents id dn info sensors m)
        as (docs & Hdocs & Hle & Hall & Hfields)
  end.
  destruct (stateMessages_visited cfg (nvidia.GetDeviceID device)
              (main.rangeOrder rt (main.sensors metrics)))
    as [Hlen Hstates].
  exists docs,
    (flat_map (stateMessages cfg (nvidia.GetDeviceID device))
       (main.rangeOrder rt (main.sensors metrics))).
  split; [exact Hdocs|].
  split; [exact (publish_fold_exact cfg _ _ publisher)|].
  split; [exact Hle|]. split; [exact Hall|]. split; [exact Hlen|].
  split; [exact (Permutation_map fst (Hperm (main.sensors metrics)))|].
  intros sdef doc e state Hdoc Hstate.
  destruct (Hfields sdef doc Hdoc) as [Htopic Hid].
  destruct (Hstates e state Hstate) as [Hpayload Hto].
  split; [exact Hid|]. split; [exact Hpayload|].
  intros Hkey. now rewrite Htopic, Hto, Hkey.
Qed.

Lemma state_topic_round_trip_witness :
  let dummy := {| mqtt.topic := ""; mqtt.qos := 0; mqtt.retained := false;
                  mqtt.payload := json.Str "" |} in
  let doc :=
    nth 4
      (mqtt.sent
         (client
            (fst (@RegisterGPUSensors noTables
                    {| client := freshClient;
                       config := config.DefaultConfig |}
                    sampleDevice "SERVER1")))) dummy in
  let state :=
    nth 4
      (mqtt.sent
         (@main.publishMetrics noTables promptRuntime config.DefaultConfig
            freshClient sampleDevice
            (fst (nvidia.getGPUMetricsInternal sampleDevice)))) dummy in
  mqtt.topic state
  = "homeassistant/sensor/nvml-gpu/00_04_00_0_gpu1a2b3_temperature/state" /\
  json.field "state_topic" (mqtt.payload doc)
  = Some (json.Str (mqtt.topic state)).
Proof.
  cbv zeta. split; [vm_compute; reflexivity|].
  destruct (state_topic_round_trip noTables promptRuntime
              {| client := freshClient; config := config.DefaultConfig |}
              config.DefaultConfig freshClient sampleDevice "SERVER1"
              (fst (nvidia.getGPUMetricsInternal sampleDevice)))
    as (docs & states & Hdocs & Hstates & _ & _ & _ & _ & Hround).
  - intros l. apply Permutation_refl.
  - change (mqtt.sent (client {| client := freshClient;
                                 config := config.DefaultConfig |}))
      with (@nil mqtt.Message) in Hdocs.
    change (mqtt.sent freshClient) with (@nil mqtt.Message) in Hstates.
    cbn [app] in Hdocs, Hstates. subst docs states.
    match goal with
    | |- json.field _ (mqtt.payload ?doc) = Some (json.Str (mqtt.topic ?state)) =>
        destruct (Hround
                    {| key := "temperature"; name := "GPU Temperature";
                       deviceClass := "temperature";
                       unit := String (ascii_of_nat 194)
                                 (String (ascii_of_nat 176) "C");
                       icon := "mdi:thermometer";
                       stateClass := "measurement"; template := "" |}
                    doc ("temperature", json.GoInt 55) state)
          as (_ & _ & Htopic)
    end.
    + vm_compute. do 4 right. left. reflexivity.
    + vm_compute. do 4 right. left. reflexivity.
    + exact (Htopic eq_refl).
Defined.

(** ** The sampling scheduler *)

Import main.

Lemma wrap64_small (z : Z) :
  (- 2 ^ 63 <= z < 2 ^ 63)%Z -> wrap64 z = z.
Proof. intros H. unfold wrap64. rewrite Z.mod_small; lia. Qed.

(** For a polling period that is a valid duration in seconds, the minimum
    interval is the period halved in whole seconds. *)
Lemma minInterval_floor (cfg : config.Config) :
  (0 < config.PollingPeriod cfg <= 9223372036)%Z ->
  minInterval cfg = (config.PollingPeriod cfg / 2 * Second)%Z.
Proof.
  intros H. unfold minInterval, Second.
  rewrite Z.quot_div_nonneg by lia.
  apply wrap64_small.
  assert (0 <= config.PollingPeriod cfg / 2 <= 4611686018)%Z.
  { split; [apply Z.div_pos; lia|]. apply Z.div_le_upper_bound; lia. }
  lia.
Qed.

Lemma step_consistent (cfg : config.Config) (s s' : Sched) (e : event) :
  consistent s -> step cfg s e = Some s' -> consistent s'.
Proof.
  unfold consistent. destruct s as [[busy last] w n].
  cbn [monitor running isMonitoring]. intros H E.
  destruct e as [|now|now]; cbn [step monitor waiting running] in E.
  - injection E as <-. exact H.
  - destruct w; [|discriminate E]. destruct n; [|discriminate E].
    unfold enter in E. cbn [isMonitoring lastMonitorTime] in E.
    destruct busy; [discriminate H|].
    destruct (Since now last <? minInterval cfg)%Z; injection E as <-;
      reflexivity.
  - destruct n as [|n]; [discriminate E|]. injection E as <-.
    cbn [monitor running isMonitoring leave].
    destruct busy; [lia|discriminate H].
Qed.

Lemma run_snoc (cfg : config.Config) (events : list event) (e : event) :
  run cfg (events ++ [e])
  = match run cfg events with
    | Some s => step cfg s e
    | None => None
    end.
Proof. unfold run. now rewrite fold_left_app. Qed.

Lemma run_consistent (cfg : config.Config) (events : list event) :
  forall s : Sched, run cfg events = Some s -> consistent s.
Proof.
  induction events as [|e events IH] using rev_ind; intros s E.
  - injection E as <-. reflexivity.
  - rewrite run_snoc in E. destruct (run cfg events) as [s0|];
      [|discriminate E].
    exact (step_consistent cfg s0 s e (IH s0 eq_refl) E).
Qed.

(** C4 (as amended).  A call of [monitorGPUs] that finds the flag
    [isMonitoring] set, or that comes before the polling period halved in
    whole seconds has elapsed since the last completion, starts no cycle:
    the state is left as it was and nothing is sampled or published.  In
    the main loop at most one cycle is in progress, and the flag tells
    when.  A tick taken too soon after the last completion is a no-op.
    A tick that fires during a cycle is not taken during it: it waits in
    the channel of the ticker, and once the cycle has returned the loop
    takes it, to start a cycle then unless that is too soon after the
    completion. *)
Theorem tick_guards (cfg : config.Config) :
  (0 < config.PollingPeriod cfg <= 9223372036)%Z ->
  (forall (st : Monitor) (now : Time),
     isMonitoring st = true \/
     (Since now (lastMonitorTime st)
        < config.PollingPeriod cfg / 2 * Second)%Z ->
     (exists why, enter cfg st now = (st, why) /\ why <> Start) /\
     (forall (U : Unicode) rt client gpus done,
        monitorGPUs rt cfg st client gpus now done = (st, client))) /\
  (forall (events : list event) (s : Sched),
     run cfg events = Some s ->
     (running s <= 1)%nat /\
     (running s = 1%nat <-> isMonitoring (monitor s) = true) /\
     (forall now : Time,
        waiting s = true -> running s = 0%nat ->
        (Since now (lastMonitorTime (monitor s))
           < config.PollingPeriod cfg / 2 * Second)%Z ->
        step cfg s (Take now)
        = Some {| monitor := monitor s; waiting := false; running := 0 |}) /\
     (running s = 1%nat ->
      (forall now : Time, step cfg s (Take now) = None) /\
      step cfg s Fire
      = Some {| monitor := monitor s; waiting := true; running := 1 |} /\
      (forall done now : Time,
         let soon :=
           (Since now done <? config.PollingPeriod cfg / 2 * Second)%Z in
         run cfg (events ++ [Fire; Return done; Take now])
         = Some {| monitor := {| isMonitoring := negb soon;
                                 lastMonitorTime := done |};
                   waiting := false;
                   running := if soon then 0%nat else 1%nat |}))).
Proof.
  intros HP.
  assert (Hskip : forall st now,
             isMonitoring st = true \/
             (Since now (lastMonitorTime st)
                < config.PollingPeriod cfg / 2 * Second)%Z ->
             exists why, enter cfg st now = (st, why) /\ why <> Start).
  { intros st now Hguard. unfold enter. destruct Hguard as [Hbusy|Hsoon].
    - rewrite Hbusy. now exists SkipInProgress.
    - destruct (isMonitoring st); [now exists SkipInProgress|].
      rewrite (minInterval_floor cfg HP).
      apply Z.ltb_lt in Hsoon. rewrite Hsoon. now exists SkipTooSoon. }
  split.
  - intros st now Hguard.
    destruct (Hskip st now Hguard) as (why & E & Hwhy). split.
    + now exists why.
    + intros U rt client gpus done. unfold monitorGPUs. rewrite E.
      now destruct why.
  - intros events s Hrun. pose proof (run_consistent cfg events s Hrun) as H.
    unfold consistent in H. split; [|split; [|split]].
    + rewrite H. destruct (isMonitoring (monitor s)); lia.
    + rewrite H. destruct (isMonitoring (monitor s)); split; intros;
        (reflexivity || discriminate).
    + intros now Hwait Hidle Hsoon.
      destruct (Hskip (monitor s) now (or_intror Hsoon)) as (why & E & Hwhy).
      cbn [step]. rewrite Hwait, Hidle, E. now destruct why.
    + intros Hbusy. split; [|split].
      * intros now. cbn [step]. rewrite Hbusy. now destruct (waiting s).
      * cbn [step]. now rewrite Hbusy.
      * intros done now soon. unfold run in Hrun |- *.
        rewrite fold_left_app, Hrun. cbn [fold_left step monitor waiting
          running]. rewrite Hbusy.
        cbn [monitor waiting running].
        unfold enter, leave. cbn [isMonitoring lastMonitorTime].
        rewrite (minInterval_floor cfg HP). fold soon.
        now destruct soon.
Qed.

Lemma tick_guards_witness :
  let st := {| isMonitoring := false;
               lastMonitorTime := 63900000000000000000%Z |} in
  enter config.DefaultConfig st 63900000010000000000%Z = (st, SkipTooSoon) /\
  run config.DefaultConfig
    [Fire; Take 63900000030000000000%Z; Fire;
     Return 63900000032000000000%Z; Take 63900000032000001000%Z]
  = Some {| monitor := {| isMonitoring := false;
                          lastMonitorTime := 63900000032000000000%Z |};
            waiting := false; running := 0 |}.
Proof.
  cbv zeta.
  destruct (tick_guards config.DefaultConfig) as [Hguard Hloop].
  - simpl. lia.
  - split.
    + destruct (Hguard {| isMonitoring := false;
                          lastMonitorTime := 63900000000000000000%Z |}
                  63900000010000000000%Z) as [(why & E & Hwhy) _].
      * right. vm_compute. reflexivity.
      * rewrite E. f_equal.
        unfold enter in E. vm_compute in E. now injection E as <-.
    + assert (E : run config.DefaultConfig
                    [Fire; Take 63900000030000000000%Z]
                  = Some {| monitor := {| isMonitoring := true;
                                          lastMonitorTime := 0%Z |};
                            waiting := false; running := 1 |})
        by (vm_compute; reflexivity).
      destruct (Hloop _ _ E) as (_ & _ & _ & Hcycle).
      destruct (Hcycle eq_refl) as (_ & _ & Hnext).
      etransitivity;
        [exact (Hnext 63900000032000000000%Z 63900000032000001000%Z)|].
      vm_compute. reflexivity.
Defined.

(** C4, as stated, fails on the second guard: with a period of 3 seconds,
    a tick taken 1.2 seconds after the completion of the previous cycle,
    less than half the period, starts a cycle. *)
Lemma half_interval_counterexample :
  let cfg :=
    {| config.Hostname := ""; config.MQTTHost := "localhost";
       config.MQTTPort := 1883; config.MQTTUsername := "";
       config.MQTTPassword := ""; config.MQTTLWTEnable := true;
       config.MQTTRetain := true; config.PollingPeriod := 3 |} in
  let before :=
    {| monitor := {| isMonitoring := false;
                     lastMonitorTime := 63900000004800000000%Z |};
       waiting := true; running := 0 |} in
  let now := 63900000006000000000%Z in
  run cfg [Fire; Take 63900000003000000000%Z;
           Return 63900000004800000000%Z; Fire] = Some before /\
  (2 * Since now (lastMonitorTime (monitor before))
     < config.PollingPeriod cfg * Second)%Z /\
  snd (enter cfg (monitor before) now) = Start /\
  step cfg before (Take now)
  = Some {| monitor := {| isMonitoring := true;
                          lastMonitorTime := 63900000004800000000%Z |};
            waiting := false; running := 1 |}.
Proof. cbv zeta. repeat split; vm_compute; reflexivity. Qed.

(** The first guard is never the one that skips a tick of the timer: with
    a period of 1 second, the tick that fires during a cycle waits, and
    starts the next cycle as soon as the first has returned. *)
Lemma tick_during_cycle_starts_the_next :
  let cfg :=
    {| config.Hostname := ""; config.MQTTHost := "localhost";
       config.MQTTPort := 1883; config.MQTTUsername := "";
       config.MQTTPassword := ""; config.MQTTLWTEnable := true;
       config.MQTTRetain := true; config.PollingPeriod := 1 |} in
  let during :=
    run cfg [Fire; Take 63900000001000000000%Z; Fire] in
  option_map running during = Some 1%nat /\
  option_map waiting during = Some true /\
  run cfg [Fire; Take 63900000001000000000%Z; Fire;
           Return 63900000002500000000%Z; Take 63900000002500001000%Z]
  = Some {| monitor := {| isMonitoring := true;
                          lastMonitorTime := 63900000002500000000%Z |};
            waiting := false; running := 1 |}.
Proof. cbv zeta. repeat split; vm_compute; reflexivity. Qed.

(* ===================================================================== *)
(** * Further properties of the code *)
(* ===================================================================== *)

(** ** Substrings and segments *)

Lemma length_append (a b : string) :
  String.length (a ++ b) = (String.length a + String.length b)%nat.
Proof. induction a as [|c a IH]; simpl; [reflexivity|]. now rewrite IH. Qed.

Lemma substring_app_left (a b : string) :
  substring 0 (String.length a) (a ++ b) = a.
Proof.
  induction a as [|c a IH]; simpl.
  - now destruct b.
  - now rewrite IH.
Qed.

Lemma substring_app_right (a b : string) (n : nat) :
  substring (String.length a) n (a ++ b) = substring 0 n b.
Proof. induction a as [|c a IH]; simpl; [reflexivity|exact IH]. Qed.

Lemma substring_length_le (s : string) (n m : nat) :
  (String.length (substring n m s) <= m)%nat.
Proof.
  revert n m. induction s as [|c s IH]; intros n m.
  - destruct n, m; simpl; lia.
  - destruct n as [|n]; simpl.
    + destruct m as [|m]; simpl; [lia|]. specialize (IH 0%nat m). lia.
    + apply IH.
Qed.

(** A string is its head of [n] bytes followed by the rest. *)
Lemma substring_split (s : string) (n : nat) :
  (n <= String.length s)%nat ->
  s = substring 0 n s ++ substring n (String.length s - n) s.
Proof.
  revert n. induction s as [|c s IH]; intros n Hn.
  - simpl in Hn. assert (n = 0%nat) as -> by lia. reflexivity.
  - destruct n as [|n].
    + simpl. now rewrite substring_all.
    + simpl in Hn |- *. f_equal. apply IH. lia.
Qed.

Lemma ContainsByte_substring (s : string) (c : ascii) (n m : nat) :
  ContainsByte s c = false -> ContainsByte (substring n m s) c = false.
Proof.
  rewrite !ContainsByte_allBytes, !negb_false_iff.
  intros H. now apply allBytes_substring.
Qed.

(** No segment of [Split] holds the separator. *)
Lemma Split_segments (s : string) (sep : ascii) :
  Forall (fun x => ContainsByte x sep = false) (Split s sep).
Proof.
  induction s as [|c s IH]; simpl.
  - now repeat constructor.
  - destruct (Ascii.eqb c sep) eqn:E; [now constructor|].
    destruct (Split s sep) as [|x xs].
    + repeat constructor. simpl. now rewrite E.
    + inversion IH; subst. constructor; [|assumption].
      simpl. now rewrite E.
Qed.

Lemma Split_no_sep (a : string) (sep : ascii) :
  ContainsByte a sep = false -> Split a sep = [a].
Proof.
  induction a as [|c a IH]; simpl; intros H; [reflexivity|].
  apply orb_false_iff in H as [Hc Ha]. rewrite Hc, (IH Ha). reflexivity.
Qed.

Lemma Split_app_sep (a b : string) (sep : ascii) :
  ContainsByte a sep = false ->
  Split (a ++ String sep b) sep = a :: Split b sep.
Proof.
  induction a as [|c a IH]; simpl; intros H.
  - now rewrite Ascii.eqb_refl.
  - apply orb_false_iff in H as [Hc Ha]. rewrite Hc, (IH Ha). reflexivity.
Qed.

Lemma Forall_nth_segment (l : list string) (sep : ascii) (i : nat) :
  Forall (fun x => ContainsByte x sep = false) l ->
  ContainsByte (nth i l "") sep = false.
Proof.
  intros H. revert i. induction H as [|x l Hx _ IH]; intros [|i]; simpl;
    auto.
Qed.

(** ** The bus location, normalised *)

(** The domain [GetShortPCIBusID] keeps of a first segment: its last two
    bytes at most. *)
Lemma short_domain (p0 : string) :
  let domain :=
    if (2 <? String.length p0)%nat
    then substring (String.length p0 - 2) 2 p0 else p0 in
  (String.length domain <= 2)%nat /\
  exists dropped, p0 = dropped ++ domain.
Proof.
  cbv zeta. destruct (2 <? String.length p0)%nat eqn:E.
  - apply Nat.ltb_lt in E. split; [apply substring_length_le|].
    exists (substring 0 (String.length p0 - 2) p0).
    rewrite (substring_split p0 (String.length p0 - 2)) at 1 by lia.
    do 2 f_equal. lia.
  - apply Nat.ltb_ge in E. split; [exact E|]. now exists "".
Qed.

(** X1.  On a bus location of three or more colon-separated segments,
    [GetShortPCIBusID] keeps exactly three: the last two bytes at most of
    the first segment, then the second and the third segment unchanged;
    what follows the third segment is dropped. *)
Theorem GetShortPCIBusID_three_segments (pciBusID : string) :
  (3 <= List.length (Split pciBusID ":"))%nat ->
  exists domain dropped : string,
    Split (nvidia.GetShortPCIBusID pciBusID) ":"
    = [domain; nth 1 (Split pciBusID ":") ""; nth 2 (Split pciBusID ":") ""]
    /\ (String.length domain <= 2)%nat
    /\ nth 0 (Split pciBusID ":") "" = dropped ++ domain.
Proof.
  intros Hlen. unfold nvidia.GetShortPCIBusID.
  apply Nat.leb_le in Hlen. rewrite Hlen.
  pose proof (Split_segments pciBusID ":") as Hseg.
  set (parts := Split pciBusID ":") in *.
  destruct (short_domain (nth 0 parts "")) as (Hdom & dropped & Hdrop).
  set (domain := if (2 <? String.length (nth 0 parts ""))%nat
                 then substring (String.length (nth 0 parts "") - 2) 2
                        (nth 0 parts "")
                 else nth 0 parts "") in *.
  exists domain, dropped. split; [|split; assumption].
  assert (Hd : ContainsByte domain ":" = false).
  { subst domain. destruct (2 <? _)%nat.
    - apply ContainsByte_substring. now apply Forall_nth_segment.
    - now apply Forall_nth_segment. }
  change (domain ++ ":" ++ nth 1 parts "" ++ ":" ++ nth 2 parts "")
    with (domain ++ String ":" (nth 1 parts "" ++ String ":" (nth 2 parts ""))).
  rewrite (Split_app_sep _ _ _ Hd).
  rewrite Split_app_sep by now apply Forall_nth_segment.
  rewrite Split_no_sep by now apply Forall_nth_segment.
  reflexivity.
Qed.

Lemma GetShortPCIBusID_three_segments_witness :
  exists domain dropped : string,
    Split (nvidia.GetShortPCIBusID "00000000:04:00.0:7") ":"
    = [domain; "04"; "00.0"]
    /\ (String.length domain <= 2)%nat
    /\ "00000000" = dropped ++ domain.
Proof.
  exact (GetShortPCIBusID_three_segments "00000000:04:00.0:7"
           ltac:(simpl; lia)).
Defined.

(** X2.  [GetShortPCIBusID] is idempotent: a normalised bus location is
    left as it is. *)
Theorem GetShortPCIBusID_idempotent (pciBusID : string) :
  nvidia.GetShortPCIBusID (nvidia.GetShortPCIBusID pciBusID)
  = nvidia.GetShortPCIBusID pciBusID.
Proof.
  destruct (3 <=? List.length (Split pciBusID ":"))%nat eqn:E.
  - apply Nat.leb_le in E.
    pose proof (Split_segments pciBusID ":") as Hseg.
    set (parts := Split pciBusID ":") in *.
    destruct (short_domain (nth 0 parts "")) as (Hdom & _).
    set (domain := if (2 <? String.length (nth 0 parts ""))%nat
                   then substring (String.length (nth 0 parts "") - 2) 2
                          (nth 0 parts "")
                   else nth 0 parts "") in *.
    assert (Hd : ContainsByte domain ":" = false).
    { subst domain. destruct (2 <? _)%nat.
      - apply ContainsByte_substring. now apply Forall_nth_segment.
      - now apply Forall_nth_segment. }
    assert (Hout : nvidia.GetShortPCIBusID pciBusID
                   = domain ++ String ":"
                       (nth 1 parts "" ++ String ":" (nth 2 parts ""))).
    { unfold nvidia.GetShortPCIBusID. fold parts.
      apply Nat.leb_le in E. rewrite E. reflexivity. }
    rewrite Hout at 1. unfold nvidia.GetShortPCIBusID at 1.
    rewrite (Split_app_sep _ _ _ Hd).
    rewrite Split_app_sep by now apply Forall_nth_segment.
    rewrite Split_no_sep by now apply Forall_nth_segment.
    cbn [List.length Nat.leb nth].
    apply Nat.ltb_ge in Hdom. rewrite Hdom. now rewrite Hout.
  - assert (H : nvidia.GetShortPCIBusID pciBusID = pciBusID).
    { unfold nvidia.GetShortPCIBusID. now rewrite E. }
    now rewrite !H.
Qed.

(** ** C strings *)

Import enumeration.

Lemma string_of_list_length (l : list ascii) :
  String.length (string_of_list_ascii l) = List.length l.
Proof. induction l as [|c l IH]; simpl; [reflexivity|]. now rewrite IH. Qed.

Lemma lenToNUL_le (cstr : list Z) : (lenToNUL cstr <= List.length cstr)%nat.
Proof.
  induction cstr as [|c cstr IH]; simpl; [lia|].
  destruct (c =? 0)%Z; lia.
Qed.

Lemma lenToNUL_full (cstr : list Z) :
  ~ In 0%Z cstr -> lenToNUL cstr = List.length cstr.
Proof.
  induction cstr as [|c cstr IH]; simpl; intros Hno; [reflexivity|].
  destruct (Z.eqb_spec c 0) as [->|_]; [exfalso; apply Hno; now left|].
  f_equal. apply IH. intros H. apply Hno. now right.
Qed.

Lemma byteOfInt8_zero (c : Z) :
  (-128 <= c <= 127)%Z -> byteOfInt8 c = Ascii.zero -> c = 0%Z.
Proof.
  intros Hc H. unfold byteOfInt8 in H.
  pose proof (Z.mod_pos_bound c 256 ltac:(lia)) as Hm.
  apply (f_equal N_of_ascii) in H.
  rewrite N_ascii_embedding in H by lia.
  change (N_of_ascii Ascii.zero) with 0%N in H.
  pose proof (Z.div_mod c 256 ltac:(lia)). lia.
Qed.

Lemma byteOfInt8_int8OfByte (b : ascii) : byteOfInt8 (int8OfByte b) = b.
Proof. destruct b as [[] [] [] [] [] [] [] []]; reflexivity. Qed.

Lemma int8OfByte_zero (b : ascii) :
  (int8OfByte b =? 0)%Z = Ascii.eqb b Ascii.zero.
Proof. destruct b as [[] [] [] [] [] [] [] []]; reflexivity. Qed.

(** X3.  [convertCString] returns the bytes of the array that come before
    its first 0: at most 32 of them, all 32 when the array holds no 0, and
    never a NUL byte. *)
Theorem convertCString_shape (cstr : list Z) :
  List.length cstr = 32%nat ->
  Forall (fun c => (-128 <= c <= 127)%Z) cstr ->
  (String.length (convertCString cstr) <= 32)%nat /\
  (~ In 0%Z cstr -> String.length (convertCString cstr) = 32%nat) /\
  ContainsByte (convertCString cstr) Ascii.zero = false /\
  (forall n : nat,
     (n < 32)%nat -> nth n cstr 0%Z = 0%Z ->
     (forall i, (i < n)%nat -> nth i cstr 0%Z <> 0%Z) ->
     convertCString cstr
     = string_of_list_ascii (map byteOfInt8 (firstn n cstr))).
Proof.
  intros Hlen Hrange. unfold convertCString.
  rewrite string_of_list_length, length_map, length_firstn.
  rewrite Nat.min_l by apply lenToNUL_le.
  pose proof (lenToNUL_le cstr) as Hle. rewrite Hlen in Hle.
  split; [lia|]. split; [|split].
  - intros Hno. now rewrite lenToNUL_full.
  - clear Hlen Hle. induction Hrange as [|c cstr Hc _ IH]; simpl;
      [reflexivity|].
    destruct (Z.eqb_spec c 0) as [->|Hne]; simpl; [reflexivity|].
    rewrite IH, orb_false_r. apply Ascii.eqb_neq. intros E.
    apply Hne. now apply byteOfInt8_zero.
  - intros n _ Hn Hbefore.
    replace (lenToNUL cstr) with n; [reflexivity|].
    clear Hlen Hle Hrange.
    revert n Hn Hbefore. induction cstr as [|c cstr IH]; intros n Hn Hbefore.
    + destruct n; [reflexivity|].
      exfalso. apply (Hbefore 0%nat); [lia|reflexivity].
    + simpl. destruct (Z.eqb_spec c 0) as [->|Hne].
      * destruct n as [|n]; [reflexivity|].
        exfalso. apply (Hbefore 0%nat); [lia|reflexivity].
      * destruct n as [|n]; [simpl in Hn; contradiction|].
        f_equal. apply IH; [exact Hn|].
        intros i Hi. apply (Hbefore (S i)). lia.
Qed.

Lemma convertCString_shape_witness :
  (String.length (convertCString (cString "00000000:04:00.0")) <= 32)%nat /\
  ContainsByte (convertCString (cString "00000000:04:00.0")) Ascii.zero
  = false.
Proof.
  destruct (convertCString_shape (cString "00000000:04:00.0"))
    as (Hlen & _ & Hnul & _).
  - reflexivity.
  - vm_compute. repeat constructor; discriminate.
  - split; assumption.
Defined.

Lemma convertCString_padded (l : list ascii) (k : nat) :
  ContainsByte (string_of_list_ascii l) Ascii.zero = false ->
  convertCString (map int8OfByte l ++ repeat 0%Z k)%list
  = string_of_list_ascii l.
Proof.
  unfold convertCString. induction l as [|b l IH]; intros Hnul.
  - simpl. destruct k; reflexivity.
  - simpl in Hnul. apply orb_false_iff in Hnul as [Hb Hl].
    simpl. rewrite int8OfByte_zero, Hb. simpl.
    rewrite byteOfInt8_int8OfByte. f_equal. now apply IH.
Qed.

(** X4.  A string of at most 32 bytes, none of them NUL, that is stored
    in a [[32]int8] padded with 0 is read back unchanged by
    [convertCString]. *)
Theorem convertCString_round_trip (s : string) :
  (String.length s <= 32)%nat ->
  ContainsByte s Ascii.zero = false ->
  List.length (cString s) = 32%nat /\
  convertCString (cString s) = s.
Proof.
  intros Hlen Hnul. unfold cString.
  rewrite <- (string_of_list_ascii_of_string s) in Hnul.
  split.
  - rewrite length_app, length_map, repeat_length.
    assert (E : List.length (list_ascii_of_string s) = String.length s).
    { rewrite <- (string_of_list_ascii_of_string s) at 2.
      now rewrite string_of_list_length. }
    lia.
  - rewrite (convertCString_padded _ _ Hnul).
    apply string_of_list_ascii_of_string.
Qed.

Lemma convertCString_round_trip_witness :
  convertCString (cString "00000000:04:00.0") = "00000000:04:00.0".
Proof.
  apply (convertCString_round_trip "00000000:04:00.0").
  - simpl. lia.
  - reflexivity.
Defined.

(** ** Device enumeration *)

Lemma isSUCCESS_true (r : nvml.Return) :
  nvml.isSUCCESS r = true <-> r = nvml.SUCCESS.
Proof. destruct r; simpl; split; intros H; (reflexivity || discriminate). Qed.

(** The device [describe] builds, and when. *)
Lemma describe_inl (i : nat) (h : Handle) (d : nvidia.GPUDevice) :
  describe i h = inl d <->
  snd (GetName h) = nvml.SUCCESS /\
  snd (GetPciInfo h) = nvml.SUCCESS /\
  snd (nvml.GetMemoryInfo (device h)) = nvml.SUCCESS /\
  snd (GetUUID h) = nvml.SUCCESS /\
  d = {| nvidia.Index := Z.of_nat i;
         nvidia.Handle := device h;
         nvidia.Name := fst (GetName h);
         nvidia.PCIBusID := convertCString (BusId (fst (GetPciInfo h)));
         nvidia.Memory := nvml.Total (fst (nvml.GetMemoryInfo (device h)));
         nvidia.UUID := fst (GetUUID h) |}.
Proof.
  unfold describe.
  destruct (GetName h) as [name r1], (GetPciInfo h) as [pci r2],
    (nvml.GetMemoryInfo (device h)) as [mem r3], (GetUUID h) as [uuid r4].
  cbn [fst snd].
  destruct r1, r2, r3, r4; cbn; split;
    try (intros H; discriminate H);
    try (intros (H1 & H2 & H3 & H4 & _); discriminate).
  - intros H. injection H as <-. now repeat split.
  - intros (_ & _ & _ & _ & ->). reflexivity.
Qed.

Lemma enumerate_inl (lib : Library) (n : nat) :
  forall (i : nat) (ds : list nvidia.GPUDevice),
    enumerate lib i n = inl ds ->
    List.length ds = n /\
    forall j, (j < n)%nat ->
      exists h d,
        DeviceGetHandleByIndex lib (i + j) = (h, nvml.SUCCESS) /\
        describe (i + j) h = inl d /\
        nth_error ds j = Some d.
Proof.
  induction n as [|n IH]; intros i ds H; simpl in H.
  - injection H as <-. split; [reflexivity|]. intros j Hj. lia.
  - destruct (DeviceGetHandleByIndex lib i) as [h ret] eqn:Eh.
    destruct (nvml.isSUCCESS ret) eqn:Er; [|discriminate H].
    apply isSUCCESS_true in Er. subst ret. simpl in H.
    destruct (describe i h) as [d|e] eqn:Ed; [|discriminate H].
    destruct (enumerate lib (S i) n) as [rest|e] eqn:Erest; [|discriminate H].
    injection H as <-. destruct (IH _ _ Erest) as [Hlen Hnth].
    split; [simpl; now rewrite Hlen|].
    intros [|j] Hj.
    + exists h, d. rewrite Nat.add_0_r. now repeat split.
    + destruct (Hnth j ltac:(lia)) as (h' & d' & H1 & H2 & H3).
      exists h', d'. replace (i + S j)%nat with (S i + j)%nat by lia.
      now repeat split.
Qed.

Lemma GetGPUDevices_inl (lib : Library)
  (devices : list nvidia.GPUDevice) :
  GetGPUDevices lib = (devices, None) ->
  snd (DeviceGetCount lib) = nvml.SUCCESS /\
  List.length devices = fst (DeviceGetCount lib) /\
  forall i : nat,
    (i < fst (DeviceGetCount lib))%nat ->
    exists h : Handle,
      DeviceGetHandleByIndex lib i = (h, nvml.SUCCESS) /\
      snd (GetName h) = nvml.SUCCESS /\
      snd (GetPciInfo h) = nvml.SUCCESS /\
      snd (nvml.GetMemoryInfo (device h)) = nvml.SUCCESS /\
      snd (GetUUID h) = nvml.SUCCESS /\
      nth_error devices i
      = Some {| nvidia.Index := Z.of_nat i;
                nvidia.Handle := device h;
                nvidia.Name := fst (GetName h);
                nvidia.PCIBusID :=
                  convertCString (BusId (fst (GetPciInfo h)));
                nvidia.Memory :=
                  nvml.Total (fst (nvml.GetMemoryInfo (device h)));
                nvidia.UUID := fst (GetUUID h) |}.
Proof.
  unfold GetGPUDevices. destruct (DeviceGetCount lib) as [count ret].
  cbn [fst snd]. destruct (nvml.isSUCCESS ret) eqn:Er; [|discriminate].
  apply isSUCCESS_true in Er. simpl.
  destruct (enumerate lib 0 count) as [ds|e] eqn:E; [|discriminate].
  intros H. injection H as <-.
  destruct (enumerate_inl lib count 0 ds E) as [Hlen Hnth].
  repeat split; [exact Er|exact Hlen|].
  intros i Hi. destruct (Hnth i Hi) as (h & d & Hh & Hd & Hi').
  simpl in Hh, Hd. apply describe_inl in Hd as (H1 & H2 & H3 & H4 & ->).
  exists h. now repeat split.
Qed.

(** X5.  When [GetGPUDevices] succeeds, the count query and every query
    of every index below the count have succeeded, and the list holds one
    device per index, in order: the device at position [i] has [Index] [i]
    and the name, bus location (read from the C string), total memory
    and identifier its handle answered. *)
Theorem GetGPUDevices_success (lib : Library)
  (devices : list nvidia.GPUDevice) :
  GetGPUDevices lib = (devices, None) ->
  snd (DeviceGetCount lib) = nvml.SUCCESS /\
  List.length devices = fst (DeviceGetCount lib) /\
  forall i : nat,
    (i < fst (DeviceGetCount lib))%nat ->
    exists h : Handle,
      DeviceGetHandleByIndex lib i = (h, nvml.SUCCESS) /\
      snd (GetName h) = nvml.SUCCESS /\
      snd (GetPciInfo h) = nvml.SUCCESS /\
      snd (nvml.GetMemoryInfo (device h)) = nvml.SUCCESS /\
      snd (GetUUID h) = nvml.SUCCESS /\
      nth_error devices i
      = Some {| nvidia.Index := Z.of_nat i;
                nvidia.Handle := device h;
                nvidia.Name := fst (GetName h);
                nvidia.PCIBusID :=
                  convertCString (BusId (fst (GetPciInfo h)));
                nvidia.Memory :=
                  nvml.Total (fst (nvml.GetMemoryInfo (device h)));
                nvidia.UUID := fst (GetUUID h) |}.
Proof. exact (GetGPUDevices_inl lib devices). Qed.

Lemma GetGPUDevices_success_witness :
  exists d, nth_error (fst (GetGPUDevices oneCardLibrary)) 0 = Some d /\
            nvidia.Index d = 0%Z /\
            nvidia.PCIBusID d = "00000000:04:00.0".
Proof.
  destruct (GetGPUDevices_success oneCardLibrary
              (fst (GetGPUDevices oneCardLibrary)))
    as (_ & _ & Hnth).
  - vm_compute. reflexivity.
  - destruct (Hnth 0%nat) as (h & Hh & _ & _ & _ & _ & Hd);
      [simpl; lia|].
    injection Hh as <-. eexists. split; [exact Hd|]. split; reflexivity.
Defined.

(** X6.  [GetGPUDevices] is all or nothing: when the count query fails,
    or any query of any index below the count fails, it returns an error
    and no device at all, the devices enumerated before the failure
    included. *)
Theorem GetGPUDevices_failure (lib : Library) :
  (snd (DeviceGetCount lib) <> nvml.SUCCESS \/
   exists i : nat,
     (i < fst (DeviceGetCount lib))%nat /\
     let h := fst (DeviceGetHandleByIndex lib i) in
     (snd (DeviceGetHandleByIndex lib i) <> nvml.SUCCESS \/
      snd (GetName h) <> nvml.SUCCESS \/
      snd (GetPciInfo h) <> nvml.SUCCESS \/
      snd (nvml.GetMemoryInfo (device h)) <> nvml.SUCCESS \/
      snd (GetUUID h) <> nvml.SUCCESS)) ->
  exists e : error, GetGPUDevices lib = ([], Some e).
Proof.
  intros Hfail.
  destruct (GetGPUDevices lib) as [devices [e|]] eqn:E.
  - exists e. unfold GetGPUDevices in E.
    destruct (DeviceGetCount lib) as [count ret].
    destruct (negb (nvml.isSUCCESS ret)); [now injection E as <- <-|].
    destruct (enumerate lib 0 count); [discriminate E|].
    now injection E as <- <-.
  - exfalso. apply GetGPUDevices_inl in E as (Hcount & _ & Hall).
    destruct Hfail as [Hc|(i & Hi & Hq)]; [now apply Hc|].
    destruct (Hall i Hi) as (h & Hh & H1 & H2 & H3 & H4 & _).
    rewrite Hh in Hq. cbn [fst snd] in Hq. tauto.
Qed.

Lemma GetGPUDevices_failure_witness :
  exists e : error, GetGPUDevices brokenLibrary = ([], Some e).
Proof.
  apply (GetGPUDevices_failure brokenLibrary).
  right. exists 1%nat. split; [simpl; lia|].
  right. left. simpl. discriminate.
Defined.

(** X7.  [run] goes on past the enumeration only with at least one
    device: a count of 0 is not an error of [GetGPUDevices] but stops
    [run] with "No NVIDIA GPUs found". *)
Theorem startup_needs_a_device (lib : Library) :
  (DeviceGetCount lib = (0%nat, nvml.SUCCESS) ->
   GetGPUDevices lib = ([], None) /\
   startup.devices lib = inr startup.FatalNoGPUs) /\
  (forall gpus, startup.devices lib = inl gpus ->
     gpus <> [] /\ GetGPUDevices lib = (gpus, None) /\
     (0 < fst (DeviceGetCount lib))%nat).
Proof.
  split.
  - intros H. unfold startup.devices, GetGPUDevices. rewrite H. now simpl.
  - intros gpus H. unfold startup.devices in H.
    destruct (GetGPUDevices lib) as [ds [e|]] eqn:E; [discriminate H|].
    destruct (List.length ds =? 0)%nat eqn:El; [discriminate H|].
    injection H as <-. apply Nat.eqb_neq in El.
    apply GetGPUDevices_inl in E as (_ & Hlen & _).
    repeat split; [now destruct ds| lia].
Qed.

Lemma startup_needs_a_device_witness :
  startup.devices oneCardLibrary
  = inl (fst (GetGPUDevices oneCardLibrary)) /\
  fst (GetGPUDevices oneCardLibrary) <> [].
Proof.
  split; [vm_compute; reflexivity|].
  destruct (startup_needs_a_device oneCardLibrary) as [_ H].
  destruct (H (fst (GetGPUDevices oneCardLibrary))) as (Hne & _).
  - vm_compute. reflexivity.
  - exact Hne.
Defined.

(** ** The display name *)

(** X8.  For a device whose name is "NVIDIA " followed by an ASCII model
    name, the display name is hostname, normalised bus location, the
    vendor once, the model without the prefix, and the capacity. *)
Theorem display_name_strips_exact_prefix (U : Unicode)
  (d : nvidia.GPUDevice) (model hostname : string) :
  isASCII model = true ->
  nvidia.Name d = "NVIDIA " ++ model ->
  nvidia.GetDeviceDisplayName d hostname
  = hostname ++ " " ++ nvidia.GetShortPCIBusID (nvidia.PCIBusID d)
      ++ " - NVIDIA " ++ model ++ " "
      ++ fmt.f0 (float64 (nvidia.Memory d) / 1073741824) ++ "GB".
Proof. exact (GetDeviceDisplayName_trimmed U d model hostname). Qed.

Lemma display_name_strips_exact_prefix_witness :
  @nvidia.GetDeviceDisplayName noTables sampleDevice "SERVER1"
  = "SERVER1 " ++ nvidia.GetShortPCIBusID "00000000:04:00.0"
      ++ " - NVIDIA " ++ "GeForce RTX 3080" ++ " "
      ++ fmt.f0 (float64 10737418240 / 1073741824) ++ "GB".
Proof.
  apply (display_name_strips_exact_prefix noTables sampleDevice
           "GeForce RTX 3080" "SERVER1"); reflexivity.
Defined.

(** ** What a cycle publishes *)

Section Cycle.

Context {U : Unicode}.
Variable cfg : config.Config.

Lemma monitorGPU_appends (rt : main.Runtime) (c : mqtt.Client)
  (acks : list mqtt.Message -> mqtt.Message -> bool)
  (gpu : nvidia.GPUDevice) :
  mqtt.sent (main.monitorGPU rt cfg c gpu)
  = (mqtt.sent c
       ++ mqtt.sent
            (main.monitorGPU rt cfg
               {| mqtt.acks := acks; mqtt.sent := [] |} gpu))%list.
Proof.
  unfold main.monitorGPU.
  destruct (nvidia.GetGPUMetrics (main.inTime rt gpu) gpu) as [m [e|]].
  - simpl. now rewrite app_nil_r.
  - unfold main.publishMetrics. now rewrite !publish_fold_exact.
Qed.

Lemma publishSensor_acks (id : string) (c : mqtt.Client)
  (e : string * json.interface) :
  mqtt.acks (main.publishSensor cfg id c e) = mqtt.acks c.
Proof.
  destruct e as [k v]. unfold main.publishSensor.
  now destruct (json.Marshal v).
Qed.

Lemma publish_fold_acks (id : string) (es : list (string * json.interface))
  (c : mqtt.Client) :
  mqtt.acks (fold_left (main.publishSensor cfg id) es c) = mqtt.acks c.
Proof.
  revert c. induction es as [|e es IH]; intros c; simpl; [reflexivity|].
  now rewrite IH, publishSensor_acks.
Qed.

(** Interleavings: a list that is empty takes no turn, and one
    interleaving reads the lists one after the other. *)
Lemma Interleaving_insert_nil {A : Type} (ls : list (list A))
  (news : list A) :
  Interleaving ls news ->
  forall a b, ls = (a ++ b)%list -> Interleaving (a ++ [] :: b)%list news.
Proof.
  induction 1 as [ls Hls|before x l after news _ IH]; intros a b E.
  - apply Interleaving_done. subst ls.
    rewrite concat_app in Hls |- *. exact Hls.
  - apply app_eq_app in E as (mid & [[-> ->]|[-> E]]).
    + change (a ++ [] :: mid ++ (x :: l) :: after)%list
        with (a ++ ([] :: mid) ++ (x :: l) :: after)%list.
      rewrite app_assoc. apply Interleaving_next.
      rewrite <- app_assoc. cbn [app]. apply IH. now rewrite <- app_assoc.
    + destruct mid as [|y mid].
      * cbn [app] in E. subst b. rewrite app_nil_r.
        change (before ++ [] :: (x :: l) :: after)%list
          with (before ++ [[]] ++ (x :: l) :: after)%list.
        rewrite app_assoc. apply Interleaving_next.
        rewrite <- app_assoc. apply (IH before (l :: after)). reflexivity.
      * cbn [app] in E. injection E as <- ->.
        rewrite <- app_assoc. cbn [app]. apply Interleaving_next.
        change (before ++ l :: mid ++ [] :: b)%list
          with (before ++ (l :: mid) ++ [] :: b)%list.
        rewrite app_assoc. apply IH. now rewrite <- app_assoc.
Qed.

Lemma Interleaving_concat {A : Type} (ls : list (list A)) :
  Interleaving ls (List.concat ls).
Proof.
  induction ls as [|l ls IH]; [now apply Interleaving_done|].
  cbn [List.concat]. induction l as [|x l IHl].
  - apply (Interleaving_insert_nil ls _ IH [] ls). reflexivity.
  - apply (Interleaving_next [] x l ls). exact IHl.
Qed.

Lemma goroutine_sent (g : main.goroutine) (c : mqtt.Client) :
  mqtt.sent
    (fold_left (main.publishSensor cfg (main.deviceID g)) (main.pending g) c)
  = (mqtt.sent c ++ messagesOf cfg g)%list.
Proof. exact (publish_fold_exact cfg (main.deviceID g) (main.pending g) c). Qed.

Lemma finish_spec (gs : list main.goroutine) :
  forall c : mqtt.Client,
    mqtt.sent (main.finish cfg gs c)
    = (mqtt.sent c ++ List.concat (map (messagesOf cfg) gs))%list /\
    mqtt.acks (main.finish cfg gs c) = mqtt.acks c.
Proof.
  unfold main.finish. induction gs as [|g gs IH]; intros c; cbn [fold_left].
  - split; [now rewrite app_nil_r|reflexivity].
  - destruct (IH (fold_left (main.publishSensor cfg (main.deviceID g))
                    (main.pending g) c)) as [Hs Ha].
    rewrite Hs, Ha, goroutine_sent, publish_fold_acks, <- app_assoc.
    split; reflexivity.
Qed.

(** A turn changes nothing, or lets one goroutine publish its next
    entry. *)
Lemma turn_spec (gs : list main.goroutine) :
  forall (i : nat) (c : mqtt.Client),
    main.turn cfg i gs c = (gs, c) \/
    exists before g e es after,
      gs = (before ++ g :: after)%list /\
      main.pending g = e :: es /\
      main.turn cfg i gs c
      = ((before
            ++ {| main.deviceID := main.deviceID g; main.pending := es |}
            :: after)%list,
         main.publishSensor cfg (main.deviceID g) c e).
Proof.
  induction gs as [|g gs IH]; intros i c; [now left|].
  destruct i as [|i]; cbn [main.turn].
  - destruct (main.pending g) as [|e es] eqn:E; [now left|].
    right. exists [], g, e, es, gs. now repeat split.
  - destruct (IH i c) as [->|(before & g' & e & es & after & -> & Hp & ->)].
    + now left.
    + right. exists (g :: before), g', e, es, after. now repeat split.
Qed.

(** Whatever the schedule, the goroutines add to the record an
    interleaving of their messages. *)
Lemma interleave_spec (steps : list nat) :
  forall (gs : list main.goroutine) (c : mqtt.Client),
  exists news : list mqtt.Message,
    mqtt.sent (main.interleave cfg steps gs c)
    = (mqtt.sent c ++ news)%list /\
    mqtt.acks (main.interleave cfg steps gs c) = mqtt.acks c /\
    Interleaving (map (messagesOf cfg) gs) news.
Proof.
  induction steps as [|i steps IH]; intros gs c; cbn [main.interleave].
  - destruct (finish_spec gs c) as [Hs Ha].
    eexists. split; [exact Hs|]. split; [exact Ha|].
    apply Interleaving_concat.
  - destruct (turn_spec gs i c)
      as [->|(before & g & e & es & after & -> & Hp & ->)]; [apply IH|].
    destruct (IH (before
                    ++ {| main.deviceID := main.deviceID g;
                          main.pending := es |} :: after)%list
                (main.publishSensor cfg (main.deviceID g) c e))
      as (news & Hs & Ha & Hi).
    rewrite publishSensor_sent in Hs. rewrite publishSensor_acks in Ha.
    exists (stateMessages cfg (main.deviceID g) e ++ news)%list.
    split; [rewrite Hs, <- app_assoc; reflexivity|]. split; [exact Ha|].
    rewrite map_app in Hi |- *. cbn [map] in Hi |- *.
    unfold messagesOf at 2. rewrite Hp. cbn [flat_map].
    unfold messagesOf at 2 in Hi. cbn [main.deviceID main.pending] in Hi.
    destruct (stateMessages cfg (main.deviceID g) e) as [|x [|y l]] eqn:Hm.
    + exact Hi.
    + cbn [app]. apply Interleaving_next. exact Hi.
    + unfold stateMessages in Hm.
      destruct (json.Marshal (snd e)); discriminate Hm.
Qed.

(** The goroutine of a device has to publish what the device's task
    publishes when it runs alone. *)
Lemma spawn_alone (rt : main.Runtime)
  (acks : list mqtt.Message -> mqtt.Message -> bool)
  (gpu : nvidia.GPUDevice) :
  let alone :=
    mqtt.sent
      (main.monitorGPU rt cfg {| mqtt.acks := acks; mqtt.sent := [] |} gpu) in
  (main.spawn rt gpu = [] /\ alone = []) \/
  (exists g, main.spawn rt gpu = [g] /\ alone = messagesOf cfg g).
Proof.
  unfold main.spawn, main.monitorGPU.
  destruct (nvidia.GetGPUMetrics (main.inTime rt gpu) gpu) as [m [e|]].
  - left. now split.
  - right. eexists. split; [reflexivity|].
    unfold main.publishMetrics. now rewrite publish_fold_exact.
Qed.

Lemma Interleaving_devices (rt : main.Runtime)
  (acks : list mqtt.Message -> mqtt.Message -> bool)
  (news : list mqtt.Message) (gpus : list nvidia.GPUDevice) :
  forall pre : list (list mqtt.Message),
    Interleaving
      (pre ++ map (messagesOf cfg) (flat_map (main.spawn rt) gpus))%list
      news ->
    Interleaving
      (pre
         ++ map (fun gpu =>
                   mqtt.sent
                     (main.monitorGPU rt cfg
                        {| mqtt.acks := acks; mqtt.sent := [] |} gpu))
              gpus)%list
      news.
Proof.
  induction gpus as [|gpu gpus IH]; intros pre H; [exact H|].
  cbn [flat_map map] in H |- *.
  destruct (spawn_alone rt acks gpu) as [[Hs ->]|(g & Hs & ->)];
    rewrite Hs in H; cbn [app map] in H.
  - change (pre ++ [] :: ?l)%list with (pre ++ [[]] ++ l)%list.
    rewrite app_assoc. apply IH. rewrite <- app_assoc. cbn [app].
    now apply (Interleaving_insert_nil _ _ H pre).
  - change (pre ++ messagesOf cfg g :: ?l)%list
      with (pre ++ [messagesOf cfg g] ++ l)%list.
    rewrite app_assoc. apply IH. now rewrite <- app_assoc.
Qed.

Lemma sequential_cycle (rt : main.Runtime)
  (acks : list mqtt.Message -> mqtt.Message -> bool)
  (gpus : list nvidia.GPUDevice) :
  List.concat (map (messagesOf cfg) (flat_map (main.spawn rt) gpus))
  = flat_map
      (fun gpu =>
         mqtt.sent
           (main.monitorGPU rt cfg
              {| mqtt.acks := acks; mqtt.sent := [] |} gpu))
      gpus.
Proof.
  induction gpus as [|gpu gpus IH]; [reflexivity|].
  cbn [flat_map]. rewrite map_app, concat_app, IH. f_equal.
  destruct (spawn_alone rt acks gpu) as [[Hs ->]|(g & Hs & ->)];
    rewrite Hs; cbn [map List.concat]; [reflexivity|apply app_nil_r].
Qed.

(** What a cycle adds to the record of the client. *)
Lemma cycle_spec (rt : main.Runtime)
  (acks : list mqtt.Message -> mqtt.Message -> bool)
  (gpus : list nvidia.GPUDevice) (c : mqtt.Client) :
  let after :=
    main.interleave cfg (main.schedule rt) (flat_map (main.spawn rt) gpus)
      c in
  let alone gpu :=
    mqtt.sent
      (main.monitorGPU rt cfg {| mqtt.acks := acks; mqtt.sent := [] |} gpu) in
  exists news : list mqtt.Message,
    mqtt.sent after = (mqtt.sent c ++ news)%list /\
    mqtt.acks after = mqtt.acks c /\
    Interleaving (map alone gpus) news /\
    (main.schedule rt = [] -> news = flat_map alone gpus).
Proof.
  intros after alone. subst after.
  destruct (main.schedule rt) as [|i steps] eqn:Hsched.
  - cbn [main.interleave].
    destruct (finish_spec (flat_map (main.spawn rt) gpus) c) as [Hs Ha].
    exists (flat_map alone gpus).
    split; [now rewrite Hs, (sequential_cycle rt acks)|].
    split; [exact Ha|]. split; [|reflexivity].
    apply (Interleaving_devices rt acks _ gpus []). cbn [app].
    rewrite <- (sequential_cycle rt acks). apply Interleaving_concat.
  - destruct (interleave_spec (i :: steps) (flat_map (main.spawn rt) gpus) c)
      as (news & Hs & Ha & Hi).
    exists news. split; [exact Hs|]. split; [exact Ha|].
    split; [|discriminate].
    exact (Interleaving_devices rt acks news gpus [] Hi).
Qed.

End Cycle.

(** X9.  What a cycle publishes is an interleaving of what the task of
    each device publishes when it runs alone: the messages of one device
    come in the order of its task, those of different devices in the
    order the scheduler lets the goroutines run, device after device
    when it runs them one after the other.  A cycle leaves the bus as it
    was, and what it publishes depends neither on what the client has
    published before nor on which publishes the bus acknowledges.  A
    call that starts no cycle publishes nothing. *)
Theorem cycle_is_per_device (U : Unicode) (rt : main.Runtime)
  (cfg : config.Config) (st : main.Monitor) (client : mqtt.Client)
  (acks : list mqtt.Message -> mqtt.Message -> bool)
  (gpus : list nvidia.GPUDevice) (now done : main.Time) :
  let after := snd (main.monitorGPUs rt cfg st client gpus now done) in
  let alone gpu :=
    mqtt.sent
      (main.monitorGPU rt cfg {| mqtt.acks := acks; mqtt.sent := [] |} gpu) in
  exists news : list mqtt.Message,
    mqtt.sent after = (mqtt.sent client ++ news)%list /\
    mqtt.acks after = mqtt.acks client /\
    match snd (main.enter cfg st now) with
    | main.Start =>
        Interleaving (map alone gpus) news /\
        (main.schedule rt = [] -> news = flat_map alone gpus)
    | _ => news = []
    end.
Proof.
  intros after alone. subst after. unfold main.monitorGPUs.
  destruct (main.enter cfg st now) as [st' []]; cbn [fst snd];
    try (exists []; now rewrite app_nil_r).
  exact (cycle_spec cfg rt acks gpus client).
Qed.

Lemma cycle_is_per_device_witness :
  mqtt.sent
    (snd (@main.monitorGPUs noTables promptRuntime config.DefaultConfig
            main.initial freshClient [sampleDevice; noMemoryDevice]
            63900000030000000000%Z 63900000032000000000%Z))
  = mqtt.sent
      (@main.monitorGPU noTables promptRuntime config.DefaultConfig
         freshClient sampleDevice).
Proof.
  destruct (cycle_is_per_device noTables promptRuntime config.DefaultConfig
              main.initial freshClient (fun _ _ => true)
              [sampleDevice; noMemoryDevice]
              63900000030000000000%Z 63900000032000000000%Z)
    as (news & Hs & _ & Hcycle).
  assert (E : snd (main.enter config.DefaultConfig main.initial
                     63900000030000000000%Z) = main.Start)
    by (vm_compute; reflexivity).
  rewrite E in Hcycle. destruct Hcycle as [_ Hseq].
  rewrite Hs, (Hseq eq_refl). vm_compute. reflexivity.
Defined.

(** Two devices whose goroutines take turns: the record of the cycle
    alternates between their state topics. *)
Lemma cycle_interleaved_example :
  let rt := {| main.inTime := fun _ => true; main.rangeOrder := fun l => l;
               main.schedule := [1; 0; 1; 0]%nat |} in
  map mqtt.topic
    (firstn 4
       (mqtt.sent
          (snd (@main.monitorGPUs noTables rt config.DefaultConfig
                  main.initial freshClient [sampleDevice; sampleDevice']
                  63900000030000000000%Z 63900000032000000000%Z))))
  = ["homeassistant/sensor/nvml-gpu/00_04_00_0_gpu9f8e7_power_draw/state";
     "homeassistant/sensor/nvml-gpu/00_04_00_0_gpu1a2b3_power_draw/state";
     "homeassistant/sensor/nvml-gpu/00_04_00_0_gpu9f8e7"
       ++ "_performance_level/state";
     "homeassistant/sensor/nvml-gpu/00_04_00_0_gpu1a2b3"
       ++ "_performance_level/state"].
Proof. vm_compute. reflexivity. Qed.

(** The topics of two metric keys of the fixed set, for two device ids,
    are equal only if the ids and the keys are. *)
Lemma list_ascii_app (a b : string) :
  list_ascii_of_string (a ++ b)
  = (list_ascii_of_string a ++ list_ascii_of_string b)%list.
Proof. induction a as [|c a IH]; simpl; [reflexivity|]. now rewrite IH. Qed.

Lemma list_ascii_inj (a b : string) :
  list_ascii_of_string a = list_ascii_of_string b -> a = b.
Proof.
  intros H. rewrite <- (string_of_list_ascii_of_string a),
    <- (string_of_list_ascii_of_string b). now rewrite H.
Qed.

Lemma append_inv_tail (a b s : string) : a ++ s = b ++ s -> a = b.
Proof.
  intros H. apply (f_equal list_ascii_of_string) in H.
  rewrite !list_ascii_app in H. apply app_inv_tail in H.
  now apply list_ascii_inj.
Qed.

Lemma keyed_suffix_inj (id1 id2 k1 k2 tail : string) :
  In k1 availability.sensors -> In k2 availability.sensors ->
  In tail ["/state"; "/config"; ""] ->
  id1 ++ "_" ++ k1 ++ tail = id2 ++ "_" ++ k2 ++ tail ->
  id1 = id2 /\ k1 = k2.
Proof.
  intros H1 H2 Ht E.
  assert (Hk : k1 = k2).
  { apply (f_equal list_ascii_of_string) in E.
    rewrite !list_ascii_app in E.
    apply (f_equal (@rev ascii)) in E. rewrite !rev_app_distr in E.
    simpl in H1, H2, Ht.
    repeat (destruct H1 as [<-|H1]; [|]); try contradiction;
      repeat (destruct H2 as [<-|H2]; [|]); try contradiction;
      try reflexivity;
      repeat (destruct Ht as [<-|Ht]; [|]); try contradiction;
      simpl in E; discriminate E. }
  subst k2. split; [|reflexivity]. now apply append_inv_tail in E.
Qed.

Lemma NoDup_map_filter {A B : Type} (g : A -> B) (p : A -> bool)
  (l : list A) :
  NoDup (map g l) -> NoDup (map g (filter p l)).
Proof.
  induction l as [|a l IH]; simpl; intros H; [constructor|].
  inversion H as [|? ? Hnotin Hnodup]; subst.
  destruct (p a); [|now apply IH].
  simpl. constructor; [|now apply IH].
  intros Hin. apply Hnotin. apply in_map_iff in Hin as (x & <- & Hx).
  apply in_map. now apply filter_In in Hx as [Hx _].
Qed.

(** X10.  In one cycle the task of a device publishes at most five
    messages, each to the state topic of a different metric key of the
    fixed set for that device's short-id, each with QoS 1 and the
    configured retain flag; it publishes to no other topic. *)
Theorem device_messages_shape (U : Unicode) (rt : main.Runtime)
  (cfg : config.Config) (client : mqtt.Client) (gpu : nvidia.GPUDevice) :
  (forall l, Permutation (main.rangeOrder rt l) l) ->
  exists (news : list mqtt.Message) (keys : list string),
    mqtt.sent (main.monitorGPU rt cfg client gpu)
    = (mqtt.sent client ++ news)%list /\
    NoDup keys /\
    incl keys ["power_draw"; "performance_level"; "memory_usage";
               "gpu_utilization"; "temperature"] /\
    (List.length news <= 5)%nat /\
    map mqtt.topic news
    = map (fun k => "homeassistant/sensor/nvml-gpu/"
                      ++ nvidia.GetDeviceID gpu ++ "_" ++ k ++ "/state")
        keys /\
    Forall (fun m => mqtt.qos m = 1%Z /\
                     mqtt.retained m = config.MQTTRetain cfg) news.
Proof.
  intros Hperm. unfold main.monitorGPU.
  destruct (nvidia.GetGPUMetrics (main.inTime rt gpu) gpu) as [m [e|]].
  - exists [], []. split; [now rewrite app_nil_r|].
    split; [constructor|]. split; [intros k []|].
    split; [simpl; lia|]. split; [reflexivity|constructor].
  - unfold main.publishMetrics. rewrite publish_fold_exact.
    set (es := main.rangeOrder rt (main.sensors m)).
    set (ok := fun e : string * json.interface =>
                 match json.Marshal (snd e) with
                 | Some _ => true
                 | None => false
                 end).
    assert (Hkeys : Permutation (map fst es)
                      ["power_draw"; "performance_level"; "memory_usage";
                       "gpu_utilization"; "temperature"]).
    { change ["power_draw"; "performance_level"; "memory_usage";
              "gpu_utilization"; "temperature"]
        with (map fst (main.sensors m)).
      apply Permutation_map. apply Hperm. }
    assert (Hnodup : NoDup (map fst es)).
    { apply (Permutation_NoDup (Permutation_sym Hkeys)).
      repeat constructor; simpl; intros H;
        repeat (destruct H as [H|H]; [discriminate H|]); exact H. }
    eexists _, (map fst (filter ok es)).
    split; [reflexivity|]. split; [now apply NoDup_map_filter|].
    assert (Hincl : incl (map fst (filter ok es))
                      ["power_draw"; "performance_level"; "memory_usage";
                       "gpu_utilization"; "temperature"]).
    { intros k Hk. apply (Permutation_in k Hkeys).
      apply in_map_iff in Hk as (x & <- & Hx). apply in_map.
      now apply filter_In in Hx as [Hx _]. }
    split; [exact Hincl|].
    assert (Hshape :
              forall l : list (string * json.interface),
                let news :=
                  flat_map
                    (fun e =>
                       match json.Marshal (snd e) with
                       | None => []
                       | Some payload =>
                           [{| mqtt.topic :=
                                 "homeassistant/sensor/nvml-gpu/"
                                   ++ nvidia.GetDeviceID gpu ++ "_" ++ fst e
                                   ++ "/state";
                               mqtt.qos := 1;
                               mqtt.retained := config.MQTTRetain cfg;
                               mqtt.payload := payload |}]
                       end) l in
                map mqtt.topic news
                = map (fun k => "homeassistant/sensor/nvml-gpu/"
                                  ++ nvidia.GetDeviceID gpu ++ "_" ++ k
                                  ++ "/state")
                    (map fst (filter ok l)) /\
                Forall (fun m => mqtt.qos m = 1%Z /\
                                 mqtt.retained m = config.MQTTRetain cfg)
                  news).
    { induction l as [|x l [IH1 IH2]]; [now split|].
      cbn [flat_map filter]. unfold ok at 1.
      destruct (json.Marshal (snd x)); cbn [app map mqtt.topic].
      - split; [now rewrite IH1|]. constructor; [now split|exact IH2].
      - now split. }
    destruct (Hshape es) as [Htopics Hall].
    split; [|split; assumption].
    rewrite <- (length_map mqtt.topic), Htopics, length_map.
    change 5%nat with (List.length ["power_draw"; "performance_level";
                                    "memory_usage"; "gpu_utilization";
                                    "temperature"]).
    apply NoDup_incl_length; [now apply NoDup_map_filter|exact Hincl].
Qed.

Lemma device_messages_shape_witness :
  exists (news : list mqtt.Message) (keys : list string),
    mqtt.sent
      (@main.monitorGPU noTables promptRuntime config.DefaultConfig
         freshClient sampleDevice)
    = (mqtt.sent freshClient ++ news)%list /\
    (List.length news <= 5)%nat /\
    NoDup keys.
Proof.
  destruct (device_messages_shape noTables promptRuntime
              config.DefaultConfig freshClient sampleDevice)
    as (news & keys & E & Hnodup & _ & Hlen & _).
  - intros l. apply Permutation_refl.
  - exists news, keys. now repeat split.
Defined.

(** X11.  Two state messages, or two discovery messages, go to the same
    topic only if they are for the same device short-id and the same
    metric key of the fixed set: one metric never overwrites another,
    one short-id never another. *)
Theorem topics_do_not_collide (cfg : config.Config)
  (id1 id2 k1 k2 : string) :
  In k1 ["power_draw"; "performance_level"; "memory_usage";
         "gpu_utilization"; "temperature"] ->
  In k2 ["power_draw"; "performance_level"; "memory_usage";
         "gpu_utilization"; "temperature"] ->
  (forall c1 c2 v1 v2 m1 m2,
     mqtt.sent (main.publishSensor cfg id1 c1 (k1, v1))
     = (mqtt.sent c1 ++ [m1])%list ->
     mqtt.sent (main.publishSensor cfg id2 c2 (k2, v2))
     = (mqtt.sent c2 ++ [m2])%list ->
     mqtt.topic m1 = mqtt.topic m2 -> id1 = id2 /\ k1 = k2) /\
  (forall mgr1 mgr2 dn1 dn2 n1 n2 dc1 dc2 u1 u2 i1 i2 sc1 sc2 t1 t2
          info1 info2 m1 m2,
     mqtt.sent
       (homeassistant.client
          (fst (homeassistant.registerSensor mgr1 id1 dn1 k1 n1 dc1 u1 i1
                  sc1 t1 info1)))
     = (mqtt.sent (homeassistant.client mgr1) ++ [m1])%list ->
     mqtt.sent
       (homeassistant.client
          (fst (homeassistant.registerSensor mgr2 id2 dn2 k2 n2 dc2 u2 i2
                  sc2 t2 info2)))
     = (mqtt.sent (homeassistant.client mgr2) ++ [m2])%list ->
     mqtt.topic m1 = mqtt.topic m2 -> id1 = id2 /\ k1 = k2).
Proof.
  intros H1 H2. split.
  - intros c1 c2 v1 v2 m1 m2 E1 E2 Et.
    rewrite publishSensor_sent in E1, E2. cbn [fst snd] in E1, E2.
    apply app_inv_head in E1, E2.
    destruct (json.Marshal v1); [|discriminate E1].
    destruct (json.Marshal v2); [|discriminate E2].
    injection E1 as <-. injection E2 as <-. cbn [mqtt.topic] in Et.
    apply (append_inv_head "homeassistant/sensor/nvml-gpu/") in Et.
    apply (keyed_suffix_inj id1 id2 k1 k2 "/state"); simpl; tauto.
  - intros mgr1 mgr2 dn1 dn2 n1 n2 dc1 dc2 u1 u2 i1 i2 sc1 sc2 t1 t2
      info1 info2 m1 m2 E1 E2 Et.
    destruct (registerSensor_spec mgr1 id1 dn1 k1 n1 dc1 u1 i1 sc1 t1 info1)
      as (x1 & Hx1 & R1).
    destruct (registerSensor_spec mgr2 id2 dn2 k2 n2 dc2 u2 i2 sc2 t2 info2)
      as (x2 & Hx2 & R2).
    rewrite R1 in E1. rewrite R2 in E2.
    cbn [fst homeassistant.client mqtt.sent] in E1, E2.
    apply app_inv_head in E1, E2. injection E1 as <-. injection E2 as <-.
    rewrite Hx1, Hx2 in Et.
    apply (append_inv_head "homeassistant/sensor/nvml-gpu/") in Et.
    apply (keyed_suffix_inj id1 id2 k1 k2 "/config"); simpl; tauto.
Qed.

Lemma topics_do_not_collide_witness :
  mqtt.topic
    (last
       (mqtt.sent
          (main.publishSensor config.DefaultConfig "00_04_00_0_gpu1a2b3"
             freshClient ("temperature", json.GoInt 55)))
       {| mqtt.topic := ""; mqtt.qos := 0; mqtt.retained := false;
          mqtt.payload := json.Str "" |})
  <> mqtt.topic
       (last
          (mqtt.sent
             (main.publishSensor config.DefaultConfig "00_05_00_0_gpu9f8e7"
                freshClient ("temperature", json.GoInt 55)))
          {| mqtt.topic := ""; mqtt.qos := 0; mqtt.retained := false;
             mqtt.payload := json.Str "" |}).
Proof.
  intros Et.
  destruct (topics_do_not_collide config.DefaultConfig
              "00_04_00_0_gpu1a2b3" "00_05_00_0_gpu9f8e7"
              "temperature" "temperature") as [Hstate _].
  - simpl. tauto.
  - simpl. tauto.
  - destruct (Hstate freshClient freshClient (json.GoInt 55) (json.GoInt 55)
                _ _ eq_refl eq_refl Et) as [H _].
    discriminate H.
Defined.

(** ** The scheduler, continued *)

(** X12.  The first tick after program start always starts a cycle: the
    completion timestamp is still the zero time, the time elapsed since
    then saturates at the largest duration, and no valid polling period
    asks for more. *)
Theorem first_tick_starts (cfg : config.Config) (now : main.Time) :
  (0 < config.PollingPeriod cfg <= 9223372036)%Z ->
  (2 ^ 63 <= now)%Z ->
  main.Since now (main.lastMonitorTime main.initial) = main.maxDuration /\
  main.enter cfg main.initial now
  = ({| main.isMonitoring := true; main.lastMonitorTime := 0%Z |},
     main.Start).
Proof.
  intros HP Hnow.
  assert (HS : main.Since now (main.lastMonitorTime main.initial)
               = main.maxDuration).
  { unfold main.Since, main.Sub, main.maxDuration, main.minDuration.
    simpl main.lastMonitorTime. lia. }
  split; [exact HS|].
  unfold main.enter. cbn [main.isMonitoring main.initial] in *.
  rewrite HS, (minInterval_floor cfg HP).
  assert (0 <= config.PollingPeriod cfg / 2 <= 4611686018)%Z.
  { split; [apply Z.div_pos; lia|]. apply Z.div_le_upper_bound; lia. }
  replace (main.maxDuration <? config.PollingPeriod cfg / 2 * main.Second)%Z
    with false; [reflexivity|].
  symmetry. apply Z.ltb_ge. unfold main.maxDuration, main.Second. lia.
Qed.

Lemma first_tick_starts_witness :
  main.enter config.DefaultConfig main.initial 63900000000000000000%Z
  = ({| main.isMonitoring := true; main.lastMonitorTime := 0%Z |},
     main.Start).
Proof.
  apply (first_tick_starts config.DefaultConfig 63900000000000000000%Z).
  - simpl. lia.
  - lia.
Defined.

Section Loop.

Context {U : Unicode}.
Variable cfg : config.Config.

Lemma monitorGPUs_flag (rt : main.Runtime) (st : main.Monitor)
  (c : mqtt.Client) (gpus : list nvidia.GPUDevice) (now done : main.Time) :
  main.isMonitoring st = false ->
  let st' := fst (main.monitorGPUs rt cfg st c gpus now done) in
  main.isMonitoring st' = false /\
  (main.lastMonitorTime st' = main.lastMonitorTime st \/
   main.lastMonitorTime st' = done).
Proof.
  intros H. unfold main.monitorGPUs, main.enter. rewrite H.
  destruct (_ <? _)%Z; simpl; auto.
Qed.

Lemma loop_flag (ticks : list startup.tick) :
  forall (st : main.Monitor) (c : mqtt.Client),
    main.isMonitoring st = false ->
    let st' := fst (startup.loop cfg ticks st c) in
    main.isMonitoring st' = false /\
    (main.lastMonitorTime st' = main.lastMonitorTime st \/
     exists t, In t ticks /\ main.lastMonitorTime st' = startup.done t).
Proof.
  unfold startup.loop.
  induction ticks as [|t ticks IH]; intros st c H; simpl.
  - split; [exact H|now left].
  - destruct (monitorGPUs_flag (startup.rt t) st c (startup.gpus t)
                (startup.now t) (startup.done t) H) as [Hflag Hlast].
    destruct (main.monitorGPUs (startup.rt t) cfg st c (startup.gpus t)
                (startup.now t) (startup.done t)) as [st1 c1].
    cbn [fst snd] in *.
    destruct (IH st1 c1 Hflag) as [Hf Hl]. split; [exact Hf|].
    destruct Hl as [Hl|(t' & Hin & Hl)].
    + rewrite Hl. destruct Hlast as [Hlast|Hlast]; [now left|].
      right. exists t. split; [now left|exact Hlast].
    + right. exists t'. split; [now right|exact Hl].
Qed.

End Loop.

(** X13.  In the main loop [monitorGPUs] returns before the next tick is
    taken, so every tick finds the flag [isMonitoring] clear: no tick of
    the loop is ever skipped as "still in progress", only as "too soon".
    The completion timestamp is the zero time or the return time of an
    earlier turn. *)
Theorem loop_never_overlaps (U : Unicode) (cfg : config.Config)
  (ticks : list startup.tick) (client : mqtt.Client) (now : main.Time) :
  let st := fst (startup.loop cfg ticks main.initial client) in
  main.isMonitoring st = false /\
  snd (main.enter cfg st now) <> main.SkipInProgress /\
  (main.lastMonitorTime st = 0%Z \/
   exists t, In t ticks /\ main.lastMonitorTime st = startup.done t).
Proof.
  destruct (loop_flag cfg ticks main.initial client eq_refl) as [Hflag Hl].
  split; [exact Hflag|]. split; [|exact Hl].
  unfold main.enter. rewrite Hflag. now destruct (_ <? _)%Z.
Qed.

(** X14.  With a polling period of 1 second the minimum interval is 0:
    a tick that finds no cycle in progress starts one however soon after
    the last completion it fires. *)
Theorem period_one_never_too_soon (cfg : config.Config) (st : main.Monitor)
  (now : main.Time) :
  config.PollingPeriod cfg = 1%Z ->
  main.isMonitoring st = false ->
  (main.lastMonitorTime st <= now)%Z ->
  main.minInterval cfg = 0%Z /\
  snd (main.enter cfg st now) = main.Start.
Proof.
  intros HP Hflag Hclock.
  assert (Hmin : main.minInterval cfg = 0%Z).
  { unfold main.minInterval. rewrite HP. reflexivity. }
  split; [exact Hmin|].
  unfold main.enter. rewrite Hflag, Hmin.
  replace (main.Since now (main.lastMonitorTime st) <? 0)%Z with false;
    [reflexivity|].
  symmetry. apply Z.ltb_ge.
  unfold main.Since, main.Sub, main.minDuration, main.maxDuration. lia.
Qed.

Lemma period_one_never_too_soon_witness :
  snd (main.enter
         {| config.Hostname := ""; config.MQTTHost := "localhost";
            config.MQTTPort := 1883; config.MQTTUsername := "";
            config.MQTTPassword := ""; config.MQTTLWTEnable := true;
            config.MQTTRetain := true; config.PollingPeriod := 1 |}
         {| main.isMonitoring := false;
            main.lastMonitorTime := 63900000004999999999%Z |}
         63900000005000000000%Z)
  = main.Start.
Proof.
  apply period_one_never_too_soon; [reflexivity|reflexivity|simpl; lia].
Defined.

(** ** Discovery documents *)

(** The message [registerSensor] publishes and the fields of its
    document that do not depend on the sensor. *)
Lemma registerSensor_fields (m : Manager)
  (id dn k n dc u i sc t : string) (info : DeviceInfo) :
  exists msg : mqtt.Message,
    registerSensor m id dn k n dc u i sc t info
    = ({| client :=
            {| mqtt.acks := mqtt.acks (client m);
               mqtt.sent := (mqtt.sent (client m) ++ [msg])%list |};
          config := config m |},
       if mqtt.acks (client m) (mqtt.sent (client m)) msg
       then None else Some ErrPublishConfig) /\
    mqtt.qos msg = 1%Z /\
    mqtt.retained msg = config.MQTTRetain (config m) /\
    json.field "unique_id" (mqtt.payload msg)
    = Some (json.Str ("nvml_gpu_" ++ id ++ "_" ++ k)) /\
    json.field "device" (mqtt.payload msg) = Some (MarshalDeviceInfo info) /\
    json.field "force_update" (mqtt.payload msg) = Some (json.Bool true) /\
    json.field "availability_topic" (mqtt.payload msg)
    = (if config.MQTTLWTEnable (config m)
       then Some (json.Str "homeassistant/sensor/nvml-gpu-ha/availability")
       else None) /\
    json.field "payload_available" (mqtt.payload msg)
    = (if config.MQTTLWTEnable (config m)
       then Some (json.Str "online") else None) /\
    json.field "payload_not_available" (mqtt.payload msg)
    = (if config.MQTTLWTEnable (config m)
       then Some (json.Str "offline") else None).
Proof.
  unfold registerSensor, mqtt.Publish. cbv beta iota zeta.
  match goal with
  | |- context [mqtt.acks (client m) (mqtt.sent (client m)) ?x] => exists x
  end.
  split; [destruct (mqtt.acks _ _ _); reflexivity|].
  cbn [mqtt.qos mqtt.retained mqtt.payload].
  unfold MarshalSensorConfig, json.field, json.omitempty.
  cbn [Name StateTopic UniqueID DeviceClass UnitOfMeasurement Icon Device
       AvailabilityTopic PayloadAvailable PayloadNotAvailable ValueTemplate
       StateClass ForceUpdate].
  destruct (String.eqb t "") eqn:Et; rewrite ?Et;
    destruct (String.eqb dc ""), (String.eqb u ""), (String.eqb i ""),
      (String.eqb sc ""), (config.MQTTLWTEnable (config m));
    repeat split; reflexivity.
Qed.

Lemma registerEach_Forall (Q : mqtt.Message -> Prop) (cfg : config.Config)
  (id dn : string) (info : DeviceInfo) :
  (forall (m : Manager) (s : sensorDef),
     config m = cfg ->
     exists msg ok,
       registerSensor m id dn (key s) (name s) (deviceClass s) (unit s)
         (icon s) (stateClass s) (template s) info
       = ({| client :=
               {| mqtt.acks := mqtt.acks (client m);
                  mqtt.sent := (mqtt.sent (client m) ++ [msg])%list |};
             config := config m |}, ok) /\
       Q msg) ->
  forall (l : list sensorDef) (m : Manager),
    config m = cfg ->
    exists news,
      mqtt.sent (client (fst (registerEach m id dn info l)))
      = (mqtt.sent (client m) ++ news)%list /\
      Forall Q news.
Proof.
  intros Hone. induction l as [|s rest IH]; intros m Hcfg.
  - exists []. simpl. now rewrite app_nil_r.
  - cbn [registerEach].
    destruct (Hone m s Hcfg) as (msg & ok & -> & HQ).
    destruct ok as [e|].
    + exists [msg]. cbn [fst client mqtt.sent]. split; [reflexivity|].
      now repeat constructor.
    + match goal with
      | |- context [registerEach ?m1 _ _ _ rest] =>
          destruct (IH m1 Hcfg) as (news & Hsent & Hall)
      end.
      exists (msg :: news). rewrite Hsent. cbn [client mqtt.sent].
      rewrite <- app_assoc. split; [reflexivity|]. now constructor.
Qed.

(** X15.  Every discovery message [RegisterGPUSensors] publishes for a
    device has QoS 1 and the configured retain flag, asks for forced
    updates, and attaches its sensor to one and the same device record:
    identified by the short-id and the hardware identifier, named by the
    display name, with the device name as model and NVIDIA as
    manufacturer. *)
Theorem discovery_device_record (U : Unicode) (m : Manager)
  (device : nvidia.GPUDevice) (hostname : string) :
  exists news : list mqtt.Message,
    mqtt.sent (client (fst (RegisterGPUSensors m device hostname)))
    = (mqtt.sent (client m) ++ news)%list /\
    Forall
      (fun msg =>
         mqtt.qos msg = 1%Z /\
         mqtt.retained msg = config.MQTTRetain (config m) /\
         json.field "force_update" (mqtt.payload msg)
         = Some (json.Bool true) /\
         json.field "device" (mqtt.payload msg)
         = Some
             (json.Object
                [("identifiers",
                  json.Array [json.Str (nvidia.GetDeviceID device);
                              json.Str (nvidia.UUID device)]);
                 ("name",
                  json.Str (nvidia.GetDeviceDisplayName device hostname));
                 ("model", json.Str (nvidia.Name device));
                 ("manufacturer", json.Str "NVIDIA");
                 ("sw_version", json.Str "NVML")]))
      news.
Proof.
  unfold RegisterGPUSensors.
  apply (registerEach_Forall _ (config m)); [|reflexivity].
  intros m' s Hcfg.
  destruct (registerSensor_fields m' (nvidia.GetDeviceID device)
              (nvidia.GetDeviceDisplayName device hostname) (key s) (name s)
              (deviceClass s) (unit s) (icon s) (stateClass s) (template s)
              {| Identifiers := [nvidia.GetDeviceID device;
                                 nvidia.UUID device];
                 DeviceName := nvidia.GetDeviceDisplayName device hostname;
                 Model := nvidia.Name device;
                 Manufacturer := "NVIDIA";
                 SwVersion := "NVML" |})
    as (msg & E & Hq & Hr & _ & Hd & Hf & _).
  eexists msg, _. split; [exact E|].
  rewrite <- Hcfg. now repeat split.
Qed.

(** X16.  The availability wiring is one contract in four places.  With
    the last will enabled, every discovery document names the topic of
    the last will as its availability topic, the payload of the last will
    ("offline") as its not-available payload and the payload published on
    connect ("online") as its available payload, and
    [PublishAvailability] publishes to that same topic.  With it
    disabled there is no will, nothing is published on connect or by
    [PublishAvailability], and no document carries an availability
    field. *)
Theorem availability_wiring (U : Unicode) (m : Manager)
  (device : nvidia.GPUDevice) (hostname : string)
  (random : option string) (unix : Z)
  (acks : text.Message -> bool) (status : string) :
  let opts := availability.clientOptions (config m) random unix in
  let str := fun s : string => json.Str s in
  (exists news : list mqtt.Message,
     mqtt.sent (client (fst (RegisterGPUSensors m device hostname)))
     = (mqtt.sent (client m) ++ news)%list /\
     Forall
       (fun msg =>
          json.field "availability_topic" (mqtt.payload msg)
          = option_map (fun w => str (text.topic w))
              (availability.Will opts) /\
          json.field "payload_not_available" (mqtt.payload msg)
          = option_map (fun w => str (text.payload w))
              (availability.Will opts) /\
          json.field "payload_available" (mqtt.payload msg)
          = option_map (fun w => str (text.payload w))
              (head (availability.OnConnect opts)))
       news) /\
  map text.topic
    (fst (availability.PublishAvailability (config m) acks status))
  = map text.topic (availability.OnConnect opts) /\
  (config.MQTTLWTEnable (config m) = false ->
   availability.Will opts = None /\ availability.OnConnect opts = [] /\
   availability.PublishAvailability (config m) acks status = ([], None)) /\
  (config.MQTTLWTEnable (config m) = true ->
   exists will online,
     availability.Will opts = Some will /\
     availability.OnConnect opts = [online] /\
     text.topic will = text.topic online /\
     text.payload will = "offline" /\ text.payload online = "online").
Proof.
  cbv zeta. split; [|split; [|split]].
  - unfold RegisterGPUSensors.
    apply (registerEach_Forall _ (config m)); [|reflexivity].
    intros m' s Hcfg.
    match goal with
    | |- context [registerSensor m' ?id ?dn _ _ _ _ _ _ _ ?info] =>
        destruct (registerSensor_fields m' id dn (key s) (name s)
                    (deviceClass s) (unit s) (icon s) (stateClass s)
                    (template s) info)
          as (msg & E & _ & _ & _ & _ & _ & Ht & Hon & Hoff)
    end.
    eexists msg, _. split; [exact E|].
    rewrite Hcfg in Ht, Hon, Hoff. rewrite Ht, Hon, Hoff.
    unfold availability.clientOptions.
    cbn [availability.Will availability.OnConnect].
    now destruct (config.MQTTLWTEnable (config m)).
  - unfold availability.PublishAvailability, availability.clientOptions.
    cbn [availability.OnConnect].
    destruct (config.MQTTLWTEnable (config m)); [|reflexivity].
    cbn [negb]. now destruct (acks _).
  - intros H. unfold availability.PublishAvailability,
      availability.clientOptions.
    cbn [availability.Will availability.OnConnect]. now rewrite H.
  - intros H. unfold availability.clientOptions.
    cbn [availability.Will availability.OnConnect]. rewrite H.
    eexists _, _. now repeat split.
Qed.

Lemma availability_wiring_witness :
  exists will online,
    availability.Will
      (availability.clientOptions config.DefaultConfig None 0)
    = Some will /\
    availability.OnConnect
      (availability.clientOptions config.DefaultConfig None 0)
    = [online] /\
    text.topic will = text.topic online.
Proof.
  destruct (availability_wiring noTables
              {| client := freshClient; config := config.DefaultConfig |}
              sampleDevice "SERVER1" None 0 (fun _ => true) "online")
    as (_ & _ & _ & Hon).
  destruct (Hon eq_refl) as (will & online & Hw & Ho & Ht & _).
  exists will, online. now repeat split.
Defined.

(** ** Removal and the registration of all devices *)

Lemma removeEach_spec (cfg : config.Config) (acks : text.Message -> bool)
  (id : string) (l : list string) :
  let result := availability.removeEach cfg acks id l in
  map text.topic (fst result)
  = map (fun k => "homeassistant/sensor/nvml-gpu/" ++ id ++ "_" ++ k
                    ++ "/config") l /\
  Forall (fun msg => text.payload msg = "" /\ text.qos msg = 1%Z /\
                     text.retained msg = config.MQTTRetain cfg)
    (fst result) /\
  incl (snd result) l.
Proof.
  induction l as [|k l IH]; simpl.
  - repeat split; [constructor|intros x []].
  - destruct (availability.removeEach cfg acks id l) as [published logged].
    cbn [fst snd] in *. destruct IH as (Ht & Hall & Hincl).
    split; [simpl; f_equal; exact Ht|].
    split; [constructor; [now repeat split|exact Hall]|].
    destruct (acks _).
    + intros x Hx. right. now apply Hincl.
    + intros x [<-|Hx]; [now left|right; now apply Hincl].
Qed.

(** X17.  [RemoveGPUSensors] never fails and never stops early: whatever
    the bus acknowledges, it publishes five empty payloads, with QoS 1
    and the configured retain flag, to the config topics of the five
    metric keys, in order; these are exactly the topics a registration of
    the same device that succeeds has published to. *)
Theorem removal_retracts_registration (U : Unicode) (cfg : config.Config)
  (acks : text.Message -> bool) (device : nvidia.GPUDevice) :
  let result := availability.RemoveGPUSensors cfg acks device in
  let published := fst (fst result) in
  snd result = None /\
  map text.topic published
  = map (fun k => "homeassistant/sensor/nvml-gpu/"
                    ++ nvidia.GetDeviceID device ++ "_" ++ k ++ "/config")
      ["power_draw"; "performance_level"; "memory_usage";
       "gpu_utilization"; "temperature"] /\
  Forall (fun msg => text.payload msg = "" /\ text.qos msg = 1%Z /\
                     text.retained msg = config.MQTTRetain cfg)
    published /\
  (forall (m : Manager) (hostname : string) (news : list mqtt.Message),
     mqtt.sent (client (fst (RegisterGPUSensors m device hostname)))
     = (mqtt.sent (client m) ++ news)%list ->
     snd (RegisterGPUSensors m device hostname) = None ->
     map mqtt.topic news = map text.topic published).
Proof.
  cbv zeta. unfold availability.RemoveGPUSensors. cbn [fst snd].
  destruct (removeEach_spec cfg acks (nvidia.GetDeviceID device)
              availability.sensors) as (Ht & Hall & _).
  split; [reflexivity|]. split; [exact Ht|]. split; [exact Hall|].
  intros m hostname news Hsent Hok. rewrite Ht.
  unfold RegisterGPUSensors in Hsent, Hok.
  destruct (registerEach_spec (nvidia.GetDeviceID device)
              (nvidia.GetDeviceDisplayName device hostname)
              {| Identifiers := [nvidia.GetDeviceID device;
                                 nvidia.UUID device];
                 DeviceName := nvidia.GetDeviceDisplayName device hostname;
                 Model := nvidia.Name device;
                 Manufacturer := "NVIDIA";
                 SwVersion := "NVML" |} homeassistant.sensors m)
    as (n & news' & Hsent' & Htopics & _ & Hres).
  rewrite Hok in Hres. rewrite Hsent in Hsent'.
  apply app_inv_head in Hsent'. subst news' n. exact Htopics.
Qed.

Lemma removal_retracts_registration_witness :
  map mqtt.topic
    (mqtt.sent
       (client
          (fst (@RegisterGPUSensors noTables
                  {| client := freshClient;
                     config := config.DefaultConfig |}
                  sampleDevice "SERVER1"))))
  = map text.topic
      (fst (fst (@availability.RemoveGPUSensors noTables
                   config.DefaultConfig (fun _ => false) sampleDevice))).
Proof.
  destruct (removal_retracts_registration noTables config.DefaultConfig
              (fun _ => false) sampleDevice) as (_ & _ & _ & H).
  apply (H {| client := freshClient; config := config.DefaultConfig |}
           "SERVER1").
  - reflexivity.
  - vm_compute. reflexivity.
Defined.

(** X18.  The registration of one device does not depend on that of the
    devices before it: whatever fails, [run] attempts the first sensor
    of every device of the list. *)
Theorem every_device_is_attempted (U : Unicode) (gpus : list nvidia.GPUDevice)
  (hostname : string) :
  forall m : Manager,
  exists news : list mqtt.Message,
    mqtt.sent (client (startup.registerAll m gpus hostname))
    = (mqtt.sent (client m) ++ news)%list /\
    forall gpu, In gpu gpus ->
      In ("homeassistant/sensor/nvml-gpu/" ++ nvidia.GetDeviceID gpu
            ++ "_power_draw/config")
         (map mqtt.topic news).
Proof.
  unfold startup.registerAll.
  induction gpus as [|g gpus IH]; intros m.
  - exists []. simpl. split; [now rewrite app_nil_r|]. intros gpu [].
  - cbn [fold_left].
    destruct (IH (fst (RegisterGPUSensors m g hostname)))
      as (rest & Hrest & Hin).
    unfold RegisterGPUSensors in Hrest |- *.
    destruct (registerEach_spec (nvidia.GetDeviceID g)
                (nvidia.GetDeviceDisplayName g hostname)
                {| Identifiers := [nvidia.GetDeviceID g; nvidia.UUID g];
                   DeviceName := nvidia.GetDeviceDisplayName g hostname;
                   Model := nvidia.Name g;
                   Manufacturer := "NVIDIA";
                   SwVersion := "NVML" |} homeassistant.sensors m)
      as (n & news & Hsent & Htopics & _ & Hres).
    rewrite Hsent, <- app_assoc in Hrest.
    exists (news ++ rest)%list. split; [exact Hrest|].
    intros gpu [<-|Hgpu]; rewrite map_app; apply in_or_app.
    + left. rewrite Htopics.
      assert (Hn : (1 <= n)%nat).
      { destruct (snd _); [destruct Hres as (k & _ & _ & Hn); lia|].
        subst n. simpl. lia. }
      destruct n as [|n]; [lia|]. now left.
    + right. now apply Hin.
Qed.

Lemma every_device_is_attempted_witness :
  In "homeassistant/sensor/nvml-gpu/00_04_00_0_gpu9f8e7_power_draw/config"
    (map mqtt.topic
       (mqtt.sent
          (client
             (@startup.registerAll noTables refusingManager
                [sampleDevice; sampleDevice'] "SERVER1")))).
Proof.
  destruct (every_device_is_attempted noTables [sampleDevice; sampleDevice']
              "SERVER1" refusingManager) as (news & E & H).
  rewrite E. apply (H sampleDevice'). simpl. tauto.
Defined.

(** ** The temperature bridge *)

Lemma append_assoc (a b c : string) : (a ++ b) ++ c = a ++ b ++ c.
Proof. induction a as [|x a IH]; simpl; [reflexivity|]. now rewrite IH. Qed.

Lemma Contains_suffix (x pat : string) :
  pat <> "" -> ccd.Contains (x ++ pat) pat = true.
Proof.
  intros Hne. unfold ccd.Contains.
  destruct (index 0 pat (x ++ pat)) eqn:E; [reflexivity|].
  exfalso.
  apply (index_correct3 0 (String.length x) pat (x ++ pat) E Hne);
    [lia|].
  now rewrite substring_app_right, substring_all.
Qed.

Lemma HasSuffix_app (x suffix : string) :
  ccd.HasSuffix (x ++ suffix) suffix = true.
Proof.
  unfold ccd.HasSuffix. rewrite length_append.
  replace (String.length x + String.length suffix - String.length suffix)%nat
    with (String.length x) by lia.
  rewrite substring_app_right, substring_all, String.eqb_refl.
  rewrite andb_true_r. apply Nat.leb_le. lia.
Qed.

Lemma TrimSuffix_app (x suffix : string) :
  ccd.TrimSuffix (x ++ suffix) suffix = x.
Proof.
  unfold ccd.TrimSuffix. rewrite HasSuffix_app, length_append.
  replace (String.length x + String.length suffix - String.length suffix)%nat
    with (String.length x) by lia.
  apply substring_app_left.
Qed.

Lemma HasSuffix_inv (s suffix : string) :
  ccd.HasSuffix s suffix = true -> exists x, s = x ++ suffix.
Proof.
  unfold ccd.HasSuffix. intros H. apply andb_true_iff in H as [Hlen Heq].
  apply Nat.leb_le in Hlen. apply String.eqb_eq in Heq.
  exists (substring 0 (String.length s - String.length suffix) s).
  rewrite (substring_split s (String.length s - String.length suffix))
    at 1 by lia.
  f_equal. rewrite <- Heq at 3. f_equal. lia.
Qed.

(** The segments of a state topic whose device id holds no slash. *)
Lemma state_topic_parts (id key : string) :
  ContainsByte id "/" = false -> ContainsByte key "/" = false ->
  Split ("homeassistant/sensor/nvml-gpu/" ++ id ++ "_" ++ key ++ "/state") "/"
  = ["homeassistant"; "sensor"; "nvml-gpu"; id ++ "_" ++ key; "state"].
Proof.
  intros Hid Hkey.
  replace ("homeassistant/sensor/nvml-gpu/" ++ id ++ "_" ++ key ++ "/state")
    with ("homeassistant"
            ++ String "/"
                 ("sensor"
                    ++ String "/"
                         ("nvml-gpu"
                            ++ String "/"
                                 ((id ++ "_" ++ key) ++ String "/" "state")))).
  - rewrite !Split_app_sep; try reflexivity.
    rewrite !ContainsByte_app, Hid, Hkey. reflexivity.
  - simpl. now rewrite !append_assoc.
Qed.

Lemma bridge_on_temperature_topic (id tempDir : string)
  (payload : option json.value) :
  ContainsByte id "/" = false ->
  ccd.onTemperatureMessage tempDir
    ("homeassistant/sensor/nvml-gpu/" ++ id ++ "_" ++ "temperature"
       ++ "/state") payload
  = match ccd.Unmarshal payload with
    | None => None
    | Some temperature =>
        Some {| ccd.dir := tempDir;
                ccd.base := "temp_" ++ id;
                ccd.content := fmt.d (ccd.int (temperature * 1000)) |}
    end.
Proof.
  intros Hid. unfold ccd.onTemperatureMessage.
  replace (ccd.Contains
             ("homeassistant/sensor/nvml-gpu/" ++ id ++ "_"
                ++ "temperature" ++ "/state") "_temperature/state")
    with true.
  - rewrite (state_topic_parts id "temperature" Hid eq_refl).
    cbn [List.length Nat.ltb Nat.leb nth negb].
    change (id ++ "_" ++ "temperature") with (id ++ "_temperature").
    rewrite HasSuffix_app, TrimSuffix_app. reflexivity.
  - symmetry.
    replace ("homeassistant/sensor/nvml-gpu/" ++ id ++ "_"
               ++ "temperature" ++ "/state")
      with (("homeassistant/sensor/nvml-gpu/" ++ id)
              ++ "_temperature/state")
      by (now rewrite append_assoc).
    now apply Contains_suffix.
Qed.

(** X19.  The bridge reads back what the publisher writes: the topic the
    publisher uses for the temperature of a device is the topic the
    bridge subscribes to for that device id, and from a message on it the
    bridge recovers the device id (provided the id holds no slash) and
    writes the file temp_<id> of its directory. *)
Theorem bridge_recovers_device (cfg : config.Config) (c : mqtt.Client)
  (id tempDir : string) (t : Z) (msg : mqtt.Message) :
  ContainsByte id "/" = false ->
  mqtt.sent (main.publishSensor cfg id c ("temperature", json.GoInt t))
  = (mqtt.sent c ++ [msg])%list ->
  (id <> "" -> mqtt.topic msg = ccd.subscription id) /\
  ccd.onTemperatureMessage tempDir (mqtt.topic msg) (Some (mqtt.payload msg))
  = match ccd.Unmarshal (Some (json.Int t)) with
    | None => None
    | Some temperature =>
        Some {| ccd.dir := tempDir;
                ccd.base := "temp_" ++ id;
                ccd.content := fmt.d (ccd.int (temperature * 1000)) |}
    end.
Proof.
  intros Hid Hsent. rewrite publishSensor_sent in Hsent.
  apply app_inv_head in Hsent. cbn [fst snd json.Marshal] in Hsent.
  injection Hsent as <-. split.
  - intros Hne. unfold ccd.subscription.
    apply String.eqb_neq in Hne. now rewrite Hne.
  - exact (bridge_on_temperature_topic id tempDir (Some (json.Int t)) Hid).
Qed.

Lemma bridge_recovers_device_witness :
  ccd.onTemperatureMessage "/tmp"
    "homeassistant/sensor/nvml-gpu/00_04_00_0_gpu1a2b3_temperature/state"
    (Some (json.Int 55))
  = Some {| ccd.dir := "/tmp"; ccd.base := "temp_00_04_00_0_gpu1a2b3";
            ccd.content := "55000" |}.
Proof.
  destruct (bridge_recovers_device config.DefaultConfig freshClient
              "00_04_00_0_gpu1a2b3" "/tmp" 55
              {| mqtt.topic :=
                   "homeassistant/sensor/nvml-gpu/00_04_00_0_gpu1a2b3"
                     ++ "_temperature/state";
                 mqtt.qos := 1; mqtt.retained := true;
                 mqtt.payload := json.Int 55 |}) as [_ H].
  - reflexivity.
  - reflexivity.
  - etransitivity; [exact H|]. vm_compute. reflexivity.
Defined.

Lemma not_temperature_suffix (id key : string) :
  In key ["power_draw"; "performance_level"; "memory_usage";
          "gpu_utilization"] ->
  ccd.HasSuffix (id ++ "_" ++ key) "_temperature" = false.
Proof.
  intros Hkey.
  destruct (ccd.HasSuffix (id ++ "_" ++ key) "_temperature") eqn:E;
    [|reflexivity].
  exfalso. apply HasSuffix_inv in E as (x & E).
  apply (f_equal list_ascii_of_string) in E.
  rewrite !list_ascii_app in E.
  apply (f_equal (@rev ascii)) in E. rewrite !rev_app_distr in E.
  simpl in Hkey.
  repeat (destruct Hkey as [<-|Hkey]; [simpl in E; discriminate E|]).
  exact Hkey.
Qed.

Lemma bridge_off_temperature_topic (id key tempDir : string)
  (payload : option json.value) :
  In key ["power_draw"; "performance_level"; "memory_usage";
          "gpu_utilization"] ->
  ContainsByte id "/" = false ->
  ccd.onTemperatureMessage tempDir
    ("homeassistant/sensor/nvml-gpu/" ++ id ++ "_" ++ key ++ "/state")
    payload
  = None.
Proof.
  intros Hkey Hid. unfold ccd.onTemperatureMessage.
  destruct (ccd.Contains _ _); [|reflexivity].
  assert (Hk : ContainsByte key "/" = false).
  { simpl in Hkey.
    repeat (destruct Hkey as [<-|Hkey]; [reflexivity|]). contradiction. }
  rewrite (state_topic_parts id key Hid Hk).
  cbn [List.length Nat.ltb Nat.leb nth negb].
  now rewrite (not_temperature_suffix id key Hkey).
Qed.

(** X20.  The bridge writes no file for the state messages the publisher
    sends for the other four metrics of a device (whose id holds no
    slash), nor, on any topic, for a payload that is a JSON string,
    boolean, array or object (a discovery document) or no JSON at all.
    It does write for [null]: on the temperature topic of a device a
    [null] payload is read as 0 and the file gets the content 0. *)
Theorem bridge_ignores_the_rest (cfg : config.Config) (tempDir : string) :
  (forall (c : mqtt.Client) (id key : string) (v : json.interface)
          (msg : mqtt.Message),
     In key ["power_draw"; "performance_level"; "memory_usage";
             "gpu_utilization"] ->
     ContainsByte id "/" = false ->
     mqtt.sent (main.publishSensor cfg id c (key, v))
     = (mqtt.sent c ++ [msg])%list ->
     ccd.onTemperatureMessage tempDir (mqtt.topic msg)
       (Some (mqtt.payload msg)) = None) /\
  (forall (topic : string) (payload : option json.value),
     match payload with
     | Some (json.Float _) | Some (json.Int _) | Some json.Null => True
     | _ => ccd.onTemperatureMessage tempDir topic payload = None
     end) /\
  (forall id : string,
     ContainsByte id "/" = false ->
     ccd.onTemperatureMessage tempDir
       ("homeassistant/sensor/nvml-gpu/" ++ id ++ "_temperature/state")
       (Some json.Null)
     = Some {| ccd.dir := tempDir; ccd.base := "temp_" ++ id;
               ccd.content := "0" |}).
Proof.
  split; [|split].
  - intros c id key v msg Hkey Hid Hsent.
    rewrite publishSensor_sent in Hsent. apply app_inv_head in Hsent.
    cbn [fst snd] in Hsent.
    destruct (json.Marshal v) as [payload|]; [|discriminate Hsent].
    injection Hsent as <-.
    exact (bridge_off_temperature_topic id key tempDir (Some payload)
             Hkey Hid).
  - intros topic payload. unfold ccd.onTemperatureMessage.
    destruct payload as [[]|]; try exact I;
      destruct (ccd.Contains _ _); try reflexivity;
      cbn [negb]; destruct (_ <? _)%nat; try reflexivity;
      destruct (ccd.HasSuffix _ _); reflexivity.
  - intros id Hid.
    etransitivity;
      [exact (bridge_on_temperature_topic id tempDir (Some json.Null) Hid)|].
    cbn [ccd.Unmarshal]. do 2 f_equal.
Qed.

Lemma bridge_ignores_the_rest_witness :
  ccd.onTemperatureMessage "/tmp"
    "homeassistant/sensor/nvml-gpu/00_04_00_0_gpu1a2b3_gpu_utilization/state"
    (Some (json.Int 37))
  = None.
Proof.
  destruct (bridge_ignores_the_rest config.DefaultConfig "/tmp")
    as (H & _ & _).
  apply (H freshClient "00_04_00_0_gpu1a2b3" "gpu_utilization"
           (json.GoInt 37)
           {| mqtt.topic :=
                "homeassistant/sensor/nvml-gpu/00_04_00_0_gpu1a2b3"
                  ++ "_gpu_utilization/state";
              mqtt.qos := 1; mqtt.retained := true;
              mqtt.payload := json.Int 37 |}).
  - simpl. tauto.
  - reflexivity.
  - reflexivity.
Defined.

(** ** Loading the configuration *)

(** X21.  [LoadConfig] layers defaults, file and flags.  It fails exactly
    when the file at the chosen path (the flag --config, or
    /etc/nvml-gpu-ha.conf) exists and cannot be decoded; a missing file is
    no error.  Otherwise every setting is the value of its flag when the
    flag was set, else the value of its key when the file holds it, else
    the default; no value is checked, a polling period of 0 included. *)
Theorem LoadConfig_layers (fs : string -> loading.found)
  (flags : loading.Flags) :
  let path :=
    loading.orElse (loading.flag_config flags) "/etc/nvml-gpu-ha.conf" in
  let key := fun (A : Type) (g : loading.File -> option A) =>
    match fs path with
    | loading.Decoded f => g f
    | _ => None
    end in
  let layered := fun (A : Type) (flag : option A)
                     (g : loading.File -> option A) (default : A) =>
    loading.orElse flag (loading.orElse (key A g) default) in
  (loading.LoadConfig fs flags = None <-> fs path = loading.Unparsable) /\
  (fs path <> loading.Unparsable ->
   loading.LoadConfig fs flags
   = Some
       {| config.Hostname :=
            layered _ (loading.flag_hostname flags) loading.hostname "";
          config.MQTTHost :=
            layered _ (loading.flag_mqtt_host flags) loading.mqtt_host
              "localhost";
          config.MQTTPort :=
            layered _ (loading.flag_mqtt_port flags) loading.mqtt_port
              1883%Z;
          config.MQTTUsername :=
            layered _ (loading.flag_mqtt_username flags)
              loading.mqtt_username "";
          config.MQTTPassword :=
            layered _ (loading.flag_mqtt_password flags)
              loading.mqtt_password "";
          config.MQTTLWTEnable :=
            layered _ (loading.flag_mqtt_lwt_enable flags)
              loading.mqtt_lwt_enable true;
          config.MQTTRetain :=
            layered _ (loading.flag_mqtt_retain flags) loading.mqtt_retain
              true;
          config.PollingPeriod :=
            layered _ (loading.flag_polling_period flags)
              loading.polling_period 30%Z |}).
Proof.
  cbv zeta. unfold loading.LoadConfig, loading.LoadConfigFromFile.
  destruct (fs _) as [| |f].
  - split; [split; intros H; discriminate H|]. intros _. reflexivity.
  - split; [split; reflexivity|]. intros H. now contradiction H.
  - split; [split; intros H; discriminate H|]. intros _. reflexivity.
Qed.

Lemma LoadConfig_layers_witness :
  loading.LoadConfig oneFile (periodFlag 0)
  = Some {| config.Hostname := ""; config.MQTTHost := "broker.lan";
            config.MQTTPort := 1883; config.MQTTUsername := "";
            config.MQTTPassword := ""; config.MQTTLWTEnable := true;
            config.MQTTRetain := true; config.PollingPeriod := 0 |}.
Proof.
  destruct (LoadConfig_layers oneFile (periodFlag 0)) as [_ H].
  rewrite H; [reflexivity|]. simpl. discriminate.
Defined.

(** ** The sample *)

Lemma sample_fields (gpu : nvidia.GPUDevice) :
  let h := nvidia.Handle gpu in
  let tolerated := fun r : nvml.Return =>
    r = nvml.SUCCESS \/ r = nvml.ERROR_NOT_SUPPORTED in
  (snd (nvidia.getGPUMetricsInternal gpu) = None <->
   tolerated (snd (nvml.GetPowerUsage h)) /\
   tolerated (snd (nvml.GetPerformanceState h)) /\
   snd (nvml.GetMemoryInfo h) = nvml.SUCCESS /\
   tolerated (snd (nvml.GetUtilizationRates h)) /\
   tolerated (snd (nvml.GetTemperature h))) /\
  (snd (nvidia.getGPUMetricsInternal gpu) = None ->
   let m := fst (nvidia.getGPUMetricsInternal gpu) in
   nvidia.PerformanceLevel m
   = (if nvml.isSUCCESS (snd (nvml.GetPerformanceState h))
      then "P" ++ fmt.d (fst (nvml.GetPerformanceState h)) else "") /\
   nvidia.GPUUtilization m
   = (if nvml.isSUCCESS (snd (nvml.GetUtilizationRates h))
      then nvml.Gpu (fst (nvml.GetUtilizationRates h)) else 0%Z) /\
   nvidia.MemoryUtilization m
   = (if nvml.isSUCCESS (snd (nvml.GetUtilizationRates h))
      then nvml.Mem (fst (nvml.GetUtilizationRates h)) else 0%Z) /\
   nvidia.Temperature m
   = (if nvml.isSUCCESS (snd (nvml.GetTemperature h))
      then fst (nvml.GetTemperature h) else 0%Z) /\
   nvidia.MemoryUsage m
   = (float64 (nvml.Used (fst (nvml.GetMemoryInfo h)))
        / float64 (nvml.Total (fst (nvml.GetMemoryInfo h))) * 100)%float /\
   nvidia.PowerDraw m
   = (if nvml.isSUCCESS (snd (nvml.GetPowerUsage h))
      then (float64 (fst (nvml.GetPowerUsage h)) / 1000)%float
      else 0%float)).
Proof.
  cbv zeta. unfold nvidia.getGPUMetricsInternal.
  destruct (nvidia.Handle gpu) as [[p r1] [s r2] [mi r3] [u r4] [t r5]].
  cbn [GetPowerUsage GetPerformanceState GetMemoryInfo GetUtilizationRates
       GetTemperature fst snd].
  destruct r1, r2, r3, r4, r5; cbn; split;
    try (intros H; discriminate H);
    try (split; [intros H; discriminate H|]);
    try (split; [intros _; repeat split; auto|]);
    try (intros _; reflexivity);
    try (intros _; repeat split; reflexivity);
    intros (H1 & H2 & H3 & H4 & H5);
    try discriminate H3;
    try (destruct H1 as [H1|H1]; discriminate H1);
    try (destruct H2 as [H2|H2]; discriminate H2);
    try (destruct H4 as [H4|H4]; discriminate H4);
    try (destruct H5 as [H5|H5]; discriminate H5).
Qed.

(** X22.  A sample succeeds exactly when the memory-info query succeeds
    and each of the four other queries either succeeds or is
    unsupported; the utilization, temperature and performance-level
    fields then hold what the queries answered, or the zero value where
    the query is unsupported. *)
Theorem sample_succeeds_iff (gpu : nvidia.GPUDevice) :
  let h := nvidia.Handle gpu in
  let tolerated := fun r : nvml.Return =>
    r = nvml.SUCCESS \/ r = nvml.ERROR_NOT_SUPPORTED in
  (snd (nvidia.getGPUMetricsInternal gpu) = None <->
   tolerated (snd (nvml.GetPowerUsage h)) /\
   tolerated (snd (nvml.GetPerformanceState h)) /\
   snd (nvml.GetMemoryInfo h) = nvml.SUCCESS /\
   tolerated (snd (nvml.GetUtilizationRates h)) /\
   tolerated (snd (nvml.GetTemperature h))) /\
  (snd (nvidia.getGPUMetricsInternal gpu) = None ->
   let m := fst (nvidia.getGPUMetricsInternal gpu) in
   nvidia.PerformanceLevel m
   = (if nvml.isSUCCESS (snd (nvml.GetPerformanceState h))
      then "P" ++ fmt.d (fst (nvml.GetPerformanceState h)) else "") /\
   nvidia.GPUUtilization m
   = (if nvml.isSUCCESS (snd (nvml.GetUtilizationRates h))
      then nvml.Gpu (fst (nvml.GetUtilizationRates h)) else 0%Z) /\
   nvidia.MemoryUtilization m
   = (if nvml.isSUCCESS (snd (nvml.GetUtilizationRates h))
      then nvml.Mem (fst (nvml.GetUtilizationRates h)) else 0%Z) /\
   nvidia.Temperature m
   = (if nvml.isSUCCESS (snd (nvml.GetTemperature h))
      then fst (nvml.GetTemperature h) else 0%Z) /\
   nvidia.MemoryUsage m
   = (float64 (nvml.Used (fst (nvml.GetMemoryInfo h)))
        / float64 (nvml.Total (fst (nvml.GetMemoryInfo h))) * 100)%float /\
   nvidia.PowerDraw m
   = (if nvml.isSUCCESS (snd (nvml.GetPowerUsage h))
      then (float64 (fst (nvml.GetPowerUsage h)) / 1000)%float
      else 0%float)).
Proof. exact (sample_fields gpu). Qed.

Lemma sample_succeeds_iff_witness :
  nvidia.GPUUtilization (fst (nvidia.getGPUMetricsInternal sampleDevice))
  = 37%Z /\
  nvidia.Temperature (fst (nvidia.getGPUMetricsInternal sampleDevice))
  = 55%Z.
Proof.
  destruct (sample_succeeds_iff sampleDevice) as [_ H].
  destruct H as (_ & Hutil & _ & Htemp & _).
  - vm_compute. reflexivity.
  - split; [exact Hutil|exact Htemp].
Defined.

(** X23.  A card that reports a total memory of 0 (and 0 used) makes the
    memory-usage percentage 0/0: the value is not a number,
    [json.Marshal] refuses it, and that cycle nothing is published to the
    memory_usage state topic of the device, while the sample as a whole
    still counts as a success. *)
Theorem zero_total_memory_skips_usage (U : Unicode) (rt : main.Runtime)
  (cfg : config.Config) (client : mqtt.Client) (gpu : nvidia.GPUDevice)
  (free : Z) :
  nvml.GetMemoryInfo (nvidia.Handle gpu)
  = ({| nvml.Total := 0; nvml.Free := free; nvml.Used := 0 |},
     nvml.SUCCESS) ->
  snd (nvidia.GetGPUMetrics (main.inTime rt gpu) gpu) = None ->
  (forall l, Permutation (main.rangeOrder rt l) l) ->
  exists news : list mqtt.Message,
    mqtt.sent (main.monitorGPU rt cfg client gpu)
    = (mqtt.sent client ++ news)%list /\
    ~ In ("homeassistant/sensor/nvml-gpu/" ++ nvidia.GetDeviceID gpu
            ++ "_memory_usage/state")
        (map mqtt.topic news).
Proof.
  intros Hmem Hok Hperm. unfold main.monitorGPU.
  unfold nvidia.GetGPUMetrics in *.
  destruct (main.inTime rt gpu); [|discriminate Hok].
  destruct (sample_fields gpu) as [_ Hfields].
  specialize (Hfields Hok). cbv zeta in Hfields.
  destruct Hfields as (_ & _ & _ & _ & Husage & _).
  rewrite Hmem in Husage. cbn [fst nvml.Used nvml.Total] in Husage.
  destruct (nvidia.getGPUMetricsInternal gpu) as [m r].
  cbn [fst snd] in *. subst r.
  unfold main.publishMetrics. rewrite publish_fold_exact.
  eexists. split; [reflexivity|].
  intros Hin. apply in_map_iff in Hin as (msg & Htopic & Hin).
  apply in_flat_map in Hin as (e & He & Hmsg).
  apply (Permutation_in e (Hperm _)) in He.
  destruct (json.Marshal (snd e)) as [payload|] eqn:EM; [|contradiction].
  destruct Hmsg as [<-|[]]. cbn [mqtt.topic] in Htopic.
  apply (append_inv_head "homeassistant/sensor/nvml-gpu/") in Htopic.
  apply (append_inv_head (nvidia.GetDeviceID gpu)) in Htopic.
  simpl in He.
  destruct He as [<-|[<-|[<-|[<-|[<-|[]]]]]]; cbn [fst snd] in *;
    try discriminate Htopic.
  rewrite Husage in EM. vm_compute in EM. discriminate EM.
Qed.

Lemma zero_total_memory_skips_usage_witness :
  ~ In "homeassistant/sensor/nvml-gpu/00_04_00_0_gpu1a2b3_memory_usage/state"
      (map mqtt.topic
         (mqtt.sent
            (@main.monitorGPU noTables promptRuntime config.DefaultConfig
               freshClient noMemoryCard))).
Proof.
  destruct (zero_total_memory_skips_usage noTables promptRuntime
              config.DefaultConfig freshClient noMemoryCard 0)
    as (news & E & H).
  - reflexivity.
  - vm_compute. reflexivity.
  - intros l. apply Permutation_refl.
  - rewrite E. exact H.
Defined.

(** ** Short-ids in topics *)

Lemma lowerByte_slash (c : ascii) :
  Ascii.eqb (lowerByte c) "/" = Ascii.eqb c "/".
Proof. destruct c as [[] [] [] [] [] [] [] []]; reflexivity. Qed.

Lemma ContainsByte_lower_slash (s : string) :
  ContainsByte (mapBytes lowerByte s) "/" = ContainsByte s "/".
Proof.
  induction s as [|x s IH]; simpl; [reflexivity|].
  now rewrite lowerByte_slash, IH.
Qed.

(** X24.  The short-id of an ASCII device whose bus location and
    hardware identifier hold no slash holds no slash either, so the
    state topic of each of its metrics has exactly five segments, the
    fourth being <short-id>_<metric-key>. *)
Theorem short_id_is_one_segment (U : Unicode) (d : nvidia.GPUDevice)
  (key : string) :
  asciiDevice d ->
  ContainsByte (nvidia.PCIBusID d) "/" = false ->
  ContainsByte (nvidia.UUID d) "/" = false ->
  ContainsByte key "/" = false ->
  ContainsByte (nvidia.GetDeviceID d) "/" = false /\
  Split ("homeassistant/sensor/nvml-gpu/" ++ nvidia.GetDeviceID d ++ "_"
           ++ key ++ "/state") "/"
  = ["homeassistant"; "sensor"; "nvml-gpu";
     nvidia.GetDeviceID d ++ "_" ++ key; "state"].
Proof.
  intros Hd Hbus Huuid Hkey.
  assert (Hid : ContainsByte (nvidia.GetDeviceID d) "/" = false).
  { rewrite (GetDeviceID_ascii d Hd).
    rewrite !ContainsByte_app, !ContainsByte_lower_slash. cbn [ContainsByte].
    replace (ContainsByte (busPart d) "/") with false.
    - replace (ContainsByte (uuidSuffix d) "/") with false; [reflexivity|].
      symmetry. unfold uuidSuffix.
      assert (H : ContainsByte (Replace (nvidia.UUID d) "-" "") "/" = false)
        by (now apply Replace_keeps_absent).
      destruct (8 <? _)%nat; [now apply ContainsByte_substring|exact H].
    - symmetry. unfold busPart.
      repeat apply Replace_keeps_absent; try reflexivity.
      rewrite ContainsByte_allBytes, negb_false_iff.
      apply allBytes_GetShortPCIBusID; [reflexivity|].
      rewrite ContainsByte_allBytes, negb_false_iff in Hbus. exact Hbus. }
  split; [exact Hid|]. now apply state_topic_parts.
Qed.

Lemma short_id_is_one_segment_witness :
  ContainsByte (@nvidia.GetDeviceID noTables sampleDevice) "/" = false.
Proof.
  apply (short_id_is_one_segment noTables sampleDevice "temperature");
    try reflexivity.
  split; reflexivity.
Defined.
